(** * Structure-websites plugin: template sanitizer, document merger and
      template fan-out, embedded from the Go sources.

    Sources embedded here:
    - [sanitizeTemplateDocument], [buildTemplateValue], [mergeTemplateValues],
      [copyTemplateValue], [toTemplateMap], [toTemplateSlice], [cloneMap],
      [deepCopyValue]   (package structure_websites, template helpers);
    - [mergeJSONDocuments], [UpdateStructureWebsite], [ApplyStructureTemplate],
      [prepareTemplateDocument]   (package structure_websites, functions).

    Go's [interface{}] document trees are a tagged value type; Go maps are
    finite maps with extensional equality, and each loop over a map is
    shown to end in the same map whatever the order of iteration (lemmas
    [..._any_order]); MongoDB collections are lists of documents. *)

From stdpp Require Import gmap strings list fin_maps sorting.
From Stdlib Require Import ZArith NArith Ascii String.

Local Open Scope string_scope.
Local Open Scope Z_scope.

(** ** Dynamic values *)

Module Bson.

(** [primitive.ObjectID] is a [12]byte array; it is kept as the 96-bit
    big-endian number those bytes spell. *)
Definition ObjectID := N.

(** The dynamic types a decoded JSON/BSON tree can carry.  [VMap] is
    [map[string]interface{}], [VPrimM] is [primitive.M], [VSlice] is
    [[]interface{}], [VPrimA] is [primitive.A]; [VInt] stands for [int],
    [int32] and [int64], [VFloat] for [float32] and [float64] (the payload
    is the IEEE bit pattern, never inspected); [VOther] is any dynamic type
    the type switches do not name (timestamps, binary, ...). *)
#[warnings="-register-all"]
Inductive value : Type :=
| VNil
| VString (s : string)
| VBool (b : bool)
| VInt (n : Z)
| VFloat (bits : N)
| VObjectID (id : ObjectID)
| VOther (tag : string)
| VMap (m : gmap string value)
| VPrimM (m : gmap string value)
| VSlice (l : list value)
| VPrimA (l : list value).

(** A document is a [map[string]interface{}]. *)
Abbreviation document := (gmap string value).

(** [m[k]] read through an [interface{}]: a missing key reads as nil. *)
Definition readKey (m : document) (k : string) : value := default VNil (m !! k).

(** The body of a loop [for k, v := range src { ... dst[k] = x ... }] that
    assigns to the key it visits, or leaves it ([None]), after reading at
    most that key of [dst]. *)
Definition rangeAssign (h : string → value → option value → option value)
    (k : string) (v : value) (dst : document) : document :=
  match h k v (dst !! k) with
  | Some x => <[k := x]> dst
  | None => dst
  end.

(** Nesting depth, the measure for induction over document trees. *)
Fixpoint depth (v : value) : nat :=
  match v with
  | VMap m | VPrimM m => S (map_fold (fun _ x acc => Nat.max (depth x) acc) 0%nat m)
  | VSlice l | VPrimA l => S (foldr (fun x acc => Nat.max (depth x) acc) 0%nat l)
  | _ => 0%nat
  end.

End Bson.
Export Bson.

(** ** Template sanitizer and skeleton merge *)

Module Sanitizer.

(* func copyTemplateValue(value interface{}) interface{} *)
Fixpoint copyTemplateValue (v : value) : value :=
  match v with
  | VMap m => VMap (copyTemplateValue <$> m)
  | VSlice l => VSlice (copyTemplateValue <$> l)
  | _ => v
  end.

(* func toTemplateMap(value interface{}) map[string]interface{} *)
Definition toTemplateMap (v : value) : document :=
  match v with
  | VMap m => m
  | VSlice l =>
      match l with
      | [] => ∅
      | VMap first :: _ => first
      | _ :: _ => ∅
      end
  | VNil => ∅
  | _ => ∅
  end.

(* func toTemplateSlice(value interface{}) []interface{} *)
Definition toTemplateSlice (v : value) : list value :=
  match v with
  | VSlice l => l
  | VMap m => [VMap m]
  | VNil => []
  | _ => [copyTemplateValue v]
  end.

(** [mergeTemplateValues base incoming].  The recursion is on [base]: the
    object case recurses on [b[key]] and the array case on [b[0]].  The
    object case updates [b] in place while ranging over the incoming map;
    [recur] tabulates the recursive call for each entry of [b], so that the
    loop body reads [mergeTemplateValues(b[key], val)] off the table (a key
    absent from [b] reads nil, and merging into nil is a copy).  Lemma
    [mergeTemplateValues_map] below restates the loop exactly as written in
    the source, reading [b[key]] from the map being updated.  In the array
    case an empty [b] has a nil [baseElem], and merging into nil is a copy;
    lemma [mergeTemplateValues_slice] restates the case with
    [mergeTemplateValues(baseElem, incomingElem)] throughout. *)
Fixpoint mergeTemplateValues (base incoming : value) {struct base} : value :=
  match base with
  | VNil => copyTemplateValue incoming
  | _ =>
    match incoming with
    | VNil => base
    | _ =>
      match base with
      | VMap b =>
          let recur := mergeTemplateValues <$> b in
          let incomingMap := toTemplateMap incoming in
          VMap (map_fold
                  (fun key val (b' : document) =>
                     <[key := match recur !! key with
                              | Some mergeInto => mergeInto val
                              | None => copyTemplateValue val
                              end]> b')
                  b incomingMap)
      | VSlice b =>
          let incomingSlice := toTemplateSlice incoming in
          match b, incomingSlice with
          | [], [] => VSlice []
          | _, _ =>
              let incomingElem :=
                match incomingSlice with [] => VNil | x :: _ => x end in
              let merged :=
                match b with
                | [] => copyTemplateValue incomingElem
                | baseElem :: _ => mergeTemplateValues baseElem incomingElem
                end in
              match merged with
              | VNil => VSlice []
              | _ => VSlice [merged]
              end
          end
      | _ => base
      end
    end
  end.

(* func buildTemplateValue(value interface{}) interface{} *)
Fixpoint buildTemplateValue (v : value) : value :=
  match v with
  | VMap m | VPrimM m =>
      VMap (map_fold
              (fun key raw (result : document) =>
                 <[key := mergeTemplateValues (readKey result key)
                                              (buildTemplateValue raw)]> result)
              ∅ m)
  | VSlice l | VPrimA l =>
      let element :=
        fold_left (fun element item =>
                     mergeTemplateValues element (buildTemplateValue item))
                  l VNil in
      match element with
      | VNil => VSlice []
      | _ => VSlice [element]
      end
  | VString _ | VNil => VString ""
  | VBool _ => VBool false
  | VInt _ => VInt 0
  | VFloat _ => VInt 0
  | _ => VString ""
  end.

(** [sanitizeTemplateDocument]: a nil document ([None]) stays nil. *)
Definition sanitizeTemplateDocument (doc : option document) : option document :=
  match doc with
  | None => None
  | Some d =>
      match buildTemplateValue (VMap d) with
      | VMap mapped => Some mapped
      | _ => Some ∅
      end
  end.

(* func deepCopyValue(value interface{}) interface{} *)
Fixpoint deepCopyValue (v : value) : value :=
  match v with
  | VMap m => VMap (deepCopyValue <$> m)
  | VSlice l => VSlice (deepCopyValue <$> l)
  | VPrimM m => VMap (deepCopyValue <$> m)
  | VPrimA l => VSlice (deepCopyValue <$> l)
  | _ => v
  end.

(* func cloneMap(src map[string]interface{}) map[string]interface{} *)
Definition cloneMap (src : document) : document := deepCopyValue <$> src.

End Sanitizer.
Export Sanitizer.

(** ** Shapes of skeletons and key paths *)

Module Shapes.

(** The values the sanitizer produces: zero-valued leaves, objects of
    skeletons, and arrays of at most one skeleton. *)
Inductive skeleton : value → Prop :=
| sk_string : skeleton (VString "")
| sk_bool : skeleton (VBool false)
| sk_int : skeleton (VInt 0)
| sk_map (m : document) :
    (∀ k v, m !! k = Some v → skeleton v) → skeleton (VMap m)
| sk_empty : skeleton (VSlice [])
| sk_single e : skeleton e → skeleton (VSlice [e]).


(** A leaf carries no object keys. *)
Definition isLeaf (v : value) : bool :=
  match v with
  | VMap _ | VPrimM _ | VSlice _ | VPrimA _ => false
  | _ => true
  end.



End Shapes.
Export Shapes.

(** ** Go library functions the plugin calls *)

Module GoLib.

(** [strings.ToLower], on the ASCII letters. *)
Definition lowerByte (c : ascii) : ascii :=
  let n := N_of_ascii c in
  if ((65 <=? n) && (n <=? 90))%N then ascii_of_N (n + 32) else c.

Fixpoint ToLower (s : string) : string :=
  match s with
  | EmptyString => EmptyString
  | String c rest => String (lowerByte c) (ToLower rest)
  end.

(** White space as [strings.TrimSpace] sees it: the runes [unicode.IsSpace]
    accepts, in their UTF-8 encoding.  One byte: tab, line feed, vertical
    tab, form feed, carriage return, space. *)
Definition isSpace (c : ascii) : bool :=
  let n := N_of_ascii c in
  ((n =? 9) || (n =? 10) || (n =? 11) || (n =? 12) || (n =? 13) || (n =? 32))%N.

(** Two bytes: U+0085 (C2 85) and U+00A0 (C2 A0). *)
Definition isSpace2 (c1 c2 : ascii) : bool :=
  let n1 := N_of_ascii c1 in
  let n2 := N_of_ascii c2 in
  ((n1 =? 194) && ((n2 =? 133) || (n2 =? 160)))%N.

(** Three bytes: U+1680 (E1 9A 80), U+2000 to U+200A (E2 80 80 to
    E2 80 8A), U+2028 and U+2029 (E2 80 A8, E2 80 A9), U+202F (E2 80 AF),
    U+205F (E2 81 9F) and U+3000 (E3 80 80). *)
Definition isSpace3 (c1 c2 c3 : ascii) : bool :=
  let n1 := N_of_ascii c1 in
  let n2 := N_of_ascii c2 in
  let n3 := N_of_ascii c3 in
  ((n1 =? 225) && (n2 =? 154) && (n3 =? 128)
   || (n1 =? 226) && (n2 =? 128)
      && ((128 <=? n3) && (n3 <=? 138) || (n3 =? 168) || (n3 =? 169)
          || (n3 =? 175))
   || (n1 =? 226) && (n2 =? 129) && (n3 =? 159)
   || (n1 =? 227) && (n2 =? 128) && (n3 =? 128))%N.

(** The string is exactly one white-space rune. *)
Definition isSpaceRune (s : string) : bool :=
  match s with
  | String c1 EmptyString => isSpace c1
  | String c1 (String c2 EmptyString) => isSpace2 c1 c2
  | String c1 (String c2 (String c3 EmptyString)) => isSpace3 c1 c2 c3
  | _ => false
  end.

(** [strings.TrimLeftFunc(s, unicode.IsSpace)]: the runes are decoded from
    the front and dropped while they are white space; a byte that starts no
    white-space rune (an invalid byte included) ends the scan. *)
Fixpoint trimLeft (s : string) : string :=
  match s with
  | EmptyString => EmptyString
  | String c1 rest1 =>
      if isSpace c1 then trimLeft rest1
      else
        match rest1 with
        | String c2 rest2 =>
            if isSpace2 c1 c2 then trimLeft rest2
            else
              match rest2 with
              | String c3 rest3 =>
                  if isSpace3 c1 c2 c3 then trimLeft rest3 else s
              | EmptyString => s
              end
        | EmptyString => s
        end
  end.

(** [strings.TrimRightFunc(s, unicode.IsSpace)]: the runes are decoded from
    the back and dropped while they are white space.  Going through the
    string from the front, a byte stays in front of what is kept of the
    rest, unless the two together are exactly one white-space rune: then
    everything from that byte on was white space. *)
Fixpoint trimRight (s : string) : string :=
  match s with
  | EmptyString => EmptyString
  | String c rest =>
      let kept := String c (trimRight rest) in
      if isSpaceRune kept then EmptyString else kept
  end.

(* func TrimSpace(s string) string *)
Definition TrimSpace (s : string) : string := trimRight (trimLeft s).

Definition hexDigit (c : ascii) : option N :=
  let n := N_of_ascii c in
  if ((48 <=? n) && (n <=? 57))%N then Some (n - 48)%N
  else if ((97 <=? n) && (n <=? 102))%N then Some (n - 87)%N
  else if ((65 <=? n) && (n <=? 70))%N then Some (n - 55)%N
  else None.

Fixpoint hexValue (s : string) (acc : N) : option N :=
  match s with
  | EmptyString => Some acc
  | String c rest =>
      match hexDigit c with
      | Some d => hexValue rest (16 * acc + d)%N
      | None => None
      end
  end.

(** [primitive.ObjectIDFromHex]: exactly 24 hexadecimal digits. *)
Definition ObjectIDFromHex (s : string) : option ObjectID :=
  if (String.length s =? 24)%nat then hexValue s 0%N else None.

(** Go compares strings byte by byte. *)
Definition strLe (s t : string) : Prop := String.leb s t = true.

#[global] Instance strLe_dec : RelDecision strLe :=
  fun s t => decide (String.leb s t = true).

(** [sort.Strings]: the ascending rearrangement of the slice. *)
Definition sortStrings (l : list string) : list string := merge_sort strLe l.

End GoLib.
Export GoLib.

(** ** The process environment and the MongoDB deployment *)

Module Mongo.

(** A collection is the list of its documents in natural order. *)
Abbreviation collection := (list document).

(** Everything the functions read or change besides their arguments: two
    environment variables, whether [db.MongoClient] is set, the collections
    of every database (keyed by database and collection name), and the
    source of fresh ObjectIDs ([primitive.NewObjectID] and the server's own
    generator on an upsert that inserts). *)
Record world : Type := {
  envLocalDevelopment : string;
  envMongoDBName : string;
  mongoClientReady : bool;
  store : gmap (string * string) collection;
  oidSource : nat → ObjectID;
  oidNext : nat
}.

Definition withStore (w : world) (st : gmap (string * string) collection) : world :=
  {| envLocalDevelopment := envLocalDevelopment w;
     envMongoDBName := envMongoDBName w;
     mongoClientReady := mongoClientReady w;
     store := st;
     oidSource := oidSource w;
     oidNext := oidNext w |}.

Definition withOidNext (w : world) (n : nat) : world :=
  {| envLocalDevelopment := envLocalDevelopment w;
     envMongoDBName := envMongoDBName w;
     mongoClientReady := mongoClientReady w;
     store := store w;
     oidSource := oidSource w;
     oidNext := n |}.

(** The documents of collection [coll] of database [db]; a collection
    never written is empty. *)
Definition documentsOf (w : world) (db coll : string) : collection :=
  default [] (store w !! (db, coll)).

Inductive error : Type :=
| ErrLocalDevelopmentOnly   (* mutation is available only when LOCAL_DEVELOPMENT=true *)
| ErrIdRequired             (* id is required *)
| ErrPayloadNil             (* payload cannot be nil *)
| ErrNoDatabase             (* utils.GetMongoDB failed *)
| ErrInvalidIdFormat        (* invalid id format *)
| ErrTemplateKeyRequired    (* templateKey is required *)
| ErrDocumentsEmpty         (* documents payload cannot be empty *)
| ErrDocument (idx : nat) (cause : error)   (* document %d: ... *)
| ErrInvalidIdValue (v : string)            (* invalid _id value %q *)
| ErrIdType                 (* _id must be a hex string or ObjectID *)
| ErrNoUsableDocuments      (* no usable documents after sanitizing input *)
| ErrMongoClient            (* mongo client is not initialized *)
| ErrDecodeClient.          (* failed to decode client document *)

Inductive result (A : Type) : Type :=
| Ok (a : A)
| Err (e : error).
Arguments Ok {A} a.
Arguments Err {A} e.

(** Computations that read and change the world and may stop with an
    error; the world reached so far is kept when they do. *)
Definition M (A : Type) : Type := world → result A * world.

Definition ret {A} (a : A) : M A := fun w => (Ok a, w).
Definition fail {A} (e : error) : M A := fun w => (Err e, w).
Definition bind {A B} (m : M A) (k : A → M B) : M B :=
  fun w => match m w with
           | (Ok a, w') => k a w'
           | (Err e, w') => (Err e, w')
           end.
Definition gets {A} (f : world → A) : M A := fun w => (Ok (f w), w).

Notation "x <- m ;; k" := (bind m (fun x => k))
  (at level 100, m at next level, right associativity).
Notation "m ;;; k" := (bind m (fun _ => k))
  (at level 100, right associativity).

(* primitive.NewObjectID() *)
Definition NewObjectID : M ObjectID :=
  fun w => (Ok (oidSource w (oidNext w)), withOidNext w (S (oidNext w))).

Definition updateCollection (db coll : string) (f : collection → collection) : M unit :=
  fun w => (Ok tt, withStore w (<[(db, coll) := f (documentsOf w db coll)]> (store w))).

(** Equality of an [_id] filter value with a stored [_id], for the scalar
    identities (ObjectID, string, integer). *)
Definition idEq (a b : value) : bool :=
  match a, b with
  | VObjectID x, VObjectID y => bool_decide (x = y)
  | VString s, VString t => bool_decide (s = t)
  | VInt n, VInt m => bool_decide (n = m)
  | _, _ => false
  end.

(** Does document [d] satisfy the filter [{"_id": key}]? *)
Definition matchesId (key : value) (d : document) : bool :=
  match d !! "_id" with
  | Some v => idEq key v
  | None => false
  end.

(** [FindOne(bson.M{"_id": key})]; [None] is [mongo.ErrNoDocuments]. *)
Definition FindOne (key : value) (c : collection) : option document :=
  List.find (matchesId key) c.

(** [ReplaceOne(bson.M{"_id": key}, doc, SetUpsert(true))]: the first
    document matching the filter is replaced as a whole; without a match
    [doc] is inserted. *)
Fixpoint ReplaceOne (key : value) (doc : document) (c : collection) : collection :=
  match c with
  | [] => [doc]
  | d :: rest =>
      if matchesId key d then doc :: rest else d :: ReplaceOne key doc rest
  end.

(** Does document [d] escape the filter [{"_id": {"$nin": ids}}], that is,
    is its [_id] one of [ids]? *)
Definition idAmong (ids : list ObjectID) (d : document) : bool :=
  match d !! "_id" with
  | Some (VObjectID x) => bool_decide (x ∈ ids)
  | _ => false
  end.

(** [DeleteMany(bson.M{"_id": bson.M{"$nin": ids}})]: what is left, and the
    deleted count. *)
Definition DeleteMany (ids : list ObjectID) (c : collection) : collection * nat :=
  (List.filter (idAmong ids) c,
   List.length (List.filter (fun d => negb (idAmong ids d)) c)).

(** [UpdateOne(filter, {"$set": fields}, SetUpsert(true))] for a filter
    decided by [matches]: the fields are set in the first matching
    document; without a match a document made of a fresh [_id] and the
    fields is inserted. *)
Fixpoint updateFirst (matches : document → bool) (fields : document)
    (c : collection) : option collection :=
  match c with
  | [] => None
  | d :: rest =>
      if matches d then Some ((fields ∪ d) :: rest)
      else cons d <$> updateFirst matches fields rest
  end.

End Mongo.
Export Mongo.

(** ** The structure_websites functions *)

Module StructureWebsites.

(** [mergeJSONDocuments(base, updates)].  The recursion descends into the
    object values of [updates]; a nil [base] reads as the empty map the
    function replaces it with. *)
Fixpoint mergeJSONValue (base : document) (updates : value) {struct updates} : document :=
  match updates with
  | VMap u =>
      map_fold
        (fun k v (base : document) =>
           if bool_decide (k = "_id") then base
           else
             match v with
             | VMap _ =>
                 let baseMap :=
                   match base !! k with
                   | Some (VMap bm) => bm
                   | _ => ∅
                   end in
                 <[k := VMap (mergeJSONValue baseMap v)]> base
             | _ => <[k := v]> base
             end)
        base u
  | _ => base
  end.

Definition mergeJSONDocuments (base updates : document) : document :=
  mergeJSONValue base (VMap updates).

(** [UpdateStructureWebsite(ctx, id, payload)].  [ctx] is the tenant
    database the request context resolves to ([None] when
    [utils.GetMongoDB] fails); a nil payload is [None]. *)
Definition UpdateStructureWebsite (ctx : option string) (id : string)
    (payload : option document) : M document :=
  env <- gets envLocalDevelopment ;;
  if bool_decide (ToLower env ≠ "true") then fail ErrLocalDevelopmentOnly
  else if bool_decide (id = "") then fail ErrIdRequired
  else
    match payload with
    | None => fail ErrPayloadNil
    | Some payload =>
      match ctx with
      | None => fail ErrNoDatabase
      | Some mongoDB =>
        match ObjectIDFromHex id with
        | None => fail ErrInvalidIdFormat
        | Some objectID =>
            found <- gets (fun w =>
                       FindOne (VObjectID objectID)
                               (documentsOf w mongoDB "structure_websites")) ;;
            let existingDoc :=
              match found with
              | Some d => d
              | None => {[ "_id" := VObjectID objectID ]}
              end in
            let doc :=
              <["_id" := VObjectID objectID]>
                (mergeJSONDocuments existingDoc payload) in
            updateCollection mongoDB "structure_websites"
              (ReplaceOne (VObjectID objectID) doc) ;;;
            ret doc
        end
      end
    end.

Record TemplateApplySummary : Type := {
  TemplateKey : string;
  TargetField : string;
  ClientNames : list string;
  UpdatedDocuments : nat;
  DeletedDocuments : nat
}.

(** [prepareTemplateDocument(doc)] for a non-nil [doc] (its only caller
    skips nil documents). *)
Definition prepareTemplateDocument (doc : document) : M (document * ObjectID) :=
  let sanitized := default ∅ (sanitizeTemplateDocument (Some doc)) in
  id <- match doc !! "_id" with
        | Some rawID =>
            match rawID with
            | VString v =>
                let v := TrimSpace v in
                if bool_decide (v = "") then NewObjectID
                else
                  match ObjectIDFromHex v with
                  | Some objectID => ret objectID
                  | None => fail (ErrInvalidIdValue v)
                  end
            | VObjectID v => ret v
            | _ => fail ErrIdType
            end
        | None => NewObjectID
        end ;;
  ret (<["_id" := VObjectID id]> sanitized, id).

(** The loop [for idx, rawDoc := range documents] of
    [ApplyStructureTemplate], appending to [sanitizedDocs] and
    [templateIDs]. *)
Fixpoint prepareDocuments (idx : nat) (documents : list (option document))
    (sanitizedDocs : list document) (templateIDs : list ObjectID)
    : M (list document * list ObjectID) :=
  match documents with
  | [] => ret (sanitizedDocs, templateIDs)
  | None :: rest => prepareDocuments (S idx) rest sanitizedDocs templateIDs
  | Some rawDoc :: rest =>
      fun w =>
        match prepareTemplateDocument rawDoc w with
        | (Err e, w') => (Err (ErrDocument idx e), w')
        | (Ok (sanitized, docID), w') =>
            prepareDocuments (S idx) rest (sanitizedDocs ++ [sanitized])%list
                             (templateIDs ++ [docID])%list w'
        end
  end.

(** The loop [for _, templateDoc := range sanitizedDocs] for one tenant. *)
Fixpoint upsertDocuments (clientName : string) (docs : list document)
    (summary : TemplateApplySummary) : M TemplateApplySummary :=
  match docs with
  | [] => ret summary
  | templateDoc :: rest =>
      let docCopy := cloneMap templateDoc in
      updateCollection clientName "structure_websites"
        (ReplaceOne (readKey docCopy "_id") docCopy) ;;;
      upsertDocuments clientName rest
        {| TemplateKey := TemplateKey summary;
           TargetField := TargetField summary;
           ClientNames := ClientNames summary;
           UpdatedDocuments := S (UpdatedDocuments summary);
           DeletedDocuments := DeletedDocuments summary |}
  end.

(** [collection.DeleteMany(ctx, {"_id": {"$nin": templateIDs}})] on a
    tenant's collection; returns [DeletedCount]. *)
Definition deleteOutdated (clientName : string) (templateIDs : list ObjectID) : M nat :=
  fun w =>
    let '(kept, deleted) :=
      DeleteMany templateIDs (documentsOf w clientName "structure_websites") in
    (Ok deleted,
     withStore w (<[(clientName, "structure_websites") := kept]> (store w))).

Section Deployment.

(** How the server decides the filter [bson.M{field: key}] on a registry
    document, and how the driver decodes a registry document into
    [struct { ClientName string `bson:"client_name"` }] ([None] when
    decoding fails). *)
Variable filterMatches : string → string → document → bool.
Variable decodeClientName : document → option string.

(** The loop [for clientCursor.Next(ctx)] over the registrations found. *)
Fixpoint syncClients (clientCursor : list document)
    (sanitizedDocs : list document) (templateIDs : list ObjectID)
    (summary : TemplateApplySummary) : M TemplateApplySummary :=
  match clientCursor with
  | [] => ret summary
  | clientDoc :: rest =>
      match decodeClientName clientDoc with
      | None => fail ErrDecodeClient
      | Some name =>
          let clientName := TrimSpace name in
          if bool_decide (clientName = "") then
            syncClients rest sanitizedDocs templateIDs summary
          else
            summary <- upsertDocuments clientName sanitizedDocs summary ;;
            deleted <- deleteOutdated clientName templateIDs ;;
            syncClients rest sanitizedDocs templateIDs
              {| TemplateKey := TemplateKey summary;
                 TargetField := TargetField summary;
                 ClientNames := (ClientNames summary ++ [clientName])%list;
                 UpdatedDocuments := UpdatedDocuments summary;
                 DeletedDocuments := (DeletedDocuments summary + deleted)%nat |}
      end
  end.

(** [templatesColl.UpdateOne({"template_key": templateKey}, {"$set": ...},
    SetUpsert(true))]. *)
Definition upsertTemplateDefinition (coreDBName templateKey : string)
    (docsForStorage : list document) : M unit :=
  let fields : document :=
    {[ "template_key" := VString templateKey;
       "documents" := VSlice (VMap <$> docsForStorage);
       "updated_at" := VOther "time.Time" ]} in
  templates <- gets (fun w => documentsOf w coreDBName "structure_templates") ;;
  match updateFirst (filterMatches "template_key" templateKey) fields templates with
  | Some updated =>
      updateCollection coreDBName "structure_templates" (fun _ => updated)
  | None =>
      id <- NewObjectID ;;
      updateCollection coreDBName "structure_templates"
        (fun c => (c ++ [<["_id" := VObjectID id]> fields])%list)
  end.

(** The tenant field the fan-out ends up querying: [effectiveField]. *)
Definition effectiveTargetField (templateKey targetField : string)
    (clients : collection) : string :=
  if bool_decide (targetField = "structure_template") then
    let count :=
      List.length (List.filter (filterMatches targetField templateKey) clients) in
    if bool_decide (count = 0%nat) then "template" else targetField
  else targetField.

(* func ApplyStructureTemplate(ctx, templateKey, documents, targetField) *)
Definition ApplyStructureTemplate (templateKey : string)
    (documents : list (option document)) (targetField : string)
    : M TemplateApplySummary :=
  if bool_decide (templateKey = "") then fail ErrTemplateKeyRequired
  else if bool_decide (List.length documents = 0%nat) then fail ErrDocumentsEmpty
  else
    prepared <- prepareDocuments 0 documents [] [] ;;
    let sanitizedDocs := prepared.1 in
    let templateIDs := prepared.2 in
    if bool_decide (List.length sanitizedDocs = 0%nat) then fail ErrNoUsableDocuments
    else
      let targetField :=
        if bool_decide (targetField = "") then "structure_template"
        else targetField in
      ready <- gets mongoClientReady ;;
      if negb ready then fail ErrMongoClient
      else
        envName <- gets envMongoDBName ;;
        let coreDBName := if bool_decide (envName = "") then "core" else envName in
        clients <- gets (fun w => documentsOf w coreDBName "db_clients") ;;
        let effectiveField := effectiveTargetField templateKey targetField clients in
        let docsForStorage := cloneMap <$> sanitizedDocs in
        upsertTemplateDefinition coreDBName templateKey docsForStorage ;;;
        clientCursor <- gets (fun w =>
                          List.filter (filterMatches effectiveField templateKey)
                                      (documentsOf w coreDBName "db_clients")) ;;
        summary <- syncClients clientCursor sanitizedDocs templateIDs
                     {| TemplateKey := templateKey;
                        TargetField := effectiveField;
                        ClientNames := [];
                        UpdatedDocuments := 0;
                        DeletedDocuments := 0 |} ;;
        ret {| TemplateKey := TemplateKey summary;
               TargetField := TargetField summary;
               ClientNames := sortStrings (ClientNames summary);
               UpdatedDocuments := UpdatedDocuments summary;
               DeletedDocuments := DeletedDocuments summary |}.

End Deployment.

End StructureWebsites.
Export StructureWebsites.

(** ** Vocabulary for the fan-out *)

Module Reconcile.

(** The ObjectID identity of a stored document, if it has one. *)
Definition oidOf (d : document) : option ObjectID :=
  match d !! "_id" with
  | Some (VObjectID x) => Some x
  | _ => None
  end.

(** The ObjectID identities present in a collection, in order. *)
Definition identities (c : collection) : list ObjectID := omap oidOf c.

(** What the upsert loop of one tenant makes of the tenant's collection. *)
Definition upsertAll (docs : list document) (c : collection) : collection :=
  fold_left
    (fun c templateDoc =>
       ReplaceOne (readKey (cloneMap templateDoc) "_id") (cloneMap templateDoc) c)
    docs c.

(** Upsert-all, then delete-extraneous. *)
Definition syncTenant (docs : list document) (ids : list ObjectID)
    (c : collection) : collection :=
  (DeleteMany ids (upsertAll docs c)).1.

(** The tenant a registration names: the trimmed [client_name], unless it
    is empty or does not decode. *)
Definition tenantName (decodeClientName : document → option string)
    (clientDoc : document) : option string :=
  match decodeClientName clientDoc with
  | Some name =>
      if bool_decide (TrimSpace name = "") then None else Some (TrimSpace name)
  | None => None
  end.

Definition tenantNames (decodeClientName : document → option string)
    (cursor : list document) : list string :=
  omap (tenantName decodeClientName) cursor.

(** The name of the shared database: MONGO_DB_NAME, or ["core"]. *)
Definition coreDBName (w : world) : string :=
  if bool_decide (envMongoDBName w = "") then "core" else envMongoDBName w.

(** The registrations the filter [{field: key}] selects in [db_clients]. *)
Definition registrations (filterMatches : string → string → document → bool)
    (w : world) (field key : string) : list document :=
  List.filter (filterMatches field key) (documentsOf w (coreDBName w) "db_clients").

(** The worlds [w] and [w'] differ at most in the source of fresh
    ObjectIDs: same environment, same client, same collections. *)
Definition sameDeployment (w w' : world) : Prop :=
  envLocalDevelopment w' = envLocalDevelopment w ∧
  envMongoDBName w' = envMongoDBName w ∧
  mongoClientReady w' = mongoClientReady w ∧
  store w' = store w.

(** The worlds agree on the environment and on every collection but those
    named [coll] (of any database). *)
Definition changesOnly (coll : string) (w w' : world) : Prop :=
  envLocalDevelopment w' = envLocalDevelopment w ∧
  envMongoDBName w' = envMongoDBName w ∧
  mongoClientReady w' = mongoClientReady w ∧
  ∀ db other, other ≠ coll → documentsOf w' db other = documentsOf w db other.

(** The summary [ApplyStructureTemplate] starts the fan-out with. *)
Definition initialSummary (templateKey effectiveField : string) : TemplateApplySummary :=
  {| TemplateKey := templateKey;
     TargetField := effectiveField;
     ClientNames := [];
     UpdatedDocuments := 0;
     DeletedDocuments := 0 |}.

(** The target field after defaulting: the caller's, or
    ["structure_template"]. *)
Definition defaultedField (targetField : string) : string :=
  if bool_decide (targetField = "") then "structure_template" else targetField.

(** What [prepareTemplateDocument] returns: a document that carries its
    identity under [_id] and that [cloneMap] copies faithfully. *)
Definition preparedAs (sd : document) (id : ObjectID) : Prop :=
  sd !! "_id" = Some (VObjectID id) ∧ cloneMap sd = sd.

(** A tenant collection that has converged to the template
    [(docs, ids)]: every stored identity is a template identity, every
    template identity is stored, every stored document is a template
    document, every template document whose identity no later template
    document carries is stored, and no ObjectID identity is stored twice. *)
Definition converged (docs : list document) (ids : list ObjectID)
    (c : collection) : Prop :=
  (∀ d, d ∈ c → ∃ id, id ∈ ids ∧ d !! "_id" = Some (VObjectID id)) ∧
  (∀ id, id ∈ ids → ∃ d, d ∈ c ∧ d !! "_id" = Some (VObjectID id)) ∧
  (∀ d, d ∈ c → d ∈ docs) ∧
  (∀ pre sd post, docs = (pre ++ sd :: post)%list →
     (∀ sd', sd' ∈ post → oidOf sd' ≠ oidOf sd) → sd ∈ c) ∧
  NoDup (identities c).

End Reconcile.
Export Reconcile.

(** ** Sample trees *)

Module Samples.



(** A registry whose flag fields hold strings: the filter
    [{field: key}] selects the documents whose [field] is the string [key],
    and [client_name] decodes when it is a string or missing. *)
Definition stringFieldEquals (field key : string) (d : document) : bool :=
  match d !! field with
  | Some (VString s) => bool_decide (s = key)
  | _ => false
  end.

Definition clientNameField (d : document) : option string :=
  match d !! "client_name" with
  | None => Some ""
  | Some (VString s) => Some s
  | Some _ => None
  end.

Definition registration (name field key : string) : document :=
  {[ "client_name" := VString name; field := VString key ]}.

Definition worldOf (localDev : string) (st : gmap (string * string) collection) : world :=
  {| envLocalDevelopment := localDev;
     envMongoDBName := "";
     mongoClientReady := true;
     store := st;
     oidSource := fun n => N.of_nat (1000 + n);
     oidNext := 0 |}.

Definition homepageId : string := "652f781b0b0f5f6c1b3dd111".
Definition menuId : string := "652f781b0b0f5f6c1b3dd112".
Definition homepageOid : ObjectID := default 0%N (ObjectIDFromHex homepageId).
Definition menuOid : ObjectID := default 0%N (ObjectIDFromHex menuId).

Definition homepageDoc : document :=
  {[ "_id" := VString homepageId; "slug" := VString "homepage" ]}.
Definition menuDoc : document :=
  {[ "_id" := VString menuId; "slug" := VString "menu" ]}.

(** Two registrations of template-1 on the default field, one tenant with
    only the legacy field, and an outdated document in acme's collection. *)
Definition twoTenants : world :=
  worldOf "true"
    {[ ("core", "db_clients") :=
         [ registration "zenith" "structure_template" "template-1";
           registration "acme" "structure_template" "template-1";
           registration "legacy" "template" "template-1" ];
       ("acme", "structure_websites") :=
         [ {[ "_id" := VObjectID 7%N; "slug" := VString "old" ]};
           {[ "_id" := VObjectID homepageOid; "slug" := VString "home";
              "theme" := VString "dark" ]} ] ]}.

(** The same tenant registered twice, once with padded name. *)
Definition registeredTwice : world :=
  worldOf "true"
    {[ ("core", "db_clients") :=
         [ registration "acme" "structure_template" "template-1";
           registration " acme " "structure_template" "template-1" ] ]}.

(** Only legacy registrations. *)
Definition legacyOnly : world :=
  worldOf "true"
    {[ ("core", "db_clients") :=
         [ registration "zenith" "template" "template-1";
           registration "acme" "template" "template-1";
           registration "other" "template" "template-2" ] ]}.

(** Two template documents under one identity. *)
Definition sameIdDocs : list (option document) :=
  [ Some {[ "_id" := VString homepageId; "slug" := VString "homepage" ]};
    Some {[ "_id" := VString homepageId; "title" := VString "Home" ]} ].

(** Fan-outs of template-1 over these deployments. *)
Definition templateDocs : list (option document) :=
  [ Some homepageDoc; Some menuDoc ].

Definition applyOn (documents : list (option document)) (w : world)
    : result TemplateApplySummary * world :=
  ApplyStructureTemplate stringFieldEquals clientNameField
    "template-1" documents "" w.

Definition summaryOf (r : result TemplateApplySummary * world) : TemplateApplySummary :=
  match r.1 with
  | Ok summary => summary
  | Err _ => initialSummary "" ""
  end.

End Samples.

(** ** Reading a tenant's collection *)

Module Reads.


End Reads.
Export Reads.

(** ** Vocabulary for the single-document replace *)

Module ReplaceVocabulary.

(** The document [UpdateStructureWebsite] builds from the payload and the
    tenant's collection. *)
Definition updatedDocument (oid : ObjectID) (payload : document)
    (c : collection) : document :=
  <["_id" := VObjectID oid]>
    (mergeJSONDocuments
       (default {[ "_id" := VObjectID oid ]} (FindOne (VObjectID oid) c))
       payload).

End ReplaceVocabulary.
Export ReplaceVocabulary.

(** ** More sample data *)

Module MoreSamples.

(** A partial update of the homepage document of tenant acme. *)
Definition slugUpdate : document :=
  {[ "slug" := VString "start"; "seo" := VMap {[ "title" := VString "Start" ]} ]}.

End MoreSamples.

(** ** More vocabulary for the fan-out *)

Module FanOutVocabulary.

(** The non-nil documents of the input, in order. *)
Definition usableDocuments (documents : list (option document)) : list document :=
  omap id documents.

(** A document that brings its identity along: a native ObjectID, or a
    string that is not blank (which is then parsed). *)
Definition hasExplicitId (d : document) : bool :=
  match d !! "_id" with
  | Some (VObjectID _) => true
  | Some (VString s) => negb (bool_decide (TrimSpace s = ""))
  | _ => false
  end.

(** What a run of [prepareDocuments] prepared (nothing, on an error). *)
Definition preparedOf (r : result (list document * list ObjectID) * world)
    : list document * list ObjectID :=
  match r.1 with
  | Ok prepared => prepared
  | Err _ => ([], [])
  end.

End FanOutVocabulary.
Export FanOutVocabulary.

(** ** Helpers of the SEO plugin *)

Module StructureSeo.

(* func getMap(m map[string]interface{}, key string) map[string]interface{} *)
Definition getMap (m : document) (key : string) : option document :=
  match m !! key with
  | Some (VMap v) => Some v
  | Some (VPrimM v) => Some v
  | _ => None
  end.

(* func getString(m map[string]interface{}, key string) string *)
Definition getString (m : document) (key : string) : string :=
  match m !! key with
  | Some (VString v) => v
  | _ => ""
  end.

Definition defaultClientDir : string := "default".

(** The loop [for _, r := range name] of [sanitizeClientDirectoryName],
    writing to the builder; on ASCII text a rune is a byte. *)
Fixpoint writeRunes (name : string) : string :=
  match name with
  | EmptyString => EmptyString
  | String r rest =>
      let n := N_of_ascii r in
      if ((97 <=? n) && (n <=? 122) || (48 <=? n) && (n <=? 57))%N then
        String r (writeRunes rest)
      else if ((n =? 45) || (n =? 95))%N then String r (writeRunes rest)
      else if (n =? 32)%N then String "-"%char (writeRunes rest)
      else writeRunes rest
  end.

(* func sanitizeClientDirectoryName(name string) string *)
Definition sanitizeClientDirectoryName (name : string) : string :=
  let name := TrimSpace (ToLower name) in
  if bool_decide (name = "") then defaultClientDir
  else
    let builder := writeRunes name in
    if bool_decide (String.length builder = 0%nat) then defaultClientDir
    else builder.

(** What [ctx.Value(middleware.ClientDataKey)] can hold: nothing, a
    [*middleware.ClientData] with its [ClientName], or a value of another
    type. *)
Inductive contextValue : Type :=
| NoClientData
| ClientData (ClientName : string)
| OtherClientData.

(* func resolveClientName(ctx context.Context) string *)
Definition resolveClientName (clientDataAny : contextValue) : string :=
  match clientDataAny with
  | NoClientData => defaultClientDir
  | ClientData ClientName => sanitizeClientDirectoryName ClientName
  | OtherClientData => defaultClientDir
  end.

(* func findAssetCDN(assets []map[string]interface{}, name string) string *)
Fixpoint findAssetCDN (assets : list document) (name : string) : string :=
  match assets with
  | [] => ""
  | asset :: rest =>
      let assetName :=
        match asset !! "name" with Some (VString s) => s | _ => "" end in
      if bool_decide (assetName = name) then
        let cdn :=
          match asset !! "cdnPath" with Some (VString s) => s | _ => "" end in
        if bool_decide (cdn ≠ "") then cdn else findAssetCDN rest name
      else findAssetCDN rest name
  end.

(* func deepCopyValueGeneric(value interface{}) interface{} *)
Fixpoint deepCopyValueGeneric (v : value) : value :=
  match v with
  | VMap m => VMap (deepCopyValueGeneric <$> m)
  | VPrimM m => VMap (deepCopyValueGeneric <$> m)
  | VSlice l => VSlice (deepCopyValueGeneric <$> l)
  | VPrimA l => VSlice (deepCopyValueGeneric <$> l)
  | _ => v
  end.

(** [cloneGenericMap(src)]; a nil map ([None]) stays nil. *)
Definition cloneGenericMap (src : option document) : option document :=
  fmap (M := gmap string) deepCopyValueGeneric <$> src.

(** [toInterfaceSlice(value)]; [None] is the nil slice. *)
Definition toInterfaceSlice (v : value) : option (list value) :=
  match v with
  | VSlice l => Some l
  | VPrimA l => Some l
  | _ => None
  end.

(** [toGenericMap(value)]; [None] is the nil map. *)
Definition toGenericMap (v : value) : option document :=
  match v with
  | VMap m => Some m
  | VPrimM m => Some m
  | _ => None
  end.

(** The loop of [updatePluginFavicons] that builds [filtered] from
    [publicSlice]: entries whose [key] is the string ["favicons"] are
    skipped. *)
Fixpoint filtered (publicSlice : list value) : list value :=
  match publicSlice with
  | [] => []
  | item :: rest =>
      match toGenericMap item with
      | Some m =>
          let key := match m !! "key" with Some (VString s) => s | _ => "" end in
          if bool_decide (key = "favicons") then filtered rest
          else item :: filtered rest
      | None => item :: filtered rest
      end
  end.

(** [config["public"]] as [updatePluginFavicons] sets it:
    [append([]interface{}{faviconsEntry}, filtered...)], for the plugin
    document [doc]. *)
Definition publicWithFavicons (doc : document)
    (faviconsEntry : document) : list value :=
  let config := default ∅ (cloneGenericMap (getMap doc "config")) in
  let publicSlice := default [] (toInterfaceSlice (readKey config "public")) in
  VMap faviconsEntry :: filtered publicSlice.

End StructureSeo.
Export StructureSeo.

(** ** Vocabulary for copies and shapes *)

Module CopyVocabulary.

(** Values built from generic maps and slices only: no [primitive.M] and
    no [primitive.A] at any depth. *)
Inductive generic : value → Prop :=
| generic_leaf v : isLeaf v = true → generic v
| generic_map (m : document) :
    (∀ k v, m !! k = Some v → generic v) → generic (VMap m)
| generic_slice l : (∀ v, v ∈ l → generic v) → generic (VSlice l).

(** The characters a client directory name is made of. *)
Definition directoryChar (c : ascii) : bool :=
  let n := N_of_ascii c in
  ((97 <=? n) && (n <=? 122) || (48 <=? n) && (n <=? 57)
   || (n =? 45) || (n =? 95))%N.

Fixpoint allChars (p : ascii → bool) (s : string) : bool :=
  match s with
  | EmptyString => true
  | String c rest => p c && allChars p rest
  end.

(** An entry of the public list that is a favicons entry. *)
Definition isFaviconsEntry (item : value) : bool :=
  match toGenericMap item with
  | Some m =>
      match m !! "key" with
      | Some (VString s) => bool_decide (s = "favicons")
      | _ => false
      end
  | None => false
  end.

(** An asset [findAssetCDN] can answer with. *)
Definition usableAsset (name : string) (asset : document) : bool :=
  bool_decide (getString asset "name" = name)
  && negb (bool_decide (getString asset "cdnPath" = "")).

End CopyVocabulary.
Export CopyVocabulary.


(** ** Sample runs *)

Module RunSamples.

(** The deployment [Samples.twoTenants] after template-1 has been applied
    to it once. *)
Definition afterFirstRun : world :=
  (Samples.applyOn Samples.templateDocs Samples.twoTenants).2.

(** The same template with nil entries in between. *)
Definition templateDocsWithNils : list (option document) :=
  [ None; Some Samples.homepageDoc; None; Some Samples.menuDoc ].

(** A plugin document as the driver decodes it, with an earlier favicons
    entry in its public list, and a new favicons entry. *)
Definition pluginDocument : document :=
  {[ "short_name" := VString "structure_seo";
     "config" :=
       VPrimM {[ "public" :=
                   VPrimA [ VPrimM {[ "key" := VString "favicons";
                                      "sourceFile" := VString "old.png" ]};
                            VPrimM {[ "key" := VString "analytics" ]} ] ]} ]}.

Definition newFavicons : document :=
  {[ "key" := VString "favicons"; "sourceFile" := VString "logo.png" ]}.

End RunSamples.


(** ** A registry with an entry that does not decode *)

Module FailureSamples.

(** Tenant acme, then a registration whose [client_name] is a number, then
    tenant zenith. *)
Definition brokenRegistry : world :=
  Samples.worldOf "true"
    {[ ("core", "db_clients") :=
         [ Samples.registration "acme" "structure_template" "template-1";
           {[ "client_name" := VInt 3;
              "structure_template" := VString "template-1" ]};
           Samples.registration "zenith" "structure_template" "template-1" ] ]}.

End FailureSamples.


(** ** Vocabulary for white space *)

Module WhiteSpace.

(** A string made of white-space runes only (the empty string included). *)
Inductive spaces : string → Prop :=
| spaces_nil : spaces ""
| spaces_cons sp rest :
    isSpaceRune sp = true → spaces rest → spaces (sp ++ rest).

(** A string that neither begins nor ends with a white-space rune. *)
Definition trimmed (n : string) : Prop :=
  ∀ sp rest, isSpaceRune sp = true → n ≠ sp ++ rest ∧ n ≠ rest ++ sp.

(** The string begins with a white-space rune. *)
Definition leadingSpace (s : string) : bool :=
  match s with
  | String c1 rest1 =>
      isSpace c1
      || match rest1 with
         | String c2 rest2 =>
             isSpace2 c1 c2
             || match rest2 with
                | String c3 _ => isSpace3 c1 c2 c3
                | EmptyString => false
                end
         | EmptyString => false
         end
  | EmptyString => false
  end.

End WhiteSpace.
Export WhiteSpace.

(** ** The skeleton merge in the specification's words *)

Module SkeletonSpec.

(** What an incoming value is merged as when it meets an existing object:
    an object is itself, an array stands for its first element when that
    is an object, and anything else brings no key. *)
Definition objectOf (incoming : value) : document :=
  match incoming with
  | VMap m => m
  | VSlice (VMap first :: _) => first
  | _ => ∅
  end.

(** What an incoming value is merged as when it meets an existing array:
    an array is itself, and a value that is no array counts as the
    one-element array holding it. *)
Definition elementsOf (incoming : value) : list value :=
  match incoming with
  | VSlice l => l
  | _ => [incoming]
  end.

(** The skeleton merge of two sanitized values as the specification words
    it (4.2): object with object goes key by key, and a key that one side
    lacks keeps the value of the other; array with array gives the
    one-element array holding the merge of the two first elements, a
    missing side counting as absent; an existing scalar wins.  Where the
    specification is silent (an existing object or array meeting a value
    of another kind), [objectOf] and [elementsOf] say what the incoming
    value is merged as. *)
Fixpoint skeletonMerge (existing incoming : value) {struct existing} : value :=
  match existing with
  | VMap e =>
      VMap (merge
              (fun (o : option (value * (value → value))) (oi : option value) =>
                 match o, oi with
                 | Some (_, mergeInto), Some iv => Some (mergeInto iv)
                 | Some (ev, _), None => Some ev
                 | None, _ => oi
                 end)
              ((fun ev => (ev, skeletonMerge ev)) <$> e)
              (objectOf incoming))
  | VSlice e =>
      match e, elementsOf incoming with
      | [], [] => VSlice []
      | e0 :: _, [] => VSlice [e0]
      | [], i0 :: _ => VSlice [i0]
      | e0 :: _, i0 :: _ => VSlice [skeletonMerge e0 i0]
      end
  | _ => existing
  end.

(** The representative of a non-empty array: the sanitized elements folded
    with the skeleton merge, in order, beginning with the first. *)
Definition representative (first : value) (others : list value) : value :=
  foldl skeletonMerge first others.

End SkeletonSpec.
Export SkeletonSpec.

(** ** Leaves of other numeric types *)

Module NumericSamples.

(** A [uint64] number and a [json.Number]: numeric leaves of dynamic types
    that no type switch of the sanitizer names. *)
Definition uint64Leaf : value := VOther "uint64".
Definition jsonNumberLeaf : value := VOther "json.Number".

(** An array of two objects with different keys. *)
Definition twoShapes : value :=
  VSlice [ VMap {[ "a" := VInt 1 ]}; VMap {[ "b" := VInt 2 ]} ].

End NumericSamples.

(** ** The payload without identity keys *)

Module PayloadSpec.

(** A payload value as the payload merge takes it in where nothing is
    stored yet: the identity key [_id] is left out of every object, at
    every nesting level of objects (the specification, 4.2: the identity
    key is always excluded from merge).  Arrays and values of any other
    type are taken as they are. *)
Fixpoint withoutIds (v : value) : value :=
  match v with
  | VMap m => VMap (delete "_id" (withoutIds <$> m))
  | _ => v
  end.

End PayloadSpec.
Export PayloadSpec.

(** ** A payload for a document that does not exist yet *)

Module UpsertSamples.

Definition menuPayload : document :=
  {[ "_id" := VString "ignored";
     "slug" := VString "menu";
     "seo" := VMap {[ "_id" := VString "nested"; "title" := VString "Menu" ]} ]}.

End UpsertSamples.

(** ** Names with white space that is not ASCII *)

Module UnicodeSamples.

(** U+00A0 (no-break space, C2 A0) and U+3000 (ideographic space,
    E3 80 80), in UTF-8. *)
Definition noBreakSpace : string :=
  String (ascii_of_N 194) (String (ascii_of_N 160) "").
Definition ideographicSpace : string :=
  String (ascii_of_N 227) (String (ascii_of_N 128) (String (ascii_of_N 128) "")).

(** A stray continuation byte: no rune, so no white space. *)
Definition strayByte : string := String (ascii_of_N 133) "".

End UnicodeSamples.


(** * Properties *)

(** ** Induction over document trees *)

Section ValueInduction.

Lemma max_fold_lookup (m : document) k v :
  m !! k = Some v →
  (depth v ≤ map_fold (fun _ x acc => Nat.max (depth x) acc) 0 m)%nat.
Proof.
  revert k v.
  apply (map_fold_weak_ind (fun r (m' : document) =>
           ∀ k v, m' !! k = Some v → (depth v ≤ r)%nat)).
  - intros k v Hk. by rewrite lookup_empty in Hk.
  - intros i x m' r Hi IH k v Hk.
    destruct (decide (i = k)) as [->|Hne].
    + rewrite lookup_insert_eq in Hk. injection Hk as ->. lia.
    + rewrite lookup_insert_ne in Hk by done.
      specialize (IH k v Hk). lia.
Qed.

Lemma max_foldr_elem (l : list value) v :
  v ∈ l → (depth v ≤ foldr (fun x acc => Nat.max (depth x) acc) 0 l)%nat.
Proof.
  induction l as [|x l IH]; intros Hin.
  - by apply elem_of_nil in Hin.
  - apply elem_of_cons in Hin as [->|Hin]; simpl; [lia|].
    specialize (IH Hin). lia.
Qed.

Lemma depth_VMap_lookup (m : document) k v :
  m !! k = Some v → (depth v < depth (VMap m))%nat.
Proof. intros H. simpl. pose proof (max_fold_lookup m k v H). lia. Qed.

Lemma depth_VPrimM_lookup (m : document) k v :
  m !! k = Some v → (depth v < depth (VPrimM m))%nat.
Proof. intros H. simpl. pose proof (max_fold_lookup m k v H). lia. Qed.

Lemma depth_VSlice_elem (l : list value) v :
  v ∈ l → (depth v < depth (VSlice l))%nat.
Proof. intros H. simpl. pose proof (max_foldr_elem l v H). lia. Qed.

Lemma depth_VPrimA_elem (l : list value) v :
  v ∈ l → (depth v < depth (VPrimA l))%nat.
Proof. intros H. simpl. pose proof (max_foldr_elem l v H). lia. Qed.

(** Structural induction on document trees: children of an object are the
    values stored under its keys, children of an array its elements. *)
Lemma value_tree_ind (P : value → Prop) :
  P VNil →
  (∀ s, P (VString s)) →
  (∀ b, P (VBool b)) →
  (∀ n, P (VInt n)) →
  (∀ f, P (VFloat f)) →
  (∀ id, P (VObjectID id)) →
  (∀ t, P (VOther t)) →
  (∀ m : document, (∀ k v, m !! k = Some v → P v) → P (VMap m)) →
  (∀ m : document, (∀ k v, m !! k = Some v → P v) → P (VPrimM m)) →
  (∀ l, Forall P l → P (VSlice l)) →
  (∀ l, Forall P l → P (VPrimA l)) →
  ∀ v, P v.
Proof.
  intros HNil HStr HBool HInt HFloat HOid HOther HMap HPrimM HSlice HPrimA v.
  remember (depth v) as n eqn:Hn.
  revert v Hn. induction n as [n IH] using lt_wf_ind. intros v ->.
  destruct v as [| | | | | | |m|m|l|l]; auto.
  - apply HMap. intros k v Hk.
    eapply IH; [|reflexivity]. by eapply depth_VMap_lookup.
  - apply HPrimM. intros k v Hk.
    eapply IH; [|reflexivity]. by eapply depth_VPrimM_lookup.
  - apply HSlice. apply Forall_forall. intros v Hv.
    eapply IH; [|reflexivity]. by apply depth_VSlice_elem.
  - apply HPrimA. apply Forall_forall. intros v Hv.
    eapply IH; [|reflexivity]. by apply depth_VPrimA_elem.
Qed.

End ValueInduction.

(** ** The range-and-assign loop over a Go map *)

Section MapLoops.

(** A loop [for key, val := range src { dst[key] = h(key, val, dst[key]) }]
    visits every key of [src] once, so the value it reads from [dst] is the
    one [dst] held before the loop, whatever the iteration order. *)
Lemma range_assign_lookup
    (h : string → value → option value → value) (dst src : document) k :
  map_fold (fun key val (acc : document) => <[key := h key val (acc !! key)]> acc)
           dst src !! k
  = match src !! k with
    | Some val => Some (h k val (dst !! k))
    | None => dst !! k
    end.
Proof.
  revert k.
  apply (map_fold_weak_ind (fun (r : document) (m' : document) =>
           ∀ k, r !! k = match m' !! k with
                         | Some val => Some (h k val (dst !! k))
                         | None => dst !! k
                         end)).
  - intros k. by rewrite lookup_empty.
  - intros i x m' r Hi IH k.
    destruct (decide (i = k)) as [->|Hne].
    + rewrite !lookup_insert_eq. f_equal. f_equal.
      rewrite IH, Hi. done.
    + rewrite !lookup_insert_ne by done. apply IH.
Qed.

Lemma rangeAssign_lookup h (dst src : document) k :
  map_fold (rangeAssign h) dst src !! k
  = match src !! k with
    | Some v => match h k v (dst !! k) with
                | Some x => Some x
                | None => dst !! k
                end
    | None => dst !! k
    end.
Proof.
  revert k.
  apply (map_fold_weak_ind (fun (r : document) (m' : document) =>
           ∀ k, r !! k = match m' !! k with
                         | Some v => match h k v (dst !! k) with
                                     | Some x => Some x
                                     | None => dst !! k
                                     end
                         | None => dst !! k
                         end)).
  - intros k. by rewrite lookup_empty.
  - intros i x m' r Hi IH k. unfold rangeAssign.
    pose proof (IH i) as IHi. rewrite Hi in IHi.
    destruct (decide (i = k)) as [->|Hne].
    + rewrite lookup_insert_eq, IHi.
      destruct (h k x (dst !! k)); [by rewrite lookup_insert_eq|done].
    + rewrite (lookup_insert_ne m') by done. rewrite <-IH.
      destruct (h i x (r !! i)); [by rewrite lookup_insert_ne|done].
Qed.

(** Go ranges over a map in an unspecified order.  Whatever the order in
    which the entries come, such a loop ends in the same map: the one
    [map_fold] computes. *)
Lemma rangeAssign_any_order h (entries : list (string * value)) :
  NoDup entries.*1 →
  ∀ dst : document,
    fold_left (fun acc kv => rangeAssign h kv.1 kv.2 acc) entries dst
    = map_fold (rangeAssign h) dst (list_to_map entries).
Proof.
  intros Hnd dst. apply map_eq. intros k. rewrite rangeAssign_lookup.
  revert dst. induction entries as [|[k0 v0] rest IH]; intros dst.
  - simpl. by rewrite lookup_empty.
  - rewrite fmap_cons in Hnd. apply NoDup_cons in Hnd as [Hk0 Hnd].
    simpl in Hk0. cbn [fold_left fst snd].
    rewrite (IH Hnd), list_to_map_cons.
    destruct (decide (k0 = k)) as [->|Hne].
    + rewrite lookup_insert_eq.
      assert ((list_to_map rest : document) !! k = None) as ->
        by (by apply not_elem_of_list_to_map_1).
      unfold rangeAssign.
      destruct (h k v0 (dst !! k)); [by rewrite lookup_insert_eq|done].
    + rewrite lookup_insert_ne by done.
      assert (rangeAssign h k0 v0 dst !! k = dst !! k) as ->; [|done].
      unfold rangeAssign.
      destruct (h k0 v0 (dst !! k0)); [by rewrite lookup_insert_ne|done].
Qed.

Lemma fold_left_body_ext {A B} (f g : A → B → A) (l : list B) (a : A) :
  (∀ acc x, f acc x = g acc x) → fold_left f l a = fold_left g l a.
Proof.
  intros Hfg. revert a. induction l as [|x l IH]; intros a; simpl; [done|].
  by rewrite Hfg, IH.
Qed.

(** Two loop bodies that agree on every entry give the same loop. *)
Lemma map_fold_body_ext {A B} (f g : string → A → B → B) (b : B) (m : gmap string A) :
  (∀ k v acc, m !! k = Some v → f k v acc = g k v acc) →
  map_fold f b m = map_fold g b m.
Proof.
  intros Hfg. rewrite !map_fold_foldr.
  assert (∀ kv, kv ∈ map_to_list m → m !! kv.1 = Some kv.2) as Hin.
  { intros [k v] Hkv. by apply elem_of_map_to_list. }
  induction (map_to_list m) as [|[k v] l IH]; simpl; [done|].
  rewrite IH by (intros kv Hkv; apply Hin; by right).
  apply Hfg. apply (Hin (k, v)). by left.
Qed.

(** A loop whose body is of the [rangeAssign] kind can be run over the
    entries in any order. *)
Lemma range_loop_any_order
    (body : string → value → document → document) h
    (entries : list (string * value)) (src dst : document) :
  (∀ k v acc, body k v acc = rangeAssign h k v acc) →
  NoDup entries.*1 →
  list_to_map entries = src →
  fold_left (fun acc kv => body kv.1 kv.2 acc) entries dst = map_fold body dst src.
Proof.
  intros Hbody Hnd <-.
  rewrite (fold_left_body_ext _ (fun acc kv => rangeAssign h kv.1 kv.2 acc))
    by (intros acc kv; apply Hbody).
  rewrite rangeAssign_any_order by done.
  apply map_fold_body_ext. intros k v acc _. symmetry. apply Hbody.
Qed.

End MapLoops.

(** ** Sanitizer equations *)

Section SanitizerEquations.

Lemma copyTemplateValue_id v : copyTemplateValue v = v.
Proof.
  induction v as [| | | | | | |m IH|m IH|l IH|l IH] using value_tree_ind;
    simpl; try reflexivity.
  - f_equal. apply map_eq. intros k. rewrite lookup_fmap.
    destruct (m !! k) as [v|] eqn:Hk; simpl; [|done].
    f_equal. by eapply IH.
  - f_equal. induction IH as [|x l Hx Hl IHl]; csimpl; [done|].
    by f_equal.
Qed.

Lemma mergeTemplateValues_nil_l incoming :
  mergeTemplateValues VNil incoming = incoming.
Proof. simpl. apply copyTemplateValue_id. Qed.

Lemma mergeTemplateValues_nil_r base :
  mergeTemplateValues base VNil = base.
Proof. destruct base; simpl; reflexivity. Qed.

Lemma mergeTemplateValues_VMap_table (b : document) incoming :
  incoming ≠ VNil →
  mergeTemplateValues (VMap b) incoming
  = VMap (map_fold
            (fun key val (b' : document) =>
               <[key := match (mergeTemplateValues <$> b) !! key with
                        | Some mergeInto => mergeInto val
                        | None => copyTemplateValue val
                        end]> b')
            b (toTemplateMap incoming)).
Proof. intros Hinc. destruct incoming; try congruence; reflexivity. Qed.

(** The merged object, key by key. *)
Lemma table_loop_lookup (b src : document) k :
  map_fold
    (fun key val (b' : document) =>
       <[key := match (mergeTemplateValues <$> b) !! key with
                | Some mergeInto => mergeInto val
                | None => copyTemplateValue val
                end]> b')
    b src !! k
  = match src !! k with
    | Some val => Some (mergeTemplateValues (readKey b k) val)
    | None => b !! k
    end.
Proof.
  rewrite (range_assign_lookup
             (fun key val _ =>
                match (mergeTemplateValues <$> b) !! key with
                | Some mergeInto => mergeInto val
                | None => copyTemplateValue val
                end)).
  destruct (src !! k) as [val|]; [|done].
  f_equal. rewrite lookup_fmap. unfold readKey.
  destruct (b !! k); simpl; [done|].
  by rewrite copyTemplateValue_id.
Qed.

Lemma mergeTemplateValues_map_lookup (b : document) incoming :
  incoming ≠ VNil →
  ∃ r : document, mergeTemplateValues (VMap b) incoming = VMap r ∧
       ∀ k, r !! k = match toTemplateMap incoming !! k with
                     | Some val => Some (mergeTemplateValues (readKey b k) val)
                     | None => b !! k
                     end.
Proof.
  intros Hinc. eexists. split.
  - by apply mergeTemplateValues_VMap_table.
  - intros k. apply table_loop_lookup.
Qed.

(** The object case as the source writes it: the loop reads [b[key]] from
    the map it is updating. *)
Lemma mergeTemplateValues_map (b : document) incoming :
  incoming ≠ VNil →
  mergeTemplateValues (VMap b) incoming
  = VMap (map_fold
            (fun key val (b' : document) =>
               <[key := mergeTemplateValues (readKey b' key) val]> b')
            b (toTemplateMap incoming)).
Proof.
  intros Hinc. rewrite mergeTemplateValues_VMap_table by done.
  f_equal. apply map_eq. intros k.
  rewrite table_loop_lookup.
  by rewrite (range_assign_lookup
                (fun key val o => mergeTemplateValues (default VNil o) val)).
Qed.

(** The same loop, over the incoming entries in any order. *)
Lemma mergeTemplateValues_map_any_order (b : document) incoming entries :
  incoming ≠ VNil →
  NoDup entries.*1 →
  list_to_map entries = toTemplateMap incoming →
  mergeTemplateValues (VMap b) incoming
  = VMap (fold_left
            (fun (b' : document) kv =>
               <[kv.1 := mergeTemplateValues (readKey b' kv.1) kv.2]> b')
            entries b).
Proof.
  intros Hinc Hnd Hentries. rewrite mergeTemplateValues_map by done. f_equal.
  symmetry.
  apply (range_loop_any_order
           (fun key val (b' : document) =>
              <[key := mergeTemplateValues (readKey b' key) val]> b')
           (fun _ val o => Some (mergeTemplateValues (default VNil o) val)));
    done.
Qed.

(** The array case: the representative of the two first elements. *)
Lemma mergeTemplateValues_slice (b : list value) incoming :
  incoming ≠ VNil →
  mergeTemplateValues (VSlice b) incoming
  = match b, toTemplateSlice incoming with
    | [], [] => VSlice []
    | _, _ =>
        let merged :=
          mergeTemplateValues (hd VNil b) (hd VNil (toTemplateSlice incoming)) in
        match merged with
        | VNil => VSlice []
        | _ => VSlice [merged]
        end
    end.
Proof.
  intros Hinc.
  destruct incoming; try congruence;
    destruct b as [|baseElem b]; simpl; try reflexivity;
    repeat match goal with
           | |- context [match ?l with [] => _ | _ :: _ => _ end] =>
               is_var l; destruct l; simpl
           end; try reflexivity.
Qed.

End SanitizerEquations.

Section Skeletons.

Lemma buildTemplateValue_map (m : document) :
  buildTemplateValue (VMap m) = VMap (buildTemplateValue <$> m).
Proof.
  simpl. f_equal. apply map_eq. intros k.
  rewrite (range_assign_lookup
             (fun key raw o =>
                mergeTemplateValues (default VNil o) (buildTemplateValue raw))).
  rewrite lookup_fmap, lookup_empty.
  destruct (m !! k); simpl; [|done].
  by rewrite copyTemplateValue_id.
Qed.

(** The object case of the sanitizer, over the entries in any order. *)
Lemma buildTemplateValue_map_any_order (m : document) entries :
  NoDup entries.*1 →
  list_to_map entries = m →
  buildTemplateValue (VMap m)
  = VMap (fold_left
            (fun (result : document) kv =>
               <[kv.1 := mergeTemplateValues (readKey result kv.1)
                                             (buildTemplateValue kv.2)]> result)
            entries ∅).
Proof.
  intros Hnd Hentries. cbn [buildTemplateValue]. f_equal. symmetry.
  apply (range_loop_any_order
           (fun key raw (result : document) =>
              <[key := mergeTemplateValues (readKey result key)
                                           (buildTemplateValue raw)]> result)
           (fun _ raw o =>
              Some (mergeTemplateValues (default VNil o) (buildTemplateValue raw))));
    done.
Qed.

Lemma buildTemplateValue_primM (m : document) :
  buildTemplateValue (VPrimM m) = buildTemplateValue (VMap m).
Proof. reflexivity. Qed.

Lemma buildTemplateValue_primA l :
  buildTemplateValue (VPrimA l) = buildTemplateValue (VSlice l).
Proof. reflexivity. Qed.

Lemma value_nil_or v : v = VNil ∨ v ≠ VNil.
Proof. destruct v; auto; right; discriminate. Qed.

Lemma buildTemplateValue_not_nil v : buildTemplateValue v ≠ VNil.
Proof.
  destruct v; simpl; try discriminate;
    match goal with |- context [fold_left ?f ?l ?a] =>
      destruct (fold_left f l a); discriminate end.
Qed.

Lemma mergeTemplateValues_not_nil base incoming :
  base ≠ VNil → mergeTemplateValues base incoming ≠ VNil.
Proof.
  intros Hb.
  destruct (value_nil_or incoming) as [->|Hinc].
  { by rewrite mergeTemplateValues_nil_r. }
  destruct base as [| | | | | | |b|b|lb|lb]; try congruence;
    try (destruct incoming; try congruence; simpl; discriminate).
  rewrite mergeTemplateValues_slice by done.
  destruct lb, (toTemplateSlice incoming); try discriminate; simpl;
    match goal with |- context [match ?x with _ => _ end] =>
      destruct x; discriminate end.
Qed.

(** The accumulator of the array loop, once an element has been folded in,
    is never nil again. *)
Lemma fold_elements_not_nil (l : list value) element :
  element ≠ VNil →
  fold_left (fun element item =>
               mergeTemplateValues element (buildTemplateValue item))
            l element ≠ VNil.
Proof.
  revert element. induction l as [|x l IH]; intros element He; simpl; [done|].
  apply IH. by apply mergeTemplateValues_not_nil.
Qed.

Lemma buildTemplateValue_slice_cons x l :
  buildTemplateValue (VSlice (x :: l))
  = VSlice [fold_left (fun element item =>
                         mergeTemplateValues element (buildTemplateValue item))
                      (x :: l) VNil].
Proof.
  cbn [buildTemplateValue].
  pose proof (fold_elements_not_nil l
                (mergeTemplateValues VNil (buildTemplateValue x))) as Hne.
  cbn [fold_left].
  destruct (fold_left _ l _) eqn:E; try reflexivity.
  exfalso. apply Hne; [|reflexivity].
  rewrite mergeTemplateValues_nil_l. apply buildTemplateValue_not_nil.
Qed.

Lemma skeleton_not_nil v : skeleton v → v ≠ VNil.
Proof. intros H; inversion H; discriminate. Qed.

Lemma skeleton_wrap merged :
  skeleton merged →
  skeleton match merged with VNil => VSlice [] | _ => VSlice [merged] end.
Proof. intros H. destruct H; by repeat constructor. Qed.

Lemma toTemplateMap_skeleton incoming k v :
  skeleton incoming → toTemplateMap incoming !! k = Some v → skeleton v.
Proof.
  intros Hsk Hk. destruct Hsk as [| | |m Hm| |e He]; simpl in Hk;
    try (by rewrite lookup_empty in Hk).
  - by eapply Hm.
  - destruct He; simpl in Hk; try (by rewrite lookup_empty in Hk).
    eauto.
Qed.

Lemma toTemplateSlice_skeleton incoming :
  skeleton incoming →
  hd VNil (toTemplateSlice incoming) = VNil ∨
  skeleton (hd VNil (toTemplateSlice incoming)).
Proof.
  intros Hsk. destruct Hsk; simpl; auto; right; by constructor.
Qed.

(** Skeletons are closed under the skeleton merge. *)
Lemma mergeTemplateValues_skeleton base :
  skeleton base →
  ∀ incoming, incoming = VNil ∨ skeleton incoming →
  skeleton (mergeTemplateValues base incoming).
Proof.
  induction 1 as [| | |m Hm IH| |e He IH]; intros incoming [->|Hinc];
    try (rewrite mergeTemplateValues_nil_r; by constructor).
  1-3: destruct incoming; simpl; by constructor.
  - destruct (mergeTemplateValues_map_lookup m incoming) as (r & -> & Hr).
    { by apply skeleton_not_nil. }
    constructor. intros k v. rewrite Hr.
    destruct (toTemplateMap incoming !! k) as [val|] eqn:Hk.
    + intros [= <-]. pose proof (toTemplateMap_skeleton _ _ _ Hinc Hk) as Hval.
      unfold readKey. destruct (m !! k) as [bv|] eqn:Hb; simpl.
      * eapply IH; eauto.
      * by rewrite mergeTemplateValues_nil_l.
    + apply Hm.
  - rewrite mergeTemplateValues_slice by (by apply skeleton_not_nil).
    destruct (toTemplateSlice_skeleton incoming Hinc) as [Hhd|Hhd];
      destruct (toTemplateSlice incoming) as [|x li]; simpl in *;
      try (by constructor).
    + subst x. by constructor.
    + rewrite copyTemplateValue_id. by apply skeleton_wrap.
  - rewrite mergeTemplateValues_slice by (by apply skeleton_not_nil).
    cbn [hd]. cbv zeta.
    assert (skeleton (mergeTemplateValues e (hd VNil (toTemplateSlice incoming))))
      as Hm.
    { apply IH. destruct (toTemplateSlice_skeleton incoming Hinc); auto. }
    destruct (toTemplateSlice incoming); by apply skeleton_wrap.
Qed.

Lemma fold_elements_skeleton (l : list value) element :
  Forall (fun item => skeleton (buildTemplateValue item)) l →
  element = VNil ∨ skeleton element →
  let r := fold_left (fun element item =>
                        mergeTemplateValues element (buildTemplateValue item))
                     l element in
  r = VNil ∨ skeleton r.
Proof.
  intros Hl. revert element.
  induction Hl as [|x l Hx Hl IH]; intros element He; simpl; [done|].
  apply IH. right. destruct He as [->|He].
  - by rewrite mergeTemplateValues_nil_l.
  - apply mergeTemplateValues_skeleton; auto.
Qed.

(** The sanitizer only produces skeletons. *)
Lemma buildTemplateValue_skeleton v : skeleton (buildTemplateValue v).
Proof.
  induction v as [| | | | | | |m IH|m IH|l IH|l IH] using value_tree_ind;
    try (simpl; by constructor).
  1-2: rewrite ?buildTemplateValue_primM, buildTemplateValue_map;
       constructor; intros k v; rewrite lookup_fmap;
       destruct (m !! k) eqn:Hk; simpl; [|done]; intros [= <-]; eauto.
  all: rewrite ?buildTemplateValue_primA; cbn [buildTemplateValue];
       destruct (fold_elements_skeleton l VNil IH (or_introl eq_refl)) as [->|Hsk];
       [by constructor|by apply skeleton_wrap].
Qed.

(** The sanitizer leaves a skeleton as it is. *)
Lemma buildTemplateValue_fixes_skeleton s :
  skeleton s → buildTemplateValue s = s.
Proof.
  induction 1 as [| | |m Hm IH| |e He IH]; try reflexivity.
  - rewrite buildTemplateValue_map. f_equal. apply map_eq. intros k.
    rewrite lookup_fmap. destruct (m !! k) eqn:Hk; simpl; [|done].
    f_equal. eauto.
  - rewrite buildTemplateValue_slice_cons. cbn [fold_left].
    by rewrite mergeTemplateValues_nil_l, IH.
Qed.

End Skeletons.

(** ** Key paths through the skeleton merge *)

Section KeyPaths.











Lemma buildTemplateValue_pair a b :
  buildTemplateValue (VSlice [a; b])
  = VSlice [mergeTemplateValues (buildTemplateValue a) (buildTemplateValue b)].
Proof.
  rewrite buildTemplateValue_slice_cons. cbn [fold_left].
  by rewrite mergeTemplateValues_nil_l.
Qed.

(** At the top level the representative of two objects carries exactly the
    keys of both, whatever the kinds of the values below. *)
Lemma representative_top_level_keys (ma mb : document) :
  ∃ mr : document,
    buildTemplateValue (VSlice [VMap ma; VMap mb]) = VSlice [VMap mr] ∧
    dom mr = dom ma ∪ dom mb.
Proof.
  rewrite buildTemplateValue_pair, !buildTemplateValue_map.
  destruct (mergeTemplateValues_map_lookup (buildTemplateValue <$> ma)
              (VMap (buildTemplateValue <$> mb))) as (r & -> & Hr);
    [discriminate|].
  exists r. split; [done|].
  apply set_eq. intros k. rewrite elem_of_union, !elem_of_dom, Hr. simpl.
  rewrite !lookup_fmap.
  destruct (mb !! k), (ma !! k); simpl; split; intros H;
    try (destruct H as [H|H]); eauto; by apply is_Some_None in H.
Qed.

End KeyPaths.

(** ** Claims about the sanitizer *)

Section SanitizerClaims.

Lemma fold_left_build l element :
  fold_left (fun element item =>
               mergeTemplateValues element (buildTemplateValue item)) l element
  = fold_left mergeTemplateValues (buildTemplateValue <$> l) element.
Proof.
  revert element. induction l as [|x l IH]; intros element; csimpl; [done|].
  apply IH.
Qed.

Lemma objectOf_toTemplateMap incoming : objectOf incoming = toTemplateMap incoming.
Proof.
  destruct incoming as [| | | | | | |m|m|l|l]; try reflexivity;
    by destruct l as [|[] l].
Qed.

Lemma elementsOf_toTemplateSlice incoming :
  skeleton incoming → elementsOf incoming = toTemplateSlice incoming.
Proof. by destruct 1. Qed.

(** The specification's merge of an object, key by key. *)
Lemma skeletonMerge_lookup (e : document) incoming k :
  ∃ r : document,
    skeletonMerge (VMap e) incoming = VMap r ∧
    r !! k = match e !! k, objectOf incoming !! k with
             | Some ev, Some iv => Some (skeletonMerge ev iv)
             | Some ev, None => Some ev
             | None, oi => oi
             end.
Proof.
  eexists. split; [reflexivity|].
  rewrite lookup_merge, lookup_fmap.
  by destruct (e !! k), (objectOf incoming !! k).
Qed.

Lemma toTemplateSlice_skeletons incoming :
  skeleton incoming → ∀ x, x ∈ toTemplateSlice incoming → skeleton x.
Proof.
  intros Hinc x Hx.
  destruct Hinc as [| | |m Hm| |e He]; simpl in Hx;
    try (apply list_elem_of_singleton in Hx as ->;
         first [done|by constructor]).
  by apply elem_of_nil in Hx.
Qed.

(** On sanitized values the source's merge is the specification's. *)
Lemma mergeTemplateValues_skeletonMerge base :
  skeleton base →
  ∀ incoming, skeleton incoming →
    mergeTemplateValues base incoming = skeletonMerge base incoming.
Proof.
  induction 1 as [| | |m Hm IH| |e He IH]; intros incoming Hinc;
    pose proof (skeleton_not_nil _ Hinc) as Hnil.
  1-3: by destruct incoming.
  - destruct (mergeTemplateValues_map_lookup m incoming Hnil) as (r & -> & Hr).
    cbn [skeletonMerge]. f_equal. apply map_eq. intros k.
    rewrite Hr, lookup_merge, lookup_fmap.
    change (objectOf incoming) with (toTemplateMap incoming).
    unfold readKey.
    destruct (m !! k) as [ev|] eqn:Hk,
             (toTemplateMap incoming !! k) as [iv|] eqn:Hi; simpl; try done.
    + f_equal. eapply IH; [done|]. by eapply toTemplateMap_skeleton.
    + by rewrite mergeTemplateValues_nil_l.
  - rewrite mergeTemplateValues_slice by done. cbn [skeletonMerge].
    rewrite (elementsOf_toTemplateSlice _ Hinc).
    pose proof (toTemplateSlice_skeletons _ Hinc) as Hall.
    destruct (toTemplateSlice incoming) as [|i0 li]; [done|].
    pose proof (skeleton_not_nil _ (Hall i0 (list_elem_of_here _ _))).
    simpl. rewrite copyTemplateValue_id. by destruct i0.
  - rewrite mergeTemplateValues_slice by done. cbn [skeletonMerge].
    rewrite (elementsOf_toTemplateSlice _ Hinc).
    pose proof (toTemplateSlice_skeletons _ Hinc) as Hall.
    pose proof (skeleton_not_nil _ He) as Hne.
    destruct (toTemplateSlice incoming) as [|i0 li]; simpl.
    + rewrite mergeTemplateValues_nil_r. by destruct e.
    + rewrite <-(IH _ (Hall i0 (list_elem_of_here _ _))).
      pose proof (mergeTemplateValues_not_nil e i0 Hne).
      by destruct (mergeTemplateValues e i0).
Qed.

(** The array loop of the sanitizer, from a sanitized accumulator on, is
    the fold of the specification's merge. *)
Lemma fold_elements_representative l element :
  skeleton element →
  fold_left (fun element item =>
               mergeTemplateValues element (buildTemplateValue item)) l element
  = representative element (buildTemplateValue <$> l).
Proof.
  revert element. induction l as [|x l IH]; intros element He; [done|].
  cbn [fold_left]. csimpl. unfold representative in *. cbn [foldl].
  rewrite <-(mergeTemplateValues_skeletonMerge _ He)
    by apply buildTemplateValue_skeleton.
  apply IH, mergeTemplateValues_skeleton; [done|].
  right. apply buildTemplateValue_skeleton.
Qed.

Lemma buildTemplateValue_representative x l :
  buildTemplateValue (VSlice (x :: l))
  = VSlice [representative (buildTemplateValue x) (buildTemplateValue <$> l)].
Proof.
  rewrite buildTemplateValue_slice_cons. cbn [fold_left].
  rewrite mergeTemplateValues_nil_l.
  by rewrite fold_elements_representative by apply buildTemplateValue_skeleton.
Qed.

(** C3, amended.  The sanitizer is a total function on document trees whose
    result is always a well-formed skeleton (never nil, never an error): a
    string or nil leaf becomes the empty string, a boolean becomes false, a
    leaf of type int, int32, int64, float32 or float64 becomes the integer
    0, a value of any other type (a number of another numeric type
    included) becomes the empty string, an empty array stays an empty
    array, and a non-empty array becomes the one-element array holding the
    representative of its sanitized elements: their fold, in order, with
    the skeleton merge as the specification words it.  The fold is also
    given as the source writes it. *)
Theorem buildTemplateValue_total_zero_values :
  (∀ v, skeleton (buildTemplateValue v)) ∧
  (∀ s, buildTemplateValue (VString s) = VString "") ∧
  buildTemplateValue VNil = VString "" ∧
  (∀ b, buildTemplateValue (VBool b) = VBool false) ∧
  (∀ n, buildTemplateValue (VInt n) = VInt 0) ∧
  (∀ f, buildTemplateValue (VFloat f) = VInt 0) ∧
  (∀ id, buildTemplateValue (VObjectID id) = VString "") ∧
  (∀ t, buildTemplateValue (VOther t) = VString "") ∧
  buildTemplateValue (VSlice []) = VSlice [] ∧
  buildTemplateValue (VPrimA []) = VSlice [] ∧
  (∀ x l, buildTemplateValue (VSlice (x :: l))
          = VSlice [fold_left mergeTemplateValues
                              (buildTemplateValue <$> (x :: l)) VNil]) ∧
  (∀ x l, buildTemplateValue (VPrimA (x :: l))
          = VSlice [fold_left mergeTemplateValues
                              (buildTemplateValue <$> (x :: l)) VNil]) ∧
  (∀ x l, buildTemplateValue (VSlice (x :: l))
          = VSlice [representative (buildTemplateValue x)
                                   (buildTemplateValue <$> l)]) ∧
  (∀ x l, buildTemplateValue (VPrimA (x :: l))
          = VSlice [representative (buildTemplateValue x)
                                   (buildTemplateValue <$> l)]) ∧
  (∀ m : document, buildTemplateValue (VMap m) = VMap (buildTemplateValue <$> m)) ∧
  (∀ m : document, buildTemplateValue (VPrimM m) = VMap (buildTemplateValue <$> m)).
Proof.
  split; [apply buildTemplateValue_skeleton|].
  do 9 (split; [reflexivity|]).
  split; [|split; [|split; [|split; [|split]]]].
  - intros x l. rewrite buildTemplateValue_slice_cons.
    by rewrite fold_left_build.
  - intros x l. rewrite buildTemplateValue_primA, buildTemplateValue_slice_cons.
    by rewrite fold_left_build.
  - apply buildTemplateValue_representative.
  - intros x l. rewrite buildTemplateValue_primA.
    apply buildTemplateValue_representative.
  - apply buildTemplateValue_map.
  - intros m. rewrite buildTemplateValue_primM. apply buildTemplateValue_map.
Qed.

(** C3 as worded fails: a numeric leaf of a type the sanitizer's type
    switch does not list becomes the empty string, not 0. *)
Lemma numeric_leaf_of_unlisted_type_is_not_zeroed :
  buildTemplateValue NumericSamples.uint64Leaf = VString "" ∧
  buildTemplateValue NumericSamples.jsonNumberLeaf = VString "" ∧
  buildTemplateValue NumericSamples.uint64Leaf ≠ VInt 0.
Proof. repeat split; done. Qed.

(** The representative of two objects with different keys has the keys of
    both. *)
Example representative_of_two_shapes :
  buildTemplateValue NumericSamples.twoShapes
  = VSlice [ VMap {[ "a" := VInt 0; "b" := VInt 0 ]} ] ∧
  representative (VMap {[ "a" := VInt 0 ]}) [ VMap {[ "b" := VInt 0 ]} ]
  = VMap {[ "a" := VInt 0; "b" := VInt 0 ]}.
Proof. split; vm_compute; reflexivity. Qed.

(** C4.  Sanitization is idempotent: sanitizing the skeleton of a tree
    gives that skeleton back, for [buildTemplateValue] on every value and
    for [sanitizeTemplateDocument] on every document (nil included). *)
Theorem sanitize_idempotent :
  (∀ d, buildTemplateValue (buildTemplateValue d) = buildTemplateValue d) ∧
  (∀ doc, sanitizeTemplateDocument (sanitizeTemplateDocument doc)
          = sanitizeTemplateDocument doc).
Proof.
  assert (∀ d, buildTemplateValue (buildTemplateValue d) = buildTemplateValue d)
    as Hidem.
  { intros d. apply buildTemplateValue_fixes_skeleton,
                    buildTemplateValue_skeleton. }
  split; [done|].
  intros [d|]; [|reflexivity]. unfold sanitizeTemplateDocument.
  rewrite buildTemplateValue_map.
  rewrite <-buildTemplateValue_map, Hidem.
  by rewrite buildTemplateValue_map.
Qed.




End SanitizerClaims.

(** ** Go library facts *)

Section GoLibFacts.

#[global] Instance strLe_total : Total strLe.
Proof. intros s t. apply String.leb_total. Qed.

Lemma append_nil (r : string) : "" ++ r = r.
Proof. reflexivity. Qed.

Lemma append_cons c (s r : string) : String c s ++ r = String c (s ++ r).
Proof. reflexivity. Qed.

Lemma append_empty_r (s : string) : s ++ "" = s.
Proof. induction s as [|c s IH]; [done|]. by rewrite append_cons, IH. Qed.

Lemma append_assoc (a b c : string) : (a ++ b) ++ c = a ++ (b ++ c).
Proof. induction a as [|x a IH]; [done|]. by rewrite !append_cons, IH. Qed.

Lemma length_append (a b : string) :
  String.length (a ++ b) = (String.length a + String.length b)%nat.
Proof.
  induction a as [|c a IH]; [done|]. rewrite append_cons. simpl. by rewrite IH.
Qed.

Lemma isSpaceRune_not_empty sp : isSpaceRune sp = true → sp ≠ "".
Proof. by destruct sp. Qed.

(** The lead byte of a longer white-space rune is no white space itself,
    and the lead byte of a three-byte one starts no two-byte one. *)
Lemma isSpace2_lead c1 c2 : isSpace2 c1 c2 = true → isSpace c1 = false.
Proof.
  unfold isSpace2, isSpace. cbv zeta.
  intros [H1%N.eqb_eq _]%andb_true_iff. by rewrite H1.
Qed.

Lemma isSpace3_lead c1 c2 c3 :
  isSpace3 c1 c2 c3 = true → isSpace c1 = false ∧ isSpace2 c1 c2 = false.
Proof.
  unfold isSpace3, isSpace2, isSpace. cbv zeta. intros H.
  assert (N_of_ascii c1 = 225 ∨ N_of_ascii c1 = 226 ∨ N_of_ascii c1 = 227)%N
    as Hlead.
  { repeat (apply orb_true_iff in H as [H|H]);
      repeat (apply andb_true_iff in H as [H ?]);
      apply N.eqb_eq in H; auto. }
  destruct Hlead as [-> | [-> | ->]]; done.
Qed.

(** What a string that begins with a white-space rune looks like. *)
Lemma leadingSpace_true s :
  leadingSpace s = true ↔ ∃ sp rest, isSpaceRune sp = true ∧ s = sp ++ rest.
Proof.
  split.
  - destruct s as [|c1 [|c2 [|c3 rest3]]]; cbn [leadingSpace]; try done.
    + rewrite orb_false_r. intros H. by exists (String c1 ""), "".
    + intros [H|H]%orb_true_iff; [by exists (String c1 ""), (String c2 "")|].
      rewrite orb_false_r in H. by exists (String c1 (String c2 "")), "".
    + intros [H|[H|H]%orb_true_iff]%orb_true_iff.
      * by exists (String c1 ""), (String c2 (String c3 rest3)).
      * by exists (String c1 (String c2 "")), (String c3 rest3).
      * by exists (String c1 (String c2 (String c3 ""))), rest3.
  - intros (sp & rest & Hsp & ->).
    destruct sp as [|c1 [|c2 [|c3 [|]]]]; try done; cbn [isSpaceRune] in Hsp;
      rewrite ?append_cons, ?append_nil; cbn [leadingSpace].
    + by rewrite Hsp.
    + rewrite Hsp. by rewrite orb_true_r.
    + rewrite Hsp. by rewrite !orb_true_r.
Qed.

Lemma leadingSpace_app p r :
  leadingSpace p = true → leadingSpace (p ++ r) = true.
Proof.
  intros (sp & rest & Hsp & ->)%leadingSpace_true.
  apply leadingSpace_true. exists sp, (rest ++ r).
  split; [done|]. apply append_assoc.
Qed.

Lemma trimLeft_fixed s : leadingSpace s = false → trimLeft s = s.
Proof.
  destruct s as [|c1 [|c2 [|c3 rest3]]]; cbn [leadingSpace trimLeft]; try done.
  - rewrite orb_false_r. by intros ->.
  - intros [-> [-> _]%orb_false_iff]%orb_false_iff. done.
  - intros [-> [-> ->]%orb_false_iff]%orb_false_iff. done.
Qed.

(** [trimLeft] takes off a white-space rune. *)
Lemma trimLeft_rune sp rest :
  isSpaceRune sp = true → trimLeft (sp ++ rest) = trimLeft rest.
Proof.
  destruct sp as [|c1 [|c2 [|c3 [|]]]]; try done; cbn [isSpaceRune];
    intros Hsp; rewrite ?append_cons, ?append_nil; cbn [trimLeft].
  - by rewrite Hsp.
  - by rewrite (isSpace2_lead _ _ Hsp), Hsp.
  - destruct (isSpace3_lead _ _ _ Hsp) as [-> ->]. by rewrite Hsp.
Qed.

Lemma trimLeft_by_length n :
  ∀ s, (String.length s ≤ n)%nat →
    leadingSpace (trimLeft s) = false ∧
    ∃ front, spaces front ∧ s = front ++ trimLeft s.
Proof.
  induction n as [|n IH]; intros s Hlen.
  { destruct s; [|simpl in Hlen; lia]. split; [done|].
    exists "". split; [constructor|done]. }
  destruct (leadingSpace s) eqn:Hlead.
  - apply leadingSpace_true in Hlead as (sp & rest & Hsp & ->).
    rewrite (trimLeft_rune _ _ Hsp).
    destruct (IH rest) as (Hno & front & Hfront & Hrest).
    { pose proof (isSpaceRune_not_empty _ Hsp).
      rewrite length_append in Hlen. destruct sp; [done|].
      simpl in Hlen. lia. }
    split; [done|]. exists (sp ++ front). split; [by constructor|].
    rewrite Hrest at 1. by rewrite append_assoc.
  - rewrite (trimLeft_fixed _ Hlead). split; [done|].
    exists "". split; [constructor|done].
Qed.

Lemma trimLeft_no_leading s : leadingSpace (trimLeft s) = false.
Proof. by destruct (trimLeft_by_length (String.length s) s). Qed.

Lemma trimLeft_front s : ∃ front, spaces front ∧ s = front ++ trimLeft s.
Proof. by destruct (trimLeft_by_length (String.length s) s). Qed.

Lemma spaces_app a b : spaces a → spaces b → spaces (a ++ b).
Proof.
  induction 1 as [|sp rest Hsp Hrest IH]; intros Hb; [done|].
  rewrite append_assoc. constructor; auto.
Qed.

(** What [trimRight] takes off is white space, and what it keeps does not
    end with a white-space rune. *)
Lemma trimRight_back s : ∃ back, spaces back ∧ s = trimRight s ++ back.
Proof.
  induction s as [|c s (back & Hback & IH)].
  { exists "". split; [constructor|done]. }
  cbn [trimRight]. cbv zeta.
  destruct (isSpaceRune (String c (trimRight s))) eqn:Hrune.
  - exists (String c s). split; [|done].
    rewrite IH, <-append_cons. by constructor.
  - exists back. split; [done|]. by rewrite append_cons, <-IH.
Qed.

Lemma trimRight_no_trailing s sp rest :
  isSpaceRune sp = true → trimRight s ≠ rest ++ sp.
Proof.
  intros Hsp. revert rest. induction s as [|c s IH]; intros rest.
  { simpl. destruct rest; [|done]. rewrite append_nil. intros <-. done. }
  cbn [trimRight]. cbv zeta.
  destruct (isSpaceRune (String c (trimRight s))) eqn:Hrune.
  - destruct rest; [|done]. rewrite append_nil. intros <-. done.
  - destruct rest as [|c' rest]; rewrite ?append_nil, ?append_cons.
    + intros <-. congruence.
    + intros [= _ Hkept]. by eapply IH.
Qed.

Lemma trimRight_prefix s : ∃ r, s = trimRight s ++ r.
Proof. destruct (trimRight_back s) as (back & _ & ?). eauto. Qed.

Lemma trimRight_no_leading s :
  leadingSpace s = false → leadingSpace (trimRight s) = false.
Proof.
  intros Hs. destruct (leadingSpace (trimRight s)) eqn:Hlead; [|done].
  destruct (trimRight_prefix s) as [r Hr].
  rewrite Hr in Hs. by rewrite (leadingSpace_app _ r Hlead) in Hs.
Qed.

Lemma trimRight_idem s : trimRight (trimRight s) = trimRight s.
Proof.
  induction s as [|c s IH]; [done|]. cbn [trimRight]. cbv zeta.
  destruct (isSpaceRune (String c (trimRight s))) eqn:Hrune; [done|].
  cbn [trimRight]. cbv zeta. by rewrite IH, Hrune.
Qed.

(** Trimming a trimmed string changes nothing. *)
Lemma TrimSpace_idem s : TrimSpace (TrimSpace s) = TrimSpace s.
Proof.
  unfold TrimSpace.
  rewrite (trimLeft_fixed (trimRight (trimLeft s)))
    by apply trimRight_no_leading, trimLeft_no_leading.
  apply trimRight_idem.
Qed.

(** [TrimSpace] takes white space off both ends, and nothing else. *)
Lemma TrimSpace_surroundings s :
  ∃ front back, spaces front ∧ spaces back ∧ s = front ++ TrimSpace s ++ back.
Proof.
  destruct (trimLeft_front s) as (front & Hfront & Hs).
  destruct (trimRight_back (trimLeft s)) as (back & Hback & Hkept).
  exists front, back. split; [done|]. split; [done|].
  unfold TrimSpace. by rewrite <-Hkept.
Qed.

(** What [TrimSpace] returns has no white space left at either end. *)
Lemma TrimSpace_trimmed s : trimmed (TrimSpace s).
Proof.
  intros sp rest Hsp. split.
  - intros Heq.
    assert (leadingSpace (TrimSpace s) = true) as Hlead
      by (apply leadingSpace_true; eauto).
    unfold TrimSpace in Hlead.
    by rewrite (trimRight_no_leading _ (trimLeft_no_leading s)) in Hlead.
  - by apply trimRight_no_trailing.
Qed.

Lemma trimLeft_spaces s : spaces s → trimLeft s = "".
Proof.
  induction 1 as [|sp rest Hsp Hrest IH]; [done|].
  by rewrite (trimLeft_rune _ _ Hsp).
Qed.

(** Trimming leaves nothing exactly when the string is white space. *)
Lemma TrimSpace_empty s : TrimSpace s = "" ↔ spaces s.
Proof.
  split.
  - intros Hs.
    destruct (TrimSpace_surroundings s) as (front & back & Hf & Hb & Heq).
    rewrite Hs, append_nil in Heq. rewrite Heq. by apply spaces_app.
  - intros Hs. unfold TrimSpace. by rewrite (trimLeft_spaces _ Hs).
Qed.

Lemma ObjectIDFromHex_nonempty id oid : ObjectIDFromHex id = Some oid → id ≠ "".
Proof. intros H ->. discriminate. Qed.

End GoLibFacts.

(** ** Payload merge *)

Section PayloadMerge.

(** The loop of [mergeJSONDocuments], as the source writes it. *)
Lemma mergeJSONDocuments_unfold (base updates : document) :
  mergeJSONDocuments base updates
  = map_fold
      (fun k v (base : document) =>
         if bool_decide (k = "_id") then base
         else
           match v with
           | VMap vMap =>
               let baseMap :=
                 match base !! k with
                 | Some (VMap bm) => bm
                 | _ => ∅
                 end in
               <[k := VMap (mergeJSONDocuments baseMap vMap)]> base
           | _ => <[k := v]> base
           end)
      base updates.
Proof.
  unfold mergeJSONDocuments at 1. cbn [mergeJSONValue].
  apply map_fold_body_ext. intros k v acc _.
  case_bool_decide; [done|]. by destruct v.
Qed.

(** The same loop, over the entries of [updates] in any order. *)
Lemma mergeJSONDocuments_any_order (base updates : document) entries :
  NoDup entries.*1 →
  list_to_map entries = updates →
  mergeJSONDocuments base updates
  = fold_left
      (fun (base : document) kv =>
         if bool_decide (kv.1 = "_id") then base
         else
           match kv.2 with
           | VMap vMap =>
               let baseMap :=
                 match base !! kv.1 with
                 | Some (VMap bm) => bm
                 | _ => ∅
                 end in
               <[kv.1 := VMap (mergeJSONDocuments baseMap vMap)]> base
           | _ => <[kv.1 := kv.2]> base
           end)
      entries base.
Proof.
  intros Hnd Hentries. rewrite mergeJSONDocuments_unfold. symmetry.
  pose (body := fun (k : string) (v : value) (base : document) =>
          if bool_decide (k = "_id") then base
          else
            match v with
            | VMap vMap =>
                let baseMap :=
                  match base !! k with
                  | Some (VMap bm) => bm
                  | _ => ∅
                  end in
                <[k := VMap (mergeJSONDocuments baseMap vMap)]> base
            | _ => <[k := v]> base
            end).
  pose (h := fun (k : string) (v : value) (o : option value) =>
          if bool_decide (k = "_id") then None
          else
            match v with
            | VMap vMap =>
                Some (VMap (mergeJSONDocuments
                              match o with
                              | Some (VMap bm) => bm
                              | _ => ∅
                              end vMap))
            | _ => Some v
            end).
  assert (∀ k v acc, body k v acc = rangeAssign h k v acc) as Hbody.
  { intros k v acc. unfold body, h, rangeAssign.
    case_bool_decide; [done|]. by destruct v. }
  exact (range_loop_any_order body h entries updates base Hbody Hnd Hentries).
Qed.

(** What [mergeJSONDocuments] leaves under each key. *)
Lemma mergeJSONDocuments_lookup (base updates : document) k :
  mergeJSONDocuments base updates !! k
  = if bool_decide (k = "_id") then base !! k
    else
      match updates !! k with
      | None => base !! k
      | Some (VMap vMap) =>
          Some (VMap (mergeJSONDocuments
                        match base !! k with
                        | Some (VMap bm) => bm
                        | _ => ∅
                        end vMap))
      | Some v => Some v
      end.
Proof.
  rewrite mergeJSONDocuments_unfold.
  pose (h := fun (k : string) (v : value) (o : option value) =>
          if bool_decide (k = "_id") then None
          else
            match v with
            | VMap vMap =>
                Some (VMap (mergeJSONDocuments
                              match o with
                              | Some (VMap bm) => bm
                              | _ => ∅
                              end vMap))
            | _ => Some v
            end).
  rewrite (map_fold_body_ext _ (rangeAssign h)).
  - rewrite rangeAssign_lookup. unfold h.
    case_bool_decide; [by destruct (updates !! k)|].
    destruct (updates !! k) as [[]|]; reflexivity.
  - intros k' v acc _. unfold rangeAssign, h.
    case_bool_decide; [done|]. by destruct v.
Qed.

(** Merging into nothing: the payload without the identity keys of its
    objects. *)
Lemma mergeJSONDocuments_empty (updates : document) :
  mergeJSONDocuments ∅ updates = delete "_id" (withoutIds <$> updates).
Proof.
  assert (∀ v (m : document), v = VMap m →
            mergeJSONDocuments ∅ m = delete "_id" (withoutIds <$> m)) as Hgen;
    [|by apply (Hgen (VMap updates))].
  induction v as [| | | | | | |m0 IH|m0 IH|l IH|l IH] using value_tree_ind;
    intros m [= <-].
  apply map_eq. intros k. rewrite mergeJSONDocuments_lookup, lookup_empty.
  case_bool_decide as Hk; [subst k; by rewrite lookup_delete_eq|].
  rewrite lookup_delete_ne, lookup_fmap by done.
  destruct (m0 !! k) as [v|] eqn:Hv; [|done].
  destruct v; try reflexivity. simpl. do 2 f_equal. by eapply IH.
Qed.

(** Merging into a document that holds an identity only. *)
Lemma mergeJSONDocuments_into_identity (updates : document) id :
  <["_id" := id]> (mergeJSONDocuments {[ "_id" := id ]} updates)
  = <["_id" := id]> (withoutIds <$> updates).
Proof.
  apply map_eq. intros k.
  destruct (decide (k = "_id")) as [->|Hk]; [by rewrite !lookup_insert_eq|].
  rewrite !lookup_insert_ne by done.
  rewrite mergeJSONDocuments_lookup, bool_decide_false by done.
  rewrite lookup_fmap, lookup_singleton_ne by done.
  destruct (updates !! k) as [v|]; [|done].
  destruct v; try reflexivity. simpl.
  by rewrite mergeJSONDocuments_empty.
Qed.

(** C5.  The payload merge keeps the identity of the target side: whatever
    the update holds under [_id] (or nothing), the merged document has
    under [_id] exactly what the existing document has there. *)
Theorem mergeJSONDocuments_preserves_id (existing update : document) :
  mergeJSONDocuments existing update !! "_id" = existing !! "_id".
Proof.
  rewrite mergeJSONDocuments_unfold.
  apply (map_fold_weak_ind
           (fun (r : document) (_ : document) => r !! "_id" = existing !! "_id")).
  - reflexivity.
  - intros k v m r Hk IH.
    case_bool_decide as Hid; [done|].
    destruct v; rewrite lookup_insert_ne by done; exact IH.
Qed.

End PayloadMerge.

(** ** Single-document replace *)

Section SingleReplace.

Lemma ReplaceOne_no_match key doc (c : collection) :
  FindOne key c = None → ReplaceOne key doc c = (c ++ [doc])%list.
Proof.
  unfold FindOne. induction c as [|d c IH]; simpl; [done|].
  destruct (matchesId key d); [done|]. intros H. by rewrite IH.
Qed.

(** C9 as worded fails: an empty payload that is not nil passes every guard
    and the replace goes through (here it upserts a document holding only
    the identity). *)
Lemma UpdateStructureWebsite_accepts_empty_payload :
  ∃ doc w',
    UpdateStructureWebsite (Some "acme") Samples.menuId (Some ∅) Samples.twoTenants
      = (Ok doc, w') ∧
    doc = {[ "_id" := VObjectID Samples.menuOid ]} ∧
    documentsOf w' "acme" "structure_websites"
      = (documentsOf Samples.twoTenants "acme" "structure_websites" ++ [doc])%list.
Proof.
  eexists _, _. split; [vm_compute; reflexivity|].
  split; vm_compute; reflexivity.
Qed.

(** C9, amended.  [UpdateStructureWebsite] stops with an error and leaves
    the world (hence every collection) as it was whenever the
    LOCAL_DEVELOPMENT flag is not set, or the id is the empty string, or the
    payload is nil, or the id does not parse as an ObjectID; it succeeds
    only when the flag is set, the id is not empty, the payload is not nil
    (an empty one is accepted) and the id parses, and with a database at
    hand those four conditions are enough for it to succeed. *)
Theorem UpdateStructureWebsite_guards ctx id payload w :
  (ToLower (envLocalDevelopment w) ≠ "true" ∨ id = "" ∨ payload = None ∨
     ObjectIDFromHex id = None →
   ∃ e, UpdateStructureWebsite ctx id payload w = (Err e, w)) ∧
  (∀ doc w', UpdateStructureWebsite ctx id payload w = (Ok doc, w') →
     ToLower (envLocalDevelopment w) = "true" ∧ id ≠ "" ∧ payload ≠ None ∧
     is_Some (ObjectIDFromHex id)) ∧
  (ToLower (envLocalDevelopment w) = "true" → id ≠ "" → payload ≠ None →
   is_Some (ObjectIDFromHex id) → is_Some ctx →
   ∃ doc w', UpdateStructureWebsite ctx id payload w = (Ok doc, w')).
Proof.
  unfold UpdateStructureWebsite, bind, gets, fail, ret, updateCollection.
  split; [|split].
  - intros Hbad.
    case_bool_decide as Hflag; [eauto|].
    case_bool_decide as Hid; [eauto|].
    destruct payload as [p|]; [|eauto].
    destruct ctx as [db|]; [|eauto].
    destruct (ObjectIDFromHex id) eqn:Hhex; [|eauto].
    exfalso. destruct Hbad as [?|[?|[?|?]]]; done.
  - intros doc w'.
    case_bool_decide as Hflag; [done|].
    case_bool_decide as Hid; [done|].
    destruct payload as [p|]; [|done].
    destruct ctx as [db|]; [|done].
    destruct (ObjectIDFromHex id) eqn:Hhex; [|done].
    intros _. repeat split; eauto.
  - intros Hflag Hid Hp [oid Hhex] [db ->].
    destruct payload as [p|]; [|done].
    rewrite Hhex.
    case_bool_decide; [done|]. case_bool_decide; [done|]. eauto.
Qed.

(** C10.  With the flag set, a payload that is not nil and an id that
    parses but matches no document of the collection,
    [UpdateStructureWebsite] does not fail: it inserts (upsert) and returns
    the document obtained by merging the payload into [{_id: parsed id}]
    and setting [_id] to the parsed id.  That document holds the parsed id
    under [_id] and, under every other key, what the payload holds there,
    objects without their [_id] entries: its keys are [_id] and the keys of
    the payload, and a payload value that is not an object is stored as it
    is. *)
Theorem UpdateStructureWebsite_upserts_missing db id oid (payload : document) w :
  ToLower (envLocalDevelopment w) = "true" →
  ObjectIDFromHex id = Some oid →
  FindOne (VObjectID oid) (documentsOf w db "structure_websites") = None →
  ∃ doc w',
    UpdateStructureWebsite (Some db) id (Some payload) w = (Ok doc, w') ∧
    doc = <["_id" := VObjectID oid]>
            (mergeJSONDocuments {[ "_id" := VObjectID oid ]} payload) ∧
    doc !! "_id" = Some (VObjectID oid) ∧
    documentsOf w' db "structure_websites"
      = (documentsOf w db "structure_websites" ++ [doc])%list ∧
    doc = <["_id" := VObjectID oid]> (withoutIds <$> payload) ∧
    dom doc = {["_id"]} ∪ dom payload ∧
    (∀ k v, k ≠ "_id" → payload !! k = Some v → (∀ m, v ≠ VMap m) →
       doc !! k = Some v) ∧
    (∀ k, k ≠ "_id" → payload !! k = None → doc !! k = None).
Proof.
  intros Hflag Hhex Hnone.
  pose proof (ObjectIDFromHex_nonempty _ _ Hhex) as Hid.
  unfold UpdateStructureWebsite, bind, gets, fail, ret, updateCollection.
  case_bool_decide; [done|]. case_bool_decide; [done|].
  rewrite Hhex, Hnone.
  eexists _, _. split; [reflexivity|]. split; [reflexivity|].
  split; [apply lookup_insert_eq|].
  split.
  { unfold documentsOf at 1. simpl. rewrite lookup_insert_eq. simpl.
    by apply ReplaceOne_no_match. }
  rewrite mergeJSONDocuments_into_identity.
  split; [done|]. split; [|split].
  - by rewrite dom_insert_L, dom_fmap_L.
  - intros k v Hk Hv Hobj. rewrite lookup_insert_ne, lookup_fmap, Hv by done.
    destruct v; try reflexivity. by destruct (Hobj m).
  - intros k Hk Hv. by rewrite lookup_insert_ne, lookup_fmap, Hv.
Qed.

Lemma UpdateStructureWebsite_upserts_missing_witness :
  ∃ doc w',
    UpdateStructureWebsite (Some "acme") Samples.menuId
      (Some UpsertSamples.menuPayload) Samples.twoTenants = (Ok doc, w') ∧
    doc = <["_id" := VObjectID Samples.menuOid]>
            (mergeJSONDocuments {[ "_id" := VObjectID Samples.menuOid ]}
                                UpsertSamples.menuPayload) ∧
    doc !! "_id" = Some (VObjectID Samples.menuOid) ∧
    documentsOf w' "acme" "structure_websites"
      = (documentsOf Samples.twoTenants "acme" "structure_websites" ++ [doc])%list ∧
    doc = <["_id" := VObjectID Samples.menuOid]>
            (withoutIds <$> UpsertSamples.menuPayload) ∧
    dom doc = {["_id"]} ∪ dom UpsertSamples.menuPayload ∧
    (∀ k v, k ≠ "_id" → UpsertSamples.menuPayload !! k = Some v →
       (∀ m, v ≠ VMap m) → doc !! k = Some v) ∧
    (∀ k, k ≠ "_id" → UpsertSamples.menuPayload !! k = None → doc !! k = None).
Proof.
  apply (UpdateStructureWebsite_upserts_missing
           "acme" Samples.menuId Samples.menuOid
           UpsertSamples.menuPayload Samples.twoTenants);
    vm_compute; reflexivity.
Defined.

(** On the sample: the stored document carries the parsed id, the slug,
    and the nested object without its own [_id]. *)
Example upserted_menu_document :
  (UpdateStructureWebsite (Some "acme") Samples.menuId
     (Some UpsertSamples.menuPayload) Samples.twoTenants).1
  = Ok {[ "_id" := VObjectID Samples.menuOid;
          "slug" := VString "menu";
          "seo" := VMap {[ "title" := VString "Menu" ]} ]}.
Proof. vm_compute. reflexivity. Qed.

End SingleReplace.

(** ** Identity resolution *)

Section IdentityResolution.

Variable filterMatches : string → string → document → bool.
Variable decodeClientName : document → option string.

Lemma sanitizeTemplateDocument_Some (doc : document) :
  sanitizeTemplateDocument (Some doc) = Some (buildTemplateValue <$> doc).
Proof. unfold sanitizeTemplateDocument. by rewrite buildTemplateValue_map. Qed.

Lemma sameDeployment_refl w : sameDeployment w w.
Proof. by repeat split. Qed.

Lemma sameDeployment_trans w1 w2 w3 :
  sameDeployment w1 w2 → sameDeployment w2 w3 → sameDeployment w1 w3.
Proof.
  intros (?&?&?&?) (?&?&?&?). repeat split; congruence.
Qed.

Lemma prepareTemplateDocument_frame doc w r w' :
  prepareTemplateDocument doc w = (r, w') → sameDeployment w w'.
Proof.
  unfold prepareTemplateDocument, bind, ret, fail, NewObjectID.
  destruct (doc !! "_id") as [[| s | | | | oid | | | | |]|]; simpl;
    try (intros [= <- <-]; by repeat split).
  case_bool_decide; simpl; [intros [= <- <-]; by repeat split|].
  destruct (ObjectIDFromHex _); simpl; intros [= <- <-]; by repeat split.
Qed.

Lemma prepareDocuments_frame documents :
  ∀ idx sanitizedDocs templateIDs w r w',
    prepareDocuments idx documents sanitizedDocs templateIDs w = (r, w') →
    sameDeployment w w'.
Proof.
  induction documents as [|[rawDoc|] rest IH];
    intros idx sanitizedDocs templateIDs w r w'; simpl.
  - intros [= <- <-]. apply sameDeployment_refl.
  - destruct (prepareTemplateDocument rawDoc w) as [[[sd id]|e] w1] eqn:Hp.
    + intros Hrest. eapply sameDeployment_trans; [|by eapply IH].
      by eapply prepareTemplateDocument_frame.
    + intros [= <- <-]. by eapply prepareTemplateDocument_frame.
  - apply IH.
Qed.

(** A document whose [_id] is a non-blank string that is not 24 hex digits
    is rejected, wherever it is prepared. *)
Lemma prepareTemplateDocument_rejects doc s w :
  doc !! "_id" = Some (VString s) →
  TrimSpace s ≠ "" →
  ObjectIDFromHex (TrimSpace s) = None →
  prepareTemplateDocument doc w = (Err (ErrInvalidIdValue (TrimSpace s)), w).
Proof.
  intros Hid Hne Hhex.
  unfold prepareTemplateDocument, bind, fail. rewrite Hid.
  case_bool_decide; [done|]. by rewrite Hhex.
Qed.

Lemma prepareDocuments_rejects documents doc s :
  Some doc ∈ documents →
  doc !! "_id" = Some (VString s) →
  TrimSpace s ≠ "" →
  ObjectIDFromHex (TrimSpace s) = None →
  ∀ idx sanitizedDocs templateIDs w,
    ∃ e w', prepareDocuments idx documents sanitizedDocs templateIDs w = (Err e, w').
Proof.
  intros Hin Hid Hne Hhex.
  induction documents as [|[rawDoc|] rest IH];
    intros idx sanitizedDocs templateIDs w; simpl.
  - by apply elem_of_nil in Hin.
  - apply elem_of_cons in Hin as [[= <-]|Hin].
    + rewrite (prepareTemplateDocument_rejects doc s) by done. eauto.
    + destruct (prepareTemplateDocument rawDoc w) as [[[sd id]|e] w1]; eauto.
  - apply elem_of_cons in Hin as [?|Hin]; [done|]. by apply IH.
Qed.

(** The preparation loop stops at the first document it rejects, and names
    its position in the list (nil entries counted). *)
Lemma prepareDocuments_first_rejected pre doc post e0 :
  (∀ d, Some d ∈ pre →
     ∀ w0, ∃ ok w1, prepareTemplateDocument d w0 = (Ok ok, w1)) →
  (∀ w0, prepareTemplateDocument doc w0 = (Err e0, w0)) →
  ∀ idx sanitizedDocs templateIDs w,
    ∃ w', prepareDocuments idx (pre ++ Some doc :: post)%list
            sanitizedDocs templateIDs w
          = (Err (ErrDocument (idx + List.length pre) e0), w').
Proof.
  intros Hpre Hdoc.
  induction pre as [|[d|] pre IH]; intros idx sanitizedDocs templateIDs w;
    cbn [app prepareDocuments List.length].
  - rewrite Hdoc, Nat.add_0_r. eauto.
  - destruct (Hpre d (list_elem_of_here _ _) w) as ([sd id] & w1 & ->).
    destruct (IH (fun d' Hd' => Hpre d' (list_elem_of_further _ _ _ Hd'))
                (S idx) (sanitizedDocs ++ [sd])%list (templateIDs ++ [id])%list w1)
      as [w' ->].
    exists w'. do 3 f_equal. lia.
  - destruct (IH (fun d' Hd' => Hpre d' (list_elem_of_further _ _ _ Hd'))
                (S idx) sanitizedDocs templateIDs w) as [w' ->].
    exists w'. do 3 f_equal. lia.
Qed.

Lemma prepareDocuments_error documents :
  ∀ idx sanitizedDocs templateIDs w e w',
    prepareDocuments idx documents sanitizedDocs templateIDs w = (Err e, w') →
    ∃ i cause, e = ErrDocument i cause.
Proof.
  induction documents as [|[rawDoc|] rest IH];
    intros idx sanitizedDocs templateIDs w e w'; simpl; [done|..].
  - destruct (prepareTemplateDocument rawDoc w) as [[[sd id]|e0] w1].
    + apply IH.
    + intros [= <- <-]. eauto.
  - apply IH.
Qed.

(** C8.  Identity resolution of a template document.  Without an [_id]
    field, or with a string [_id] that is empty after trimming (white space
    as [strings.TrimSpace] takes it), the identity is the next freshly
    generated ObjectID; a string that is not empty after trimming is parsed
    as 24 hex digits and, when that fails, the document is rejected with
    the invalid-value error, and so is every [ApplyStructureTemplate] call
    whose documents include it, before any collection is touched: with a
    template key, the call fails with the error of a document position,
    and with this document's position and its invalid-value error when the
    documents before it are accepted.  A native ObjectID is used
    unchanged.  In each accepted case the resolved identity is attached to
    the sanitized document under [_id].  Trimming takes the white space
    off both ends of the string and nothing else; it leaves nothing
    exactly when the string is white space only. *)
Theorem identity_resolution (doc : document) (w : world) :
  let fresh := oidSource w (oidNext w) in
  let attach id := <["_id" := VObjectID id]> (buildTemplateValue <$> doc) in
  (doc !! "_id" = None →
   prepareTemplateDocument doc w
   = (Ok (attach fresh, fresh), withOidNext w (S (oidNext w)))) ∧
  (∀ s, doc !! "_id" = Some (VString s) → TrimSpace s = "" →
   prepareTemplateDocument doc w
   = (Ok (attach fresh, fresh), withOidNext w (S (oidNext w)))) ∧
  (∀ s oid, doc !! "_id" = Some (VString s) → TrimSpace s ≠ "" →
   ObjectIDFromHex (TrimSpace s) = Some oid →
   prepareTemplateDocument doc w = (Ok (attach oid, oid), w)) ∧
  (∀ s, doc !! "_id" = Some (VString s) → TrimSpace s ≠ "" →
   ObjectIDFromHex (TrimSpace s) = None →
   prepareTemplateDocument doc w = (Err (ErrInvalidIdValue (TrimSpace s)), w) ∧
   ∀ templateKey documents targetField,
     Some doc ∈ documents →
     ∃ e w',
       ApplyStructureTemplate filterMatches decodeClientName
         templateKey documents targetField w = (Err e, w') ∧
       store w' = store w ∧
       (templateKey ≠ "" → ∃ idx cause, e = ErrDocument idx cause) ∧
       (∀ pre post,
          templateKey ≠ "" →
          documents = (pre ++ Some doc :: post)%list →
          (∀ d, Some d ∈ pre →
             ∀ w0, ∃ ok w1, prepareTemplateDocument d w0 = (Ok ok, w1)) →
          e = ErrDocument (List.length pre)
                (ErrInvalidIdValue (TrimSpace s)))) ∧
  (∀ oid, doc !! "_id" = Some (VObjectID oid) →
   prepareTemplateDocument doc w = (Ok (attach oid, oid), w)) ∧
  (∀ s, (TrimSpace s = "" ↔ spaces s) ∧
        trimmed (TrimSpace s) ∧
        ∃ front back,
          spaces front ∧ spaces back ∧ s = front ++ TrimSpace s ++ back).
Proof.
  cbv zeta.
  split; [|split; [|split; [|split; [|split]]]].
  - unfold prepareTemplateDocument. rewrite sanitizeTemplateDocument_Some.
    simpl default. intros ->. reflexivity.
  - unfold prepareTemplateDocument. rewrite sanitizeTemplateDocument_Some.
    simpl default. intros s -> Hs. unfold bind.
    rewrite bool_decide_eq_true_2 by done. reflexivity.
  - unfold prepareTemplateDocument. rewrite sanitizeTemplateDocument_Some.
    simpl default. intros s oid -> Hs Hhex. unfold bind.
    rewrite bool_decide_eq_false_2 by done. by rewrite Hhex.
  - intros s Hid Hne Hhex. split.
    + by apply prepareTemplateDocument_rejects.
    + intros templateKey documents targetField Hin.
      unfold ApplyStructureTemplate, bind, fail.
      case_bool_decide as Hkey.
      { exists ErrTemplateKeyRequired, w. split; [done|]. split; [done|].
        split; [by intros ?|by intros ? ? ?]. }
      case_bool_decide as Hlen.
      { destruct documents; [by apply elem_of_nil in Hin|done]. }
      destruct (prepareDocuments_rejects documents doc s Hin Hid Hne Hhex
                  0%nat [] [] w) as (e & w' & Hprep).
      rewrite Hprep. exists e, w'. split; [done|].
      split; [by destruct (prepareDocuments_frame _ _ _ _ _ _ _ Hprep)
                   as (_&_&_&?)|].
      split; [intros _; by eapply prepareDocuments_error|].
      intros pre post _ -> Hpre.
      destruct (prepareDocuments_first_rejected pre doc post
                  (ErrInvalidIdValue (TrimSpace s)) Hpre
                  (fun w0 => prepareTemplateDocument_rejects doc s w0 Hid Hne Hhex)
                  0%nat [] [] w) as [w'' Hfirst].
      rewrite Hfirst in Hprep. by injection Hprep as <- _.
  - unfold prepareTemplateDocument. rewrite sanitizeTemplateDocument_Some.
    simpl default. intros oid ->. reflexivity.
  - intros s. split; [apply TrimSpace_empty|].
    split; [apply TrimSpace_trimmed|apply TrimSpace_surroundings].
Qed.

End IdentityResolution.

(** ** Upsert-all, then delete-extraneous, on one collection *)

Section Collections.

Lemma oidOf_Some d id : oidOf d = Some id ↔ d !! "_id" = Some (VObjectID id).
Proof.
  unfold oidOf. destruct (d !! "_id") as [[]|]; split; intros H;
    try discriminate; by simplify_eq.
Qed.

Lemma matchesId_oid id d :
  matchesId (VObjectID id) d = bool_decide (oidOf d = Some id).
Proof.
  unfold matchesId, oidOf.
  destruct (d !! "_id") as [[]|]; simpl; try reflexivity.
  apply bool_decide_ext. split; intros; by simplify_eq.
Qed.

Lemma elem_of_identities id (c : collection) :
  id ∈ identities c ↔ ∃ d, d ∈ c ∧ oidOf d = Some id.
Proof. unfold identities. apply list_elem_of_omap. Qed.

Lemma identities_cons d (c : collection) :
  identities (d :: c)
  = match oidOf d with
    | Some x => x :: identities c
    | None => identities c
    end.
Proof. reflexivity. Qed.

(** The identities after one upsert. *)
Lemma identities_ReplaceOne id doc (c : collection) :
  oidOf doc = Some id →
  identities (ReplaceOne (VObjectID id) doc c)
  = if bool_decide (id ∈ identities c) then identities c
    else (identities c ++ [id])%list.
Proof.
  intros Hdoc. induction c as [|d c IH]; cbn [ReplaceOne].
  - rewrite identities_cons, Hdoc.
    by rewrite bool_decide_eq_false_2 by apply not_elem_of_nil.
  - rewrite matchesId_oid.
    destruct (decide (oidOf d = Some id)) as [Hd|Hd].
    + rewrite (bool_decide_eq_true_2 _ Hd), !identities_cons, Hdoc, Hd.
      by rewrite bool_decide_eq_true_2 by apply list_elem_of_here.
    + rewrite (bool_decide_eq_false_2 _ Hd), !identities_cons, IH.
      destruct (oidOf d) as [x|] eqn:Hx; [|done].
      assert (x ≠ id) by congruence.
      destruct (decide (id ∈ identities c)) as [Hin|Hin].
      * rewrite !bool_decide_eq_true_2; [done| |done]. by right.
      * rewrite !bool_decide_eq_false_2; [done| |done].
        intros [?|?]%elem_of_cons; congruence.
Qed.

Lemma NoDup_identities_ReplaceOne id doc (c : collection) :
  oidOf doc = Some id →
  NoDup (identities c) →
  NoDup (identities (ReplaceOne (VObjectID id) doc c)).
Proof.
  intros Hdoc Hnd. rewrite identities_ReplaceOne by done.
  case_bool_decide as Hin; [done|].
  apply NoDup_app. split; [done|]. split; [|apply NoDup_singleton].
  intros x Hx ->%list_elem_of_singleton. done.
Qed.

Lemma ReplaceOne_elem_of id doc (c : collection) d :
  d ∈ ReplaceOne (VObjectID id) doc c → d = doc ∨ d ∈ c.
Proof.
  induction c as [|d0 c IH]; simpl.
  - intros ->%list_elem_of_singleton. by left.
  - destruct (matchesId _ d0).
    + intros [->|?]%elem_of_cons; [by left|]. right. by right.
    + intros [->|Hin]%elem_of_cons; [right; by left|].
      destruct (IH Hin); [by left|]. right. by right.
Qed.

Lemma ReplaceOne_stores id doc (c : collection) :
  doc ∈ ReplaceOne (VObjectID id) doc c.
Proof.
  induction c as [|d0 c IH]; simpl; [by left|].
  destruct (matchesId _ d0); [by left|by right].
Qed.

Lemma ReplaceOne_keeps_others id doc (c : collection) d :
  d ∈ c → oidOf d ≠ Some id → d ∈ ReplaceOne (VObjectID id) doc c.
Proof.
  intros Hin Hne. induction c as [|d0 c IH]; cbn [ReplaceOne];
    [by apply elem_of_nil in Hin|].
  rewrite matchesId_oid.
  apply elem_of_cons in Hin as [->|Hin].
  - rewrite bool_decide_eq_false_2 by done. by left.
  - case_bool_decide; right; auto.
Qed.

(** With identities stored once, what an upsert leaves of the old
    collection does not carry the upserted identity. *)
Lemma ReplaceOne_origin id doc (c : collection) d :
  NoDup (identities c) →
  d ∈ ReplaceOne (VObjectID id) doc c →
  d = doc ∨ (d ∈ c ∧ oidOf d ≠ Some id).
Proof.
  intros Hnd. induction c as [|d0 c IH]; cbn [ReplaceOne].
  - intros ->%list_elem_of_singleton. by left.
  - rewrite matchesId_oid. rewrite identities_cons in Hnd.
    case_bool_decide as Hd0.
    + rewrite Hd0 in Hnd. apply NoDup_cons in Hnd as [Hnotin _].
      intros [->|Hin]%elem_of_cons; [by left|].
      right. split; [by right|]. intros Hd. apply Hnotin.
      apply elem_of_identities. eauto.
    + assert (NoDup (identities c)) as Hc.
      { destruct (oidOf d0); [|done].
        by apply NoDup_cons in Hnd as [_ ?]. }
      intros [->|Hin]%elem_of_cons; [right; split; [by left|done]|].
      destruct (IH Hc Hin) as [?|[? ?]]; [by left|].
      right. split; [by right|done].
Qed.

Lemma upsertAll_cons sd docs (c : collection) id :
  preparedAs sd id →
  upsertAll (sd :: docs) c = upsertAll docs (ReplaceOne (VObjectID id) sd c).
Proof.
  intros [Hid Hclone]. unfold upsertAll. simpl.
  rewrite Hclone. unfold readKey. by rewrite Hid.
Qed.

Lemma upsertAll_app docs1 docs2 (c : collection) :
  upsertAll (docs1 ++ docs2) c = upsertAll docs2 (upsertAll docs1 c).
Proof. unfold upsertAll. apply fold_left_app. Qed.

Lemma preparedAs_oidOf sd id : preparedAs sd id → oidOf sd = Some id.
Proof. intros [Hid _]. by apply oidOf_Some. Qed.

Lemma upsertAll_NoDup docs ids :
  Forall2 preparedAs docs ids →
  ∀ c : collection, NoDup (identities c) → NoDup (identities (upsertAll docs c)).
Proof.
  induction 1 as [|sd id docs ids Hp _ IH]; intros c Hnd; [done|].
  rewrite (upsertAll_cons _ _ _ id) by done. apply IH.
  apply NoDup_identities_ReplaceOne; [by apply preparedAs_oidOf|done].
Qed.

Lemma upsertAll_identities docs ids :
  Forall2 preparedAs docs ids →
  ∀ (c : collection) x,
    x ∈ identities (upsertAll docs c) ↔ x ∈ identities c ∨ x ∈ ids.
Proof.
  induction 1 as [|sd id docs ids Hp _ IH]; intros c x.
  - unfold upsertAll. simpl. rewrite elem_of_nil. tauto.
  - rewrite (upsertAll_cons _ _ _ id) by done. rewrite IH.
    rewrite identities_ReplaceOne by (by apply preparedAs_oidOf).
    rewrite elem_of_cons.
    case_bool_decide as Hin.
    + split; [tauto|]. intros [?|[->|?]]; auto.
    + rewrite elem_of_app, list_elem_of_singleton. tauto.
Qed.

Lemma upsertAll_origin docs ids :
  Forall2 preparedAs docs ids →
  ∀ (c : collection) d,
    NoDup (identities c) →
    d ∈ upsertAll docs c →
    d ∈ docs ∨ (d ∈ c ∧ ∀ id, id ∈ ids → oidOf d ≠ Some id).
Proof.
  induction 1 as [|sd id docs ids Hp _ IH]; intros c d Hnd Hin.
  - right. split; [done|]. intros id Hid. by apply elem_of_nil in Hid.
  - rewrite (upsertAll_cons _ _ _ id) in Hin by done.
    pose proof (preparedAs_oidOf _ _ Hp) as Hsd.
    apply IH in Hin as [Hin|[Hin Hids]];
      [left; by right| |by apply NoDup_identities_ReplaceOne].
    apply ReplaceOne_origin in Hin as [->|[Hin Hne]]; [left; by left| |done].
    right. split; [done|].
    intros id' [->|?]%elem_of_cons; auto.
Qed.

Lemma upsertAll_keeps docs ids :
  Forall2 preparedAs docs ids →
  ∀ (c : collection) d,
    d ∈ c → (∀ sd, sd ∈ docs → oidOf sd ≠ oidOf d) → d ∈ upsertAll docs c.
Proof.
  induction 1 as [|sd id docs ids Hp _ IH]; intros c d Hin Hne; [done|].
  rewrite (upsertAll_cons _ _ _ id) by done.
  apply IH.
  - apply ReplaceOne_keeps_others; [done|].
    rewrite <-(preparedAs_oidOf _ _ Hp). intros Heq.
    apply (Hne sd); [by left|done].
  - intros sd' Hsd'. apply Hne. by right.
Qed.

Lemma DeleteMany_elem_of ids (c : collection) d :
  d ∈ (DeleteMany ids c).1 ↔ d ∈ c ∧ ∃ id, id ∈ ids ∧ oidOf d = Some id.
Proof.
  unfold DeleteMany. simpl.
  rewrite list_elem_of_In, filter_In, <-list_elem_of_In.
  unfold idAmong, oidOf.
  split; intros [Hin Hid]; (split; [done|]).
  - destruct (d !! "_id") as [[]|]; try discriminate.
    apply bool_decide_eq_true in Hid. eauto.
  - destruct Hid as (id & Hid & Hd).
    destruct (d !! "_id") as [[]|]; try discriminate.
    injection Hd as ->. by apply bool_decide_eq_true.
Qed.

Lemma DeleteMany_NoDup ids (c : collection) :
  NoDup (identities c) → NoDup (identities (DeleteMany ids c).1).
Proof.
  unfold DeleteMany. cbn [fst].
  induction c as [|d c IH]; cbn [List.filter]; [done|].
  rewrite identities_cons. intros Hnd.
  assert (NoDup (identities c)) as Hc
    by (destruct (oidOf d); [by apply NoDup_cons in Hnd as [_ ?]|done]).
  destruct (idAmong ids d); [|by apply IH].
  rewrite identities_cons.
  destruct (oidOf d) as [x|] eqn:Hx; [|by apply IH].
  apply NoDup_cons in Hnd as [Hnotin _].
  apply NoDup_cons. split; [|by apply IH].
  intros (d' & Hd' & Hid)%elem_of_identities. apply Hnotin.
  apply elem_of_identities. exists d'. split; [|done].
  apply list_elem_of_In in Hd'. apply filter_In in Hd' as [Hd' _].
  by apply list_elem_of_In.
Qed.

(** One tenant: after upsert-all and delete-extraneous the collection has
    converged to the template. *)
Lemma syncTenant_converged docs ids (c : collection) :
  Forall2 preparedAs docs ids →
  NoDup (identities c) →
  converged docs ids (syncTenant docs ids c).
Proof.
  intros Hprep Hnd. unfold syncTenant.
  split; [|split; [|split; [|split]]].
  - intros d (Hin & id & Hid & Hd)%DeleteMany_elem_of.
    exists id. split; [done|]. by apply oidOf_Some.
  - intros id Hid.
    assert (id ∈ identities (upsertAll docs c)) as Hin
      by (apply (upsertAll_identities _ _ Hprep); by right).
    apply elem_of_identities in Hin as (d & Hd & Hoid).
    exists d. split; [|by apply oidOf_Some].
    apply DeleteMany_elem_of. eauto.
  - intros d (Hin & id & Hid & Hd)%DeleteMany_elem_of.
    destruct (upsertAll_origin _ _ Hprep c d Hnd Hin) as [?|[_ Hno]]; [done|].
    by destruct (Hno id Hid).
  - intros pre sd post -> Hlast.
    apply Forall2_app_inv_l in Hprep
      as (ids1 & ids2 & Hpre & Hrest & ->).
    apply Forall2_cons_inv_l in Hrest as (id & ids3 & Hsd & Hpost & ->).
    apply DeleteMany_elem_of. split.
    + rewrite upsertAll_app, (upsertAll_cons _ _ _ id) by done.
      apply (upsertAll_keeps _ _ Hpost); [apply ReplaceOne_stores|done].
    + exists id. split; [|by apply preparedAs_oidOf].
      apply elem_of_app. right. by left.
  - apply DeleteMany_NoDup. by apply (upsertAll_NoDup _ _ Hprep).
Qed.

(** With pairwise distinct template identities every template document is
    stored. *)
Lemma converged_distinct docs ids (c : collection) :
  Forall2 preparedAs docs ids → NoDup ids → converged docs ids c →
  ∀ sd, sd ∈ docs → sd ∈ c.
Proof.
  intros Hprep Hnd (_ & _ & _ & Hlast & _) sd Hin.
  apply list_elem_of_split in Hin as (pre & post & ->).
  apply (Hlast pre sd post); [done|].
  intros sd' Hsd' Heq.
  apply Forall2_app_inv_l in Hprep as (ids1 & ids2 & _ & Hrest & ->).
  apply Forall2_cons_inv_l in Hrest as (id & ids3 & Hsd & Hpost & ->).
  apply NoDup_app in Hnd as (_ & _ & Hnd).
  apply NoDup_cons in Hnd as [Hnotin _]. apply Hnotin.
  apply list_elem_of_lookup in Hsd' as [i Hi].
  destruct (Forall2_lookup_l _ _ _ _ _ Hpost Hi) as (id' & Hid' & Hp').
  apply preparedAs_oidOf in Hp', Hsd.
  assert (id' = id) as <- by congruence.
  by eapply list_elem_of_lookup_2.
Qed.

End Collections.

(** ** The fan-out over the tenants *)

Section FanOut.

Variable filterMatches : string → string → document → bool.
Variable decodeClientName : document → option string.

Lemma documentsOf_insert w db coll (c : collection) db' coll' :
  documentsOf (withStore w (<[(db, coll) := c]> (store w))) db' coll'
  = if decide ((db, coll) = (db', coll')) then c else documentsOf w db' coll'.
Proof.
  unfold documentsOf. simpl. case_decide as Heq.
  - rewrite Heq. by rewrite lookup_insert_eq.
  - by rewrite lookup_insert_ne.
Qed.

Lemma changesOnly_insert coll w db (c : collection) :
  changesOnly coll w (withStore w (<[(db, coll) := c]> (store w))).
Proof.
  repeat split; try done. intros db' other Hne.
  rewrite documentsOf_insert. case_decide; [congruence|done].
Qed.

Lemma changesOnly_oidNext coll w n : changesOnly coll w (withOidNext w n).
Proof. by repeat split. Qed.

Lemma changesOnly_refl coll w : changesOnly coll w w.
Proof. by repeat split. Qed.

Lemma changesOnly_trans coll w1 w2 w3 :
  changesOnly coll w1 w2 → changesOnly coll w2 w3 → changesOnly coll w1 w3.
Proof.
  intros (?&?&?&H12) (?&?&?&H23). repeat split; try congruence.
  intros db other Hne. rewrite H23, H12; done.
Qed.

Lemma sameDeployment_changesOnly coll w w' :
  sameDeployment w w' → changesOnly coll w w'.
Proof.
  intros (?&?&?&Hst). repeat split; try done.
  intros db other _. unfold documentsOf. by rewrite Hst.
Qed.

Lemma changesOnly_coreDBName coll w w' :
  changesOnly coll w w' → coreDBName w' = coreDBName w.
Proof. intros (_&He&_&_). unfold coreDBName. by rewrite He. Qed.

Lemma deepCopyValue_skeleton s : skeleton s → deepCopyValue s = s.
Proof.
  induction 1 as [| | |m Hm IH| |e He IH]; simpl; try reflexivity.
  - f_equal. apply map_eq. intros k. rewrite lookup_fmap.
    destruct (m !! k) eqn:Hk; simpl; [|done]. f_equal. eauto.
  - by rewrite IH.
Qed.

(** A prepared document carries its identity and is copied faithfully. *)
Lemma prepareTemplateDocument_preparedAs doc w sd id w' :
  prepareTemplateDocument doc w = (Ok (sd, id), w') → preparedAs sd id.
Proof.
  unfold prepareTemplateDocument. rewrite sanitizeTemplateDocument_Some.
  simpl default. unfold bind, ret.
  destruct (_ w) as [[id'|e] w1]; [|done]. intros [= <- <- <-].
  split; [apply lookup_insert_eq|].
  unfold cloneMap. rewrite fmap_insert. simpl. f_equal.
  apply map_eq. intros k. rewrite !lookup_fmap.
  destruct (doc !! k); simpl; [|done]. f_equal.
  apply deepCopyValue_skeleton, buildTemplateValue_skeleton.
Qed.

Lemma prepareDocuments_preparedAs documents :
  ∀ idx sanitizedDocs templateIDs w sds ids w',
    Forall2 preparedAs sanitizedDocs templateIDs →
    prepareDocuments idx documents sanitizedDocs templateIDs w
      = (Ok (sds, ids), w') →
    Forall2 preparedAs sds ids.
Proof.
  induction documents as [|[rawDoc|] rest IH];
    intros idx sanitizedDocs templateIDs w sds ids w' Hacc; simpl.
  - by intros [= <- <- <-].
  - destruct (prepareTemplateDocument rawDoc w) as [[[sd id]|e] w1] eqn:Hp;
      [|done].
    apply IH. apply Forall2_app; [done|].
    constructor; [|constructor].
    by eapply prepareTemplateDocument_preparedAs.
  - by apply IH.
Qed.

(** The upsert loop of one tenant, on the world. *)
Lemma upsertDocuments_spec clientName docs :
  ∀ summary w, ∃ summary' w',
    upsertDocuments clientName docs summary w = (Ok summary', w') ∧
    ClientNames summary' = ClientNames summary ∧
    TargetField summary' = TargetField summary ∧
    TemplateKey summary' = TemplateKey summary ∧
    changesOnly "structure_websites" w w' ∧
    ∀ db, documentsOf w' db "structure_websites"
          = if decide (clientName = db)
            then upsertAll docs (documentsOf w db "structure_websites")
            else documentsOf w db "structure_websites".
Proof.
  induction docs as [|templateDoc docs IH]; intros summary w.
  - exists summary, w. simpl. repeat split; try done.
    intros db. by case_decide.
  - cbn [upsertDocuments]. unfold bind at 1, updateCollection.
    match goal with |- context [upsertDocuments _ _ ?s ?w1] =>
      destruct (IH s w1) as (s' & w' & -> & ? & ? & ? & (?&?&?&Hframe) & Hdocs)
    end.
    exists s', w'. repeat split; try done.
    + intros db other Hne. rewrite Hframe by done.
      rewrite documentsOf_insert. case_decide; [|done]. congruence.
    + intros db. rewrite Hdocs, documentsOf_insert.
      destruct (decide (clientName = db)) as [->|Hne].
      * by rewrite decide_True by done.
      * rewrite decide_False; [done|congruence].
Qed.

Lemma deleteOutdated_spec clientName ids w :
  ∃ deleted w',
    deleteOutdated clientName ids w = (Ok deleted, w') ∧
    changesOnly "structure_websites" w w' ∧
    ∀ db, documentsOf w' db "structure_websites"
          = if decide (clientName = db)
            then (DeleteMany ids (documentsOf w db "structure_websites")).1
            else documentsOf w db "structure_websites".
Proof.
  unfold deleteOutdated.
  destruct (DeleteMany ids (documentsOf w clientName "structure_websites"))
    as [kept deleted] eqn:Hdel.
  eexists _, _. split; [reflexivity|]. split.
  - repeat split; try done. intros db other Hne.
    rewrite documentsOf_insert. case_decide; [|done]. congruence.
  - intros db. rewrite documentsOf_insert.
    destruct (decide (clientName = db)) as [->|Hne].
    + rewrite decide_True by done. by rewrite Hdel.
    + rewrite decide_False; [done|congruence].
Qed.

Lemma tenantNames_cons clientDoc rest :
  tenantNames decodeClientName (clientDoc :: rest)
  = match tenantName decodeClientName clientDoc with
    | Some n => n :: tenantNames decodeClientName rest
    | None => tenantNames decodeClientName rest
    end.
Proof. reflexivity. Qed.

(** The loop over the registrations: the names it reports, and what it
    leaves in the tenants' collections. *)
Lemma syncClients_spec docs ids :
  Forall2 preparedAs docs ids →
  ∀ cursor summary w summary' w',
    syncClients decodeClientName cursor docs ids summary w = (Ok summary', w') →
    ClientNames summary'
      = (ClientNames summary ++ tenantNames decodeClientName cursor)%list ∧
    TargetField summary' = TargetField summary ∧
    TemplateKey summary' = TemplateKey summary ∧
    changesOnly "structure_websites" w w' ∧
    (∀ name, name ∉ tenantNames decodeClientName cursor →
       documentsOf w' name "structure_websites"
       = documentsOf w name "structure_websites") ∧
    ((∀ name, name ∈ tenantNames decodeClientName cursor →
        NoDup (identities (documentsOf w name "structure_websites"))) →
     ∀ name, name ∈ tenantNames decodeClientName cursor →
       converged docs ids (documentsOf w' name "structure_websites")).
Proof.
  intros Hprep.
  induction cursor as [|clientDoc rest IH]; intros summary w summary' w'.
  - simpl. intros [= <- <-]. rewrite app_nil_r.
    split; [done|]. split; [done|]. split; [done|].
    split; [apply changesOnly_refl|]. split; [done|].
    intros _ name Hin. by apply elem_of_nil in Hin.
  - cbn [syncClients]. rewrite tenantNames_cons. unfold tenantName.
    destruct (decodeClientName clientDoc) as [name0|]; [|done].
    case_bool_decide as Hblank; [apply IH|].
    unfold bind at 1.
    destruct (upsertDocuments_spec (TrimSpace name0) docs summary w)
      as (s1 & w1 & -> & Hn1 & Hf1 & Hk1 & Hframe1 & Hdocs1).
    unfold bind at 1.
    destruct (deleteOutdated_spec (TrimSpace name0) ids w1)
      as (deleted & w2 & -> & Hframe2 & Hdocs2).
    intros Hrest.
    apply IH in Hrest as (Hn & Hf & Hk & Hframe & Hsame & Hconv).
    simpl in Hn, Hf, Hk.
    assert (∀ db, documentsOf w2 db "structure_websites"
                  = if decide (TrimSpace name0 = db)
                    then syncTenant docs ids (documentsOf w db "structure_websites")
                    else documentsOf w db "structure_websites") as Hw2.
    { intros db. rewrite Hdocs2, Hdocs1. by case_decide. }
    split; [by rewrite Hn, Hn1, <-app_assoc|].
    split; [congruence|]. split; [congruence|].
    split; [eauto using changesOnly_trans|]. split.
    + intros name Hname. apply not_elem_of_cons in Hname as [Hne Hname].
      rewrite Hsame, Hw2 by done. by rewrite decide_False.
    + intros Hnd.
      assert (converged docs ids
                (documentsOf w2 (TrimSpace name0) "structure_websites")) as Hc2.
      { rewrite Hw2, decide_True by done.
        apply syncTenant_converged; [done|]. apply Hnd. by left. }
      assert (∀ name, name ∈ tenantNames decodeClientName rest →
                converged docs ids (documentsOf w' name "structure_websites"))
        as Hrest.
      { apply Hconv. intros name Hname. rewrite Hw2. case_decide as Heq.
        - subst name. rewrite Hw2, decide_True in Hc2 by done.
          by destruct Hc2 as (_&_&_&_&?).
        - apply Hnd. by right. }
      intros name [->|Hname]%elem_of_cons; [|by apply Hrest].
      destruct (decide (TrimSpace name0 ∈ tenantNames decodeClientName rest))
        as [Hin|Hnotin]; [by apply Hrest|].
      by rewrite Hsame.
Qed.

Lemma upsertTemplateDefinition_spec coreDB templateKey docsForStorage w :
  ∃ w',
    upsertTemplateDefinition filterMatches coreDB templateKey docsForStorage w
      = (Ok tt, w') ∧
    changesOnly "structure_templates" w w'.
Proof.
  unfold upsertTemplateDefinition, bind, gets.
  destruct (updateFirst _ _ _).
  - eexists. split; [reflexivity|]. apply changesOnly_insert.
  - eexists. split; [reflexivity|].
    eapply changesOnly_trans; [|apply changesOnly_insert].
    apply (changesOnly_oidNext _ w (S (oidNext w))).
Qed.

(** What a successful [ApplyStructureTemplate] went through. *)
Lemma ApplyStructureTemplate_Ok templateKey documents targetField w summary w' :
  ApplyStructureTemplate filterMatches decodeClientName
    templateKey documents targetField w = (Ok summary, w') →
  ∃ sds ids w1 w2 summary0,
    templateKey ≠ "" ∧
    prepareDocuments 0 documents [] [] w = (Ok (sds, ids), w1) ∧
    sds ≠ [] ∧
    mongoClientReady w1 = true ∧
    changesOnly "structure_templates" w1 w2 ∧
    syncClients decodeClientName
      (registrations filterMatches w2
         (effectiveTargetField filterMatches templateKey
            (defaultedField targetField)
            (documentsOf w1 (coreDBName w1) "db_clients"))
         templateKey)
      sds ids
      (initialSummary templateKey
         (effectiveTargetField filterMatches templateKey
            (defaultedField targetField)
            (documentsOf w1 (coreDBName w1) "db_clients")))
      w2 = (Ok summary0, w') ∧
    summary = {| TemplateKey := TemplateKey summary0;
                 TargetField := TargetField summary0;
                 ClientNames := sortStrings (ClientNames summary0);
                 UpdatedDocuments := UpdatedDocuments summary0;
                 DeletedDocuments := DeletedDocuments summary0 |}.
Proof.
  unfold ApplyStructureTemplate.
  case_bool_decide as Hkey; [done|]. case_bool_decide as Hlen; [done|].
  unfold bind at 1.
  destruct (prepareDocuments 0 documents [] [] w) as [[[sds ids]|e] w1] eqn:Hprep;
    [|done].
  cbn [fst snd]. case_bool_decide as Hsds; [done|].
  unfold bind at 1, gets at 1.
  destruct (mongoClientReady w1) eqn:Hready; [|done]. cbn [negb].
  unfold bind at 1, gets at 1. unfold bind at 1, gets at 1.
  unfold bind at 1.
  destruct (upsertTemplateDefinition_spec
              (if bool_decide (envMongoDBName w1 = "") then "core"
               else envMongoDBName w1)
              templateKey (cloneMap <$> sds) w1) as (w2 & -> & Hframe).
  unfold bind at 1, gets at 1. unfold bind, ret.
  match goal with |- context [syncClients _ ?c _ _ ?s ?w] =>
    destruct (syncClients decodeClientName c sds ids s w)
      as [[summary0|e] w3] eqn:Hsync end; [|done].
  intros [= <- <-].
  exists sds, ids, w1, w2, summary0.
  split; [done|]. split; [done|].
  split; [by destruct sds|]. split; [done|]. split; [done|].
  split; [|done].
  rewrite <-Hsync. unfold registrations, initialSummary, defaultedField.
  rewrite (changesOnly_coreDBName _ _ _ Hframe). reflexivity.
Qed.

End FanOut.

(** ** Claims about the fan-out *)

Section FanOutClaims.

Variable filterMatches : string → string → document → bool.
Variable decodeClientName : document → option string.

Lemma registrations_frame coll w w' field key :
  coll ≠ "db_clients" → changesOnly coll w w' →
  registrations filterMatches w' field key = registrations filterMatches w field key.
Proof.
  intros Hne Hframe. unfold registrations.
  rewrite (changesOnly_coreDBName _ _ _ Hframe).
  destruct Hframe as (_&_&_&Hdocs). by rewrite Hdocs.
Qed.

(** The summary of a successful fan-out: the field it queried, and the
    tenants it reports. *)
Lemma ApplyStructureTemplate_summary templateKey documents targetField w summary w' :
  ApplyStructureTemplate filterMatches decodeClientName
    templateKey documents targetField w = (Ok summary, w') →
  TargetField summary
    = effectiveTargetField filterMatches templateKey (defaultedField targetField)
        (documentsOf w (coreDBName w) "db_clients") ∧
  ClientNames summary
    = sortStrings (tenantNames decodeClientName
                     (registrations filterMatches w (TargetField summary) templateKey)).
Proof.
  intros (sds & ids & w1 & w2 & s0 & _ & Hprep & _ & _ & Hframe & Hsync & ->)
    %ApplyStructureTemplate_Ok.
  pose proof (prepareDocuments_frame _ _ _ _ _ _ _ Hprep) as Hw1.
  apply (sameDeployment_changesOnly "structure_templates") in Hw1.
  pose proof (changesOnly_trans _ _ _ _ Hw1 Hframe) as Hw2.
  apply syncClients_spec in Hsync as (Hn & Hf & _);
    [|eapply (prepareDocuments_preparedAs _ _ [] []); [constructor|done]].
  assert ("structure_templates" ≠ "db_clients") as Hcoll by discriminate.
  rewrite (registrations_frame _ _ _ _ _ Hcoll Hw2) in Hn.
  rewrite (changesOnly_coreDBName _ _ _ Hw1) in Hn, Hf.
  destruct Hw1 as (_&_&_&Hdocs1). rewrite Hdocs1 in Hn, Hf by discriminate.
  simpl in Hn, Hf. simpl. split; [done|]. by rewrite Hn, Hf.
Qed.

Lemma tenantNames_trimmed cursor n :
  n ∈ tenantNames decodeClientName cursor →
  n ≠ "" ∧ TrimSpace n = n ∧ trimmed n.
Proof.
  intros (d & _ & Hd)%list_elem_of_omap. unfold tenantName in Hd.
  destruct (decodeClientName d) as [name0|]; [|done].
  case_bool_decide as Hblank; [done|]. injection Hd as <-.
  split; [done|]. split; [apply TrimSpace_idem|apply TrimSpace_trimmed].
Qed.

(** The tenant a registration names, without reference to [TrimSpace]: a
    name of white space only names no tenant; any other name names what is
    left of it between the white space at its two ends. *)
Lemma tenantName_surroundings clientDoc name :
  decodeClientName clientDoc = Some name →
  (spaces name → tenantName decodeClientName clientDoc = None) ∧
  (¬ spaces name →
   ∃ front n back,
     tenantName decodeClientName clientDoc = Some n ∧
     name = front ++ n ++ back ∧ spaces front ∧ spaces back ∧
     trimmed n ∧ n ≠ "").
Proof.
  intros Hdec. unfold tenantName. rewrite Hdec. split.
  - intros Hsp%TrimSpace_empty. by rewrite bool_decide_true.
  - intros Hnot.
    assert (TrimSpace name ≠ "") as Hne
      by (intros Hempty; by apply Hnot, TrimSpace_empty).
    rewrite bool_decide_false by done.
    destruct (TrimSpace_surroundings name) as (front & back & Hf & Hb & Heq).
    exists front, (TrimSpace name), back.
    split; [done|]. split; [done|]. split; [done|]. split; [done|].
    split; [apply TrimSpace_trimmed|done].
Qed.

Lemma effectiveTargetField_fallback templateKey targetField w :
  defaultedField targetField = "structure_template" →
  registrations filterMatches w "structure_template" templateKey = [] →
  effectiveTargetField filterMatches templateKey (defaultedField targetField)
    (documentsOf w (coreDBName w) "db_clients") = "template".
Proof.
  intros -> Hnone. unfold effectiveTargetField, registrations in *.
  rewrite bool_decide_eq_true_2 by done. cbv zeta. by rewrite Hnone.
Qed.

Lemma effectiveTargetField_matched templateKey targetField w :
  defaultedField targetField = "structure_template" →
  registrations filterMatches w "structure_template" templateKey ≠ [] →
  effectiveTargetField filterMatches templateKey (defaultedField targetField)
    (documentsOf w (coreDBName w) "db_clients") = "structure_template".
Proof.
  intros -> Hsome. unfold effectiveTargetField, registrations in *.
  rewrite bool_decide_eq_true_2 by done. cbv zeta.
  destruct (List.filter _ _); [done|]. reflexivity.
Qed.

Lemma effectiveTargetField_override templateKey targetField clients :
  targetField ≠ "" → targetField ≠ "structure_template" →
  effectiveTargetField filterMatches templateKey (defaultedField targetField)
    clients = targetField.
Proof.
  intros Hne Hov. unfold effectiveTargetField, defaultedField.
  rewrite (bool_decide_eq_false_2 (targetField = "")) by done.
  by rewrite bool_decide_eq_false_2 by done.
Qed.

Lemma defaultedField_default targetField :
  targetField = "" ∨ targetField = "structure_template" →
  defaultedField targetField = "structure_template".
Proof. intros [->| ->]; reflexivity. Qed.

(** With nothing registered on the field queried, the fan-out still
    succeeds, and reports no tenant and no change. *)
Lemma ApplyStructureTemplate_no_tenants templateKey documents targetField w sds ids w1 :
  templateKey ≠ "" →
  prepareDocuments 0 documents [] [] w = (Ok (sds, ids), w1) →
  sds ≠ [] →
  mongoClientReady w = true →
  registrations filterMatches w
    (effectiveTargetField filterMatches templateKey (defaultedField targetField)
       (documentsOf w (coreDBName w) "db_clients"))
    templateKey = [] →
  ∃ w',
    ApplyStructureTemplate filterMatches decodeClientName
      templateKey documents targetField w
    = (Ok (initialSummary templateKey
             (effectiveTargetField filterMatches templateKey
                (defaultedField targetField)
                (documentsOf w (coreDBName w) "db_clients"))), w').
Proof.
  intros Hkey Hprep Hsds Hready Hnone.
  pose proof (prepareDocuments_frame _ _ _ _ _ _ _ Hprep) as Hw1.
  pose proof (sameDeployment_changesOnly "structure_templates" _ _ Hw1) as Hc1.
  unfold ApplyStructureTemplate.
  rewrite (bool_decide_eq_false_2 (templateKey = "")) by done.
  destruct documents as [|d0 documents].
  { simpl in Hprep. by injection Hprep as <- _ _. }
  rewrite bool_decide_eq_false_2 by done.
  unfold bind at 1. rewrite Hprep. cbn [fst snd].
  rewrite bool_decide_eq_false_2 by (by destruct sds).
  unfold bind at 1, gets at 1.
  destruct Hw1 as (_ & Henv & Hr & Hst). rewrite Hr, Hready. cbn [negb].
  unfold bind at 1, gets at 1. unfold bind at 1, gets at 1.
  unfold bind at 1.
  destruct (upsertTemplateDefinition_spec filterMatches
              (if bool_decide (envMongoDBName w1 = "") then "core"
               else envMongoDBName w1)
              templateKey (cloneMap <$> sds) w1) as (w2 & -> & Hframe).
  unfold bind at 1, gets at 1.
  pose proof (changesOnly_trans _ _ _ _ Hc1 Hframe) as Hc2.
  assert ("structure_templates" ≠ "db_clients") as Hcoll by discriminate.
  pose proof (registrations_frame _ _ _
                (effectiveTargetField filterMatches templateKey
                   (defaultedField targetField)
                   (documentsOf w (coreDBName w) "db_clients"))
                templateKey Hcoll Hc2) as Hreg.
  rewrite Hnone in Hreg. unfold registrations, coreDBName in Hreg.
  destruct Hframe as (_ & Henv2 & _ & Hdocs2).
  rewrite Henv2 in Hreg.
  assert (documentsOf w1
            (if bool_decide (envMongoDBName w1 = "") then "core"
             else envMongoDBName w1) "db_clients"
          = documentsOf w (coreDBName w) "db_clients") as Hclients.
  { unfold coreDBName, documentsOf. by rewrite Henv, Hst. }
  rewrite Hclients. unfold coreDBName, defaultedField in Hreg |- *.
  rewrite Hreg. eexists. reflexivity.
Qed.

(** C6.  Tenant resolution.  With the default field (the caller passes
    nothing, or ["structure_template"] itself) and no registration matching
    the template on it, a successful fan-out reports the legacy field
    ["template"] as the effective field and the tenants it reports are
    those registered on the legacy field; with a match on the default
    field it stays on the default field.  With a field the caller chose,
    the effective field is that field, the tenants are those registered on
    it, and when none is, the call still succeeds, reporting no tenant and
    no change. *)
Theorem fallback_field_activation templateKey documents targetField w :
  (∀ summary w',
     ApplyStructureTemplate filterMatches decodeClientName
       templateKey documents targetField w = (Ok summary, w') →
     targetField = "" ∨ targetField = "structure_template" →
     registrations filterMatches w "structure_template" templateKey = [] →
     TargetField summary = "template" ∧
     ClientNames summary
       = sortStrings (tenantNames decodeClientName
                        (registrations filterMatches w "template" templateKey))) ∧
  (∀ summary w',
     ApplyStructureTemplate filterMatches decodeClientName
       templateKey documents targetField w = (Ok summary, w') →
     targetField = "" ∨ targetField = "structure_template" →
     registrations filterMatches w "structure_template" templateKey ≠ [] →
     TargetField summary = "structure_template") ∧
  (∀ summary w',
     ApplyStructureTemplate filterMatches decodeClientName
       templateKey documents targetField w = (Ok summary, w') →
     targetField ≠ "" → targetField ≠ "structure_template" →
     TargetField summary = targetField ∧
     ClientNames summary
       = sortStrings (tenantNames decodeClientName
                        (registrations filterMatches w targetField templateKey))) ∧
  (∀ sds ids w1,
     targetField ≠ "" → targetField ≠ "structure_template" →
     templateKey ≠ "" →
     prepareDocuments 0 documents [] [] w = (Ok (sds, ids), w1) →
     sds ≠ [] →
     mongoClientReady w = true →
     registrations filterMatches w targetField templateKey = [] →
     ∃ w',
       ApplyStructureTemplate filterMatches decodeClientName
         templateKey documents targetField w
       = (Ok (initialSummary templateKey targetField), w')).
Proof.
  split; [|split; [|split]].
  - intros summary w' Hrun Hdef%defaultedField_default Hnone.
    apply ApplyStructureTemplate_summary in Hrun as [Hf Hn].
    rewrite effectiveTargetField_fallback in Hf by done.
    by rewrite Hf in Hn.
  - intros summary w' Hrun Hdef%defaultedField_default Hsome.
    apply ApplyStructureTemplate_summary in Hrun as [Hf _].
    by rewrite effectiveTargetField_matched in Hf.
  - intros summary w' Hrun Hne Hov.
    apply ApplyStructureTemplate_summary in Hrun as [Hf Hn].
    rewrite effectiveTargetField_override in Hf by done.
    by rewrite Hf in Hn.
  - intros sds ids w1 Hne Hov Hkey Hprep Hsds Hready Hnone.
    destruct (ApplyStructureTemplate_no_tenants
                templateKey documents targetField w sds ids w1) as [w' Hrun];
      try done.
    + by rewrite effectiveTargetField_override.
    + rewrite effectiveTargetField_override in Hrun by done. eauto.
Qed.

(** C7, amended.  The tenant names a successful fan-out reports are sorted
    in ascending byte order, none is empty, each is trimmed (it neither
    begins nor ends with a white-space character, and trimming it again
    changes nothing), and they are, up to order, the trimmed non-empty
    [client_name]s of the registrations matching the effective field: one
    entry per registration, repeated names kept.  A [client_name] of white
    space only contributes no name; any other contributes what is left of
    it between the white space at its two ends.  White space is what
    [strings.TrimSpace] takes it to be (Unicode white space, in UTF-8). *)
Theorem affected_tenants_sorted_trimmed
    templateKey documents targetField w summary w' :
  ApplyStructureTemplate filterMatches decodeClientName
    templateKey documents targetField w = (Ok summary, w') →
  Sorted strLe (ClientNames summary) ∧
  Forall (fun n => n ≠ "" ∧ TrimSpace n = n ∧ trimmed n) (ClientNames summary) ∧
  ClientNames summary
    ≡ₚ tenantNames decodeClientName
         (registrations filterMatches w (TargetField summary) templateKey) ∧
  ∀ clientDoc name,
    decodeClientName clientDoc = Some name →
    (spaces name → tenantName decodeClientName clientDoc = None) ∧
    (¬ spaces name →
     ∃ front n back,
       tenantName decodeClientName clientDoc = Some n ∧
       name = front ++ n ++ back ∧ spaces front ∧ spaces back ∧
       trimmed n ∧ n ≠ "").
Proof.
  intros [_ Hn]%ApplyStructureTemplate_summary. rewrite Hn at 1 2.
  unfold sortStrings. split; [apply Sorted_merge_sort, _|].
  split; [|split; [rewrite Hn at 1; apply merge_sort_Permutation|]].
  - apply Forall_forall. intros n Hin.
    rewrite merge_sort_Permutation in Hin.
    by eapply tenantNames_trimmed.
  - apply tenantName_surroundings.
Qed.

(** C1, amended.  After a successful [ApplyStructureTemplate], for every
    tenant it reports (whose collection held no ObjectID identity twice
    beforehand, as MongoDB guarantees), the tenant's [structure_websites]
    collection has converged to the prepared template: its identities are
    exactly the template's identities, every stored document is one of the
    template's sanitized documents as a whole (replaced, not merged), and
    every template document whose identity no later template document
    carries is stored; in particular every template document is stored
    when the template's identities are pairwise distinct. *)
Theorem fan_out_converges templateKey documents targetField w summary w' :
  ApplyStructureTemplate filterMatches decodeClientName
    templateKey documents targetField w = (Ok summary, w') →
  (∀ tenant, tenant ∈ ClientNames summary →
     NoDup (identities (documentsOf w tenant "structure_websites"))) →
  ∃ sds ids w1,
    prepareDocuments 0 documents [] [] w = (Ok (sds, ids), w1) ∧
    Forall2 preparedAs sds ids ∧
    ∀ tenant, tenant ∈ ClientNames summary →
      converged sds ids (documentsOf w' tenant "structure_websites") ∧
      (NoDup ids →
       ∀ sd, sd ∈ sds → sd ∈ documentsOf w' tenant "structure_websites").
Proof.
  intros Hrun Hnd.
  destruct (ApplyStructureTemplate_Ok _ _ _ _ _ _ _ _ Hrun)
    as (sds & ids & w1 & w2 & s0 & _ & Hprep & _ & _ & Hframe & Hsync & ->).
  assert (Forall2 preparedAs sds ids) as Hpa
    by (eapply (prepareDocuments_preparedAs _ _ [] []); [constructor|done]).
  exists sds, ids, w1. split; [done|]. split; [done|].
  pose proof (prepareDocuments_frame _ _ _ _ _ _ _ Hprep) as Hw1.
  apply (sameDeployment_changesOnly "structure_templates") in Hw1.
  pose proof (changesOnly_trans _ _ _ _ Hw1 Hframe) as (_&_&_&Hdocs).
  apply (syncClients_spec _ _ _ Hpa) in Hsync as (Hn & _ & _ & _ & _ & Hconv).
  simpl in Hn, Hnd |- *.
  assert (∀ tenant, tenant ∈ sortStrings (ClientNames s0) ↔
                    tenant ∈ tenantNames decodeClientName
                      (registrations filterMatches w2
                         (effectiveTargetField filterMatches templateKey
                            (defaultedField targetField)
                            (documentsOf w1 (coreDBName w1) "db_clients"))
                         templateKey)) as Hnames.
  { intros tenant. unfold sortStrings.
    by rewrite merge_sort_Permutation, Hn. }
  intros tenant Hin.
  assert (converged sds ids (documentsOf w' tenant "structure_websites")) as Hc.
  { apply Hconv; [|by apply Hnames].
    intros name Hname. rewrite Hdocs by discriminate.
    apply Hnd. by apply Hnames. }
  split; [done|]. intros Hids. by eapply converged_distinct.
Qed.

End FanOutClaims.

(** ** The claims on the sample deployments *)

Section OnSamples.

Example prepare_rejects_bad_hex :
  prepareTemplateDocument {[ "_id" := VString " not-hex " ]} Samples.twoTenants
  = (Err (ErrInvalidIdValue "not-hex"), Samples.twoTenants).
Proof. vm_compute. reflexivity. Qed.

Example prepare_generates_for_blank_id :
  (prepareTemplateDocument {[ "_id" := VString "  "; "slug" := VString "x" ]}
     Samples.twoTenants).1
  = Ok ({[ "_id" := VObjectID 1000%N; "slug" := VString "" ]}, 1000%N).
Proof. vm_compute. reflexivity. Qed.

Example update_refused_outside_local_development :
  UpdateStructureWebsite (Some "acme") Samples.menuId
    (Some {[ "slug" := VString "menu" ]}) (Samples.worldOf "false" ∅)
  = (Err ErrLocalDevelopmentOnly, Samples.worldOf "false" ∅).
Proof. vm_compute. reflexivity. Qed.

Example update_refused_for_short_id :
  UpdateStructureWebsite (Some "acme") "652f"
    (Some {[ "slug" := VString "menu" ]}) Samples.twoTenants
  = (Err ErrInvalidIdFormat, Samples.twoTenants).
Proof. vm_compute. reflexivity. Qed.

(** The end-to-end scenario: two tenants on the default field, a third on
    the legacy field only. *)
Example template_1_on_two_tenants :
  let run := Samples.applyOn Samples.templateDocs Samples.twoTenants in
  TargetField (Samples.summaryOf run) = "structure_template" ∧
  ClientNames (Samples.summaryOf run) = ["acme"; "zenith"] ∧
  UpdatedDocuments (Samples.summaryOf run) = 4%nat ∧
  DeletedDocuments (Samples.summaryOf run) = 1%nat ∧
  documentsOf run.2 "acme" "structure_websites"
  = [ {[ "_id" := VObjectID Samples.homepageOid; "slug" := VString "" ]};
      {[ "_id" := VObjectID Samples.menuOid; "slug" := VString "" ]} ].
Proof. vm_compute. repeat split; reflexivity. Qed.

Lemma fallback_field_activation_witness :
  TargetField (Samples.summaryOf (Samples.applyOn Samples.templateDocs Samples.legacyOnly))
    = "template" ∧
  ClientNames (Samples.summaryOf (Samples.applyOn Samples.templateDocs Samples.legacyOnly))
    = sortStrings (tenantNames Samples.clientNameField
                     (registrations Samples.stringFieldEquals Samples.legacyOnly
                        "template" "template-1")).
Proof.
  apply (proj1 (fallback_field_activation
                  Samples.stringFieldEquals Samples.clientNameField
                  "template-1" Samples.templateDocs "" Samples.legacyOnly)
           (Samples.summaryOf (Samples.applyOn Samples.templateDocs Samples.legacyOnly))
           (Samples.applyOn Samples.templateDocs Samples.legacyOnly).2).
  - vm_compute. reflexivity.
  - left. reflexivity.
  - vm_compute. reflexivity.
Defined.

Lemma affected_tenants_sorted_trimmed_witness :
  Sorted strLe
    (ClientNames (Samples.summaryOf (Samples.applyOn Samples.templateDocs Samples.twoTenants))) ∧
  Forall (fun n => n ≠ "" ∧ TrimSpace n = n ∧ trimmed n)
    (ClientNames (Samples.summaryOf (Samples.applyOn Samples.templateDocs Samples.twoTenants))) ∧
  ClientNames (Samples.summaryOf (Samples.applyOn Samples.templateDocs Samples.twoTenants))
    ≡ₚ tenantNames Samples.clientNameField
         (registrations Samples.stringFieldEquals Samples.twoTenants
            (TargetField
               (Samples.summaryOf (Samples.applyOn Samples.templateDocs Samples.twoTenants)))
            "template-1") ∧
  ∀ clientDoc name,
    Samples.clientNameField clientDoc = Some name →
    (spaces name → tenantName Samples.clientNameField clientDoc = None) ∧
    (¬ spaces name →
     ∃ front n back,
       tenantName Samples.clientNameField clientDoc = Some n ∧
       name = front ++ n ++ back ∧ spaces front ∧ spaces back ∧
       trimmed n ∧ n ≠ "").
Proof.
  apply (affected_tenants_sorted_trimmed
           Samples.stringFieldEquals Samples.clientNameField
           "template-1" Samples.templateDocs "" Samples.twoTenants
           (Samples.summaryOf (Samples.applyOn Samples.templateDocs Samples.twoTenants))
           (Samples.applyOn Samples.templateDocs Samples.twoTenants).2).
  vm_compute. reflexivity.
Defined.

(** C7 as worded fails: a tenant registered twice (once with a padded
    name) is reported twice. *)
Lemma affected_tenants_not_deduplicated :
  ∃ summary w',
    Samples.applyOn Samples.templateDocs Samples.registeredTwice = (Ok summary, w') ∧
    ClientNames summary = ["acme"; "acme"] ∧
    ¬ NoDup (ClientNames summary).
Proof.
  eexists _, _. split; [vm_compute; reflexivity|].
  split; [reflexivity|].
  intros [Hnotin _]%NoDup_cons. apply Hnotin. by left.
Qed.

Lemma fan_out_converges_witness :
  ∃ sds ids w1,
    prepareDocuments 0 Samples.templateDocs [] [] Samples.twoTenants
      = (Ok (sds, ids), w1) ∧
    Forall2 preparedAs sds ids ∧
    ∀ tenant,
      tenant ∈ ClientNames
                 (Samples.summaryOf (Samples.applyOn Samples.templateDocs Samples.twoTenants)) →
      converged sds ids
        (documentsOf (Samples.applyOn Samples.templateDocs Samples.twoTenants).2
           tenant "structure_websites") ∧
      (NoDup ids →
       ∀ sd, sd ∈ sds →
         sd ∈ documentsOf (Samples.applyOn Samples.templateDocs Samples.twoTenants).2
                tenant "structure_websites").
Proof.
  apply (fan_out_converges
           Samples.stringFieldEquals Samples.clientNameField
           "template-1" Samples.templateDocs "" Samples.twoTenants
           (Samples.summaryOf (Samples.applyOn Samples.templateDocs Samples.twoTenants))
           (Samples.applyOn Samples.templateDocs Samples.twoTenants).2).
  - vm_compute. reflexivity.
  - intros tenant Hin.
    assert (tenant = "acme" ∨ tenant = "zenith") as [-> | ->].
    { vm_compute in Hin.
      apply elem_of_cons in Hin as [?|Hin]; [by left|].
      apply list_elem_of_singleton in Hin. by right. }
    + apply (bool_decide_unpack _). vm_compute. exact I.
    + apply (bool_decide_unpack _). vm_compute. exact I.
Defined.

(** C1 as worded fails: of two template documents under one identity only
    the later is stored; the earlier one is in no processed tenant's
    collection. *)
Lemma fan_out_drops_shadowed_document :
  ∃ summary w' sds ids w1 sd,
    Samples.applyOn Samples.sameIdDocs Samples.twoTenants = (Ok summary, w') ∧
    prepareDocuments 0 Samples.sameIdDocs [] [] Samples.twoTenants
      = (Ok (sds, ids), w1) ∧
    "acme" ∈ ClientNames summary ∧
    NoDup (identities (documentsOf Samples.twoTenants "acme" "structure_websites")) ∧
    sd ∈ sds ∧
    sd ∉ documentsOf w' "acme" "structure_websites".
Proof.
  eexists _, _, _, _, _,
    {[ "_id" := VObjectID Samples.homepageOid; "slug" := VString "" ]}.
  split; [vm_compute; reflexivity|].
  split; [vm_compute; reflexivity|].
  split; [by left|].
  split; [apply (bool_decide_unpack _); vm_compute; exact I|].
  split; [by left|].
  assert (∀ m1 m2 : document, m1 = m2 → m1 !! "slug" = m2 !! "slug") as Hslug
    by (by intros m1 m2 ->).
  intros Hin. vm_compute in Hin.
  apply list_elem_of_singleton, Hslug in Hin.
  vm_compute in Hin. discriminate.
Qed.

End OnSamples.

(** * Further properties *)

(** ** The payload merge, key by key *)

Section PayloadMergeContract.

Lemma mergeJSONDocuments_insert_id (base updates : document) v :
  mergeJSONDocuments (<["_id" := v]> base) updates
  = <["_id" := v]> (mergeJSONDocuments base updates).
Proof.
  apply map_eq. intros k. rewrite mergeJSONDocuments_lookup.
  case_bool_decide as Hk.
  - subst k. by rewrite !lookup_insert_eq.
  - rewrite !lookup_insert_ne by done.
    rewrite mergeJSONDocuments_lookup. by rewrite bool_decide_eq_false_2.
Qed.

(** X1.  The payload merge, key by key: a key the update lacks keeps the
    value of the existing document; under any key but [_id] a value of the
    update that is not an object replaces whatever was there, an object is
    merged into the existing object under that key, and an object meeting a
    non-object (or nothing) is merged into the empty object, so that it
    replaces the old value but loses its own [_id] entries. *)
Theorem mergeJSONDocuments_contract (base updates : document) :
  (∀ k, updates !! k = None →
     mergeJSONDocuments base updates !! k = base !! k) ∧
  (∀ k v, k ≠ "_id" → updates !! k = Some v → (∀ m, v ≠ VMap m) →
     mergeJSONDocuments base updates !! k = Some v) ∧
  (∀ k vMap bm, k ≠ "_id" → updates !! k = Some (VMap vMap) →
     base !! k = Some (VMap bm) →
     mergeJSONDocuments base updates !! k
     = Some (VMap (mergeJSONDocuments bm vMap))) ∧
  (∀ k vMap, k ≠ "_id" → updates !! k = Some (VMap vMap) →
     (∀ bm, base !! k ≠ Some (VMap bm)) →
     mergeJSONDocuments base updates !! k
     = Some (VMap (mergeJSONDocuments ∅ vMap)) ∧
     mergeJSONDocuments ∅ vMap !! "_id" = None).
Proof.
  split; [|split; [|split]].
  - intros k Hk. rewrite mergeJSONDocuments_lookup, Hk. by case_bool_decide.
  - intros k v Hne Hk Hv. rewrite mergeJSONDocuments_lookup, Hk.
    rewrite bool_decide_eq_false_2 by done.
    destruct v; try reflexivity. by destruct (Hv m).
  - intros k vMap bm Hne Hk Hb. rewrite mergeJSONDocuments_lookup, Hk, Hb.
    by rewrite bool_decide_eq_false_2.
  - intros k vMap Hne Hk Hb. split.
    + rewrite mergeJSONDocuments_lookup, Hk.
      rewrite bool_decide_eq_false_2 by done.
      destruct (base !! k) as [[]|]; try reflexivity. by destruct (Hb m).
    + rewrite mergeJSONDocuments_lookup.
      by rewrite bool_decide_eq_true_2, lookup_empty.
Qed.

Lemma mergeJSONDocuments_twice (updates base : document) :
  mergeJSONDocuments (mergeJSONDocuments base updates) updates
  = mergeJSONDocuments base updates.
Proof.
  revert base.
  assert (∀ v, match v with
               | VMap u => ∀ base : document,
                   mergeJSONDocuments (mergeJSONDocuments base u) u
                   = mergeJSONDocuments base u
               | _ => True
               end) as Hall.
  { induction v as [| | | | | | |u IH|u IH|l IH|l IH] using value_tree_ind;
      try exact I.
    intros base. apply map_eq. intros k.
    rewrite mergeJSONDocuments_lookup.
    rewrite (mergeJSONDocuments_lookup base u k).
    case_bool_decide; [done|].
    destruct (u !! k) as [v|] eqn:Hk; [|done].
    destruct v as [| | | | | | |vMap| | |]; try reflexivity.
    do 2 f_equal. apply (IH k (VMap vMap) Hk). }
  intros base. apply (Hall (VMap updates)).
Qed.

(** X2.  The payload merge is idempotent, at every nesting level: merging
    the same update a second time changes nothing. *)
Theorem mergeJSONDocuments_idempotent (updates base : document) :
  mergeJSONDocuments (mergeJSONDocuments base updates) updates
  = mergeJSONDocuments base updates.
Proof. apply mergeJSONDocuments_twice. Qed.

(** X3.  The payload merge never removes a key: the merged document has
    the keys of the existing document and those of the update other than
    [_id]; an empty update gives the existing document back. *)
Theorem mergeJSONDocuments_keys (base updates : document) :
  dom (mergeJSONDocuments base updates) = dom base ∪ (dom updates ∖ {["_id"]}) ∧
  mergeJSONDocuments base ∅ = base.
Proof.
  split.
  - apply set_eq. intros k.
    rewrite elem_of_union, elem_of_difference, !elem_of_dom,
            not_elem_of_singleton, mergeJSONDocuments_lookup.
    case_bool_decide as Hk.
    + split; [by left|]. intros [?|[_ ?]]; done.
    + destruct (updates !! k) as [v|] eqn:Hu.
      * split; [intros _; right; split; [by eexists|done]|].
        intros _. destruct v; by eexists.
      * split; [by left|]. intros [?|[Hs _]]; [done|].
        by apply is_Some_None in Hs.
  - apply map_eq. intros k. rewrite mergeJSONDocuments_lookup, lookup_empty.
    by case_bool_decide.
Qed.

End PayloadMergeContract.

(** ** Replacing one document: what is written and what is read back *)

Section SingleReplaceMore.

Lemma FindOne_Some key (c : collection) d :
  FindOne key c = Some d → d ∈ c ∧ matchesId key d = true.
Proof.
  unfold FindOne. intros [Hin Hm]%find_some. split; [|done].
  by apply list_elem_of_In.
Qed.

Lemma matchesId_oid_true id d :
  matchesId (VObjectID id) d = true ↔ d !! "_id" = Some (VObjectID id).
Proof.
  rewrite matchesId_oid, bool_decide_eq_true. apply oidOf_Some.
Qed.

(** The first document matching the filter, after an upsert under a key
    the new document matches, is the new document. *)
Lemma FindOne_ReplaceOne key doc (c : collection) :
  matchesId key doc = true → FindOne key (ReplaceOne key doc c) = Some doc.
Proof.
  intros Hdoc. unfold FindOne.
  induction c as [|d c IH]; simpl; [by rewrite Hdoc|].
  destruct (matchesId key d) eqn:Hd; simpl; [by rewrite Hdoc|].
  by rewrite Hd.
Qed.

Lemma ReplaceOne_again key doc (c : collection) :
  matchesId key doc = true →
  ReplaceOne key doc (ReplaceOne key doc c) = ReplaceOne key doc c.
Proof.
  intros Hdoc. induction c as [|d c IH]; simpl; [by rewrite Hdoc|].
  destruct (matchesId key d) eqn:Hd; simpl; [by rewrite Hdoc|].
  by rewrite Hd, IH.
Qed.

Lemma ReplaceOne_length_found key doc (c : collection) d :
  FindOne key c = Some d →
  List.length (ReplaceOne key doc c) = List.length c.
Proof.
  unfold FindOne. induction c as [|d0 c IH]; simpl; [done|].
  destruct (matchesId key d0); [done|]. intros H. simpl. by rewrite IH.
Qed.

Lemma UpdateStructureWebsite_run db id oid (payload : document) w :
  ToLower (envLocalDevelopment w) = "true" →
  ObjectIDFromHex id = Some oid →
  UpdateStructureWebsite (Some db) id (Some payload) w
  = (Ok (updatedDocument oid payload (documentsOf w db "structure_websites")),
     withStore w
       (<[(db, "structure_websites") :=
            ReplaceOne (VObjectID oid)
              (updatedDocument oid payload (documentsOf w db "structure_websites"))
              (documentsOf w db "structure_websites")]> (store w))).
Proof.
  intros Hflag Hhex.
  pose proof (ObjectIDFromHex_nonempty _ _ Hhex) as Hid.
  unfold UpdateStructureWebsite, bind, gets, fail, ret, updateCollection,
    updatedDocument.
  case_bool_decide; [done|]. case_bool_decide; [done|].
  rewrite Hhex. by destruct (FindOne _ _).
Qed.

Lemma UpdateStructureWebsite_Ok_inv ctx id payload w doc w' :
  UpdateStructureWebsite ctx id payload w = (Ok doc, w') →
  ∃ db oid p,
    ctx = Some db ∧ payload = Some p ∧
    ToLower (envLocalDevelopment w) = "true" ∧
    ObjectIDFromHex id = Some oid ∧
    doc = updatedDocument oid p (documentsOf w db "structure_websites") ∧
    w' = withStore w
           (<[(db, "structure_websites") :=
                ReplaceOne (VObjectID oid) doc
                  (documentsOf w db "structure_websites")]> (store w)).
Proof.
  intros Hrun.
  assert (ToLower (envLocalDevelopment w) = "true" ∧
          ∃ db p oid, ctx = Some db ∧ payload = Some p ∧
                      ObjectIDFromHex id = Some oid) as (Hflag & db & p & oid & -> & -> & Hhex).
  { revert Hrun. unfold UpdateStructureWebsite, bind, gets, fail.
    case_bool_decide as Hflag; [done|]. case_bool_decide; [done|].
    destruct payload as [p|]; [|done]. destruct ctx as [db|]; [|done].
    destruct (ObjectIDFromHex id) as [oid|]; [|done].
    intros _. split; [|by eauto 6].
    destruct (decide (ToLower (envLocalDevelopment w) = "true")); [done|].
    by destruct Hflag. }
  rewrite (UpdateStructureWebsite_run db id oid p w Hflag Hhex) in Hrun.
  injection Hrun as <- <-. by exists db, oid, p.
Qed.

Lemma updatedDocument_matches oid payload (c : collection) :
  matchesId (VObjectID oid) (updatedDocument oid payload c) = true.
Proof. apply matchesId_oid_true. apply lookup_insert_eq. Qed.

(** X4.  When a document with the given id exists, [UpdateStructureWebsite]
    merges the payload into it rather than replacing it: every key the
    payload lacks keeps its stored value, a payload value that is not an
    object replaces the stored one (under any key but [_id]), the identity
    stays, the merged document takes the place of the old one (same number
    of documents) and the documents under other identities stay. *)
Theorem UpdateStructureWebsite_merges_into_existing
    db id oid (payload existing : document) w :
  ToLower (envLocalDevelopment w) = "true" →
  ObjectIDFromHex id = Some oid →
  FindOne (VObjectID oid) (documentsOf w db "structure_websites") = Some existing →
  ∃ doc w',
    UpdateStructureWebsite (Some db) id (Some payload) w = (Ok doc, w') ∧
    (∀ k, payload !! k = None → doc !! k = existing !! k) ∧
    (∀ k v, k ≠ "_id" → payload !! k = Some v → (∀ m, v ≠ VMap m) →
       doc !! k = Some v) ∧
    doc !! "_id" = Some (VObjectID oid) ∧
    doc ∈ documentsOf w' db "structure_websites" ∧
    List.length (documentsOf w' db "structure_websites")
      = List.length (documentsOf w db "structure_websites") ∧
    (∀ d, d ∈ documentsOf w db "structure_websites" → oidOf d ≠ Some oid →
       d ∈ documentsOf w' db "structure_websites").
Proof.
  intros Hflag Hhex Hfound.
  eexists _, _. split; [by apply UpdateStructureWebsite_run|].
  rewrite documentsOf_insert, decide_True by done.
  unfold updatedDocument. rewrite Hfound. simpl default.
  pose proof Hfound as [Hin Hm%matchesId_oid_true]%FindOne_Some.
  split; [|split; [|split; [|split; [|split]]]].
  - intros k Hk. destruct (decide (k = "_id")) as [->|Hne].
    + by rewrite lookup_insert_eq, Hm.
    + rewrite lookup_insert_ne, mergeJSONDocuments_lookup, Hk by done.
      by rewrite bool_decide_eq_false_2.
  - intros k v Hne Hk Hv.
    rewrite lookup_insert_ne, mergeJSONDocuments_lookup, Hk by done.
    rewrite bool_decide_eq_false_2 by done.
    destruct v; try reflexivity. by destruct (Hv m).
  - apply lookup_insert_eq.
  - apply ReplaceOne_stores.
  - by eapply ReplaceOne_length_found.
  - intros d Hd Hne. by apply ReplaceOne_keeps_others.
Qed.

Lemma UpdateStructureWebsite_merges_into_existing_witness :
  ∃ doc w',
    UpdateStructureWebsite (Some "acme") Samples.homepageId
      (Some MoreSamples.slugUpdate) Samples.twoTenants = (Ok doc, w') ∧
    (∀ k, MoreSamples.slugUpdate !! k = None →
       doc !! k
       = ({[ "_id" := VObjectID Samples.homepageOid; "slug" := VString "home";
             "theme" := VString "dark" ]} : document) !! k) ∧
    (∀ k v, k ≠ "_id" → MoreSamples.slugUpdate !! k = Some v →
       (∀ m, v ≠ VMap m) → doc !! k = Some v) ∧
    doc !! "_id" = Some (VObjectID Samples.homepageOid) ∧
    doc ∈ documentsOf w' "acme" "structure_websites" ∧
    List.length (documentsOf w' "acme" "structure_websites")
      = List.length (documentsOf Samples.twoTenants "acme" "structure_websites") ∧
    (∀ d, d ∈ documentsOf Samples.twoTenants "acme" "structure_websites" →
       oidOf d ≠ Some Samples.homepageOid →
       d ∈ documentsOf w' "acme" "structure_websites").
Proof.
  apply (UpdateStructureWebsite_merges_into_existing
           "acme" Samples.homepageId Samples.homepageOid
           MoreSamples.slugUpdate
           {[ "_id" := VObjectID Samples.homepageOid; "slug" := VString "home";
              "theme" := VString "dark" ]}
           Samples.twoTenants);
    vm_compute; reflexivity.
Defined.



(** X6.  [UpdateStructureWebsite] is idempotent: repeating a successful
    call with the same id and payload returns the same document and leaves
    the world exactly as the first call left it. *)
Theorem UpdateStructureWebsite_idempotent ctx id payload w doc w' :
  UpdateStructureWebsite ctx id payload w = (Ok doc, w') →
  UpdateStructureWebsite ctx id payload w' = (Ok doc, w').
Proof.
  intros (db & oid & p & -> & -> & Hflag & Hhex & -> & ->)
    %UpdateStructureWebsite_Ok_inv.
  rewrite UpdateStructureWebsite_run with (oid := oid) by done.
  rewrite documentsOf_insert, decide_True by done.
  set (c := documentsOf w db "structure_websites").
  set (doc := updatedDocument oid p c).
  assert (updatedDocument oid p (ReplaceOne (VObjectID oid) doc c) = doc) as ->.
  { unfold updatedDocument at 1.
    rewrite FindOne_ReplaceOne by apply updatedDocument_matches.
    simpl default. unfold doc, updatedDocument.
    rewrite mergeJSONDocuments_insert_id.
    rewrite mergeJSONDocuments_twice. by rewrite insert_insert_eq. }
  rewrite ReplaceOne_again by apply updatedDocument_matches.
  f_equal. unfold withStore. simpl. f_equal. apply insert_insert_eq.
Qed.

Lemma UpdateStructureWebsite_idempotent_witness :
  UpdateStructureWebsite (Some "acme") Samples.homepageId
    (Some MoreSamples.slugUpdate)
    (UpdateStructureWebsite (Some "acme") Samples.homepageId
       (Some MoreSamples.slugUpdate) Samples.twoTenants).2
  = (Ok (updatedDocument Samples.homepageOid MoreSamples.slugUpdate
           (documentsOf Samples.twoTenants "acme" "structure_websites")),
     (UpdateStructureWebsite (Some "acme") Samples.homepageId
        (Some MoreSamples.slugUpdate) Samples.twoTenants).2).
Proof.
  apply (UpdateStructureWebsite_idempotent
           (Some "acme") Samples.homepageId (Some MoreSamples.slugUpdate)
           Samples.twoTenants).
  vm_compute. reflexivity.
Defined.

End SingleReplaceMore.

(** ** The fan-out: guards, frame and counts *)

Section FanOutMore.

Variable filterMatches : string → string → document → bool.
Variable decodeClientName : document → option string.

Lemma prepareDocuments_all_nil documents :
  Forall (fun d => d = None) documents →
  ∀ idx sanitizedDocs templateIDs w,
    prepareDocuments idx documents sanitizedDocs templateIDs w
    = (Ok (sanitizedDocs, templateIDs), w).
Proof.
  induction 1 as [|d documents -> _ IH]; intros idx sds ids w; simpl; [done|].
  apply IH.
Qed.

(** X7.  The guards of [ApplyStructureTemplate]: an empty template key, an
    empty document list, or a list holding only nil documents stops the
    call with the matching error and the world untouched; with documents
    prepared but no Mongo client the call stops before any collection is
    read or written. *)
Theorem ApplyStructureTemplate_guards templateKey documents targetField w :
  (templateKey = "" →
   ApplyStructureTemplate filterMatches decodeClientName
     templateKey documents targetField w = (Err ErrTemplateKeyRequired, w)) ∧
  (templateKey ≠ "" → documents = [] →
   ApplyStructureTemplate filterMatches decodeClientName
     templateKey documents targetField w = (Err ErrDocumentsEmpty, w)) ∧
  (templateKey ≠ "" → documents ≠ [] → Forall (fun d => d = None) documents →
   ApplyStructureTemplate filterMatches decodeClientName
     templateKey documents targetField w = (Err ErrNoUsableDocuments, w)) ∧
  (∀ sds ids w1,
     templateKey ≠ "" →
     prepareDocuments 0 documents [] [] w = (Ok (sds, ids), w1) →
     sds ≠ [] →
     mongoClientReady w = false →
     ApplyStructureTemplate filterMatches decodeClientName
       templateKey documents targetField w = (Err ErrMongoClient, w1) ∧
     store w1 = store w).
Proof.
  unfold ApplyStructureTemplate.
  split; [|split; [|split]].
  - intros ->. reflexivity.
  - intros Hkey ->. by rewrite bool_decide_eq_false_2.
  - intros Hkey Hdocs Hnil.
    rewrite (bool_decide_eq_false_2 (templateKey = "")) by done.
    rewrite bool_decide_eq_false_2 by (by destruct documents).
    unfold bind. by rewrite prepareDocuments_all_nil.
  - intros sds ids w1 Hkey Hprep Hsds Hready.
    destruct (prepareDocuments_frame _ _ _ _ _ _ _ Hprep) as (_&_&Hr&Hst).
    split; [|done].
    rewrite (bool_decide_eq_false_2 (templateKey = "")) by done.
    destruct documents as [|d0 documents].
    { simpl in Hprep. by injection Hprep as <- _ _. }
    rewrite bool_decide_eq_false_2 by done.
    unfold bind at 1. rewrite Hprep. cbn [fst snd].
    rewrite bool_decide_eq_false_2 by (by destruct sds).
    unfold bind, gets. by rewrite Hr, Hready.
Qed.

(** The loop over the registrations touches tenant collections only,
    however it ends. *)
Lemma syncClients_frame docs ids cursor :
  ∀ summary w r w',
    syncClients decodeClientName cursor docs ids summary w = (r, w') →
    changesOnly "structure_websites" w w'.
Proof.
  induction cursor as [|clientDoc rest IH]; intros summary w r w'.
  - simpl. intros [= <- <-]. apply changesOnly_refl.
  - cbn [syncClients].
    destruct (decodeClientName clientDoc) as [name0|];
      [|intros [= <- <-]; apply changesOnly_refl].
    case_bool_decide; [apply IH|].
    unfold bind at 1.
    destruct (upsertDocuments_spec (TrimSpace name0) docs summary w)
      as (s1 & w1 & -> & _ & _ & _ & Hframe1 & _).
    unfold bind at 1.
    destruct (deleteOutdated_spec (TrimSpace name0) ids w1)
      as (deleted & w2 & -> & Hframe2 & _).
    intros Hrest%IH. eauto using changesOnly_trans.
Qed.

(** The template upsert writes one collection of one database. *)
Lemma upsertTemplateDefinition_frame coreDB templateKey docsForStorage w r w' :
  upsertTemplateDefinition filterMatches coreDB templateKey docsForStorage w
    = (r, w') →
  ∀ db coll, (db, coll) ≠ (coreDB, "structure_templates") →
    documentsOf w' db coll = documentsOf w db coll.
Proof.
  unfold upsertTemplateDefinition, bind, gets, updateCollection, NewObjectID.
  destruct (updateFirst _ _ _); intros [= <- <-] db coll Hne;
    unfold documentsOf; simpl; by rewrite lookup_insert_ne.
Qed.

Lemma ApplyStructureTemplate_frame_aux templateKey documents targetField w r w' :
  ApplyStructureTemplate filterMatches decodeClientName
    templateKey documents targetField w = (r, w') →
  envLocalDevelopment w' = envLocalDevelopment w ∧
  envMongoDBName w' = envMongoDBName w ∧
  mongoClientReady w' = mongoClientReady w ∧
  ∀ db coll,
    coll ≠ "structure_websites" →
    (db, coll) ≠ (coreDBName w, "structure_templates") →
    documentsOf w' db coll = documentsOf w db coll.
Proof.
  intros Hrun.
  revert Hrun. unfold ApplyStructureTemplate.
    case_bool_decide; [by intros [= <- <-]|].
    case_bool_decide; [by intros [= <- <-]|].
    unfold bind at 1.
    destruct (prepareDocuments 0 documents [] [] w) as [[[sds ids]|e] w1] eqn:Hprep.
    2:{ intros [= <- <-].
        destruct (prepareDocuments_frame _ _ _ _ _ _ _ Hprep) as (?&?&?&Hst).
        repeat split; try done. intros db coll _ _. unfold documentsOf.
        by rewrite Hst. }
    destruct (prepareDocuments_frame _ _ _ _ _ _ _ Hprep) as (He1&He2&He3&Hst).
    cbn [fst snd].
    case_bool_decide.
    { intros [= <- <-]. repeat split; try done.
      intros db coll _ _. unfold documentsOf. by rewrite Hst. }
    unfold bind at 1, gets at 1.
    destruct (mongoClientReady w1) eqn:Hready; cbn [negb].
    2:{ intros [= <- <-]. repeat split; try done; try congruence.
        intros db coll _ _. unfold documentsOf. by rewrite Hst. }
    unfold bind at 1, gets at 1. unfold bind at 1, gets at 1.
    unfold bind at 1.
    destruct (upsertTemplateDefinition filterMatches _ templateKey _ w1)
      as [rt w2] eqn:Htpl.
    pose proof (upsertTemplateDefinition_frame _ _ _ _ _ _ Htpl) as Hdocs2.
    destruct (upsertTemplateDefinition_spec filterMatches
                (if bool_decide (envMongoDBName w1 = "") then "core"
                 else envMongoDBName w1)
                templateKey (cloneMap <$> sds) w1) as (w2' & Htpl' & Hc2).
    rewrite Htpl in Htpl'. injection Htpl' as -> <-.
    unfold bind at 1, gets at 1. unfold bind at 1.
    match goal with |- context [syncClients _ ?c _ _ ?s ?w] =>
      destruct (syncClients decodeClientName c sds ids s w)
        as [r3 w3] eqn:Hsync end.
    pose proof (syncClients_frame _ _ _ _ _ _ _ Hsync) as (Hs1&Hs2&Hs3&Hdocs3).
    destruct Hc2 as (Ht1&Ht2&Ht3&_).
    intros Hfin.
    assert (w' = w3) as -> by (destruct r3; by injection Hfin as _ <-).
    split; [congruence|]. split; [congruence|]. split; [congruence|].
    intros db coll Hsw Htc. rewrite Hdocs3 by done.
    rewrite Hdocs2.
    - unfold documentsOf. by rewrite Hst.
    - unfold coreDBName in Htc. by rewrite He2.
Qed.

(** X8.  What [ApplyStructureTemplate] never touches, however it ends: the
    environment, the Mongo client, and every collection other than the
    shared database's [structure_templates] and the [structure_websites]
    collections; in particular the tenant registry [db_clients] is only
    read.  When it succeeds, the [structure_websites] collection of every
    database it does not report is as it was. *)
Theorem ApplyStructureTemplate_frame templateKey documents targetField w :
  let run := ApplyStructureTemplate filterMatches decodeClientName
               templateKey documents targetField w in
  envLocalDevelopment run.2 = envLocalDevelopment w ∧
  envMongoDBName run.2 = envMongoDBName w ∧
  mongoClientReady run.2 = mongoClientReady w ∧
  (∀ db coll,
     coll ≠ "structure_websites" →
     (db, coll) ≠ (coreDBName w, "structure_templates") →
     documentsOf run.2 db coll = documentsOf w db coll) ∧
  (∀ summary name,
     run.1 = Ok summary → name ∉ ClientNames summary →
     documentsOf run.2 name "structure_websites"
     = documentsOf w name "structure_websites").
Proof.
  cbv zeta.
  destruct (ApplyStructureTemplate filterMatches decodeClientName
              templateKey documents targetField w) as [r w'] eqn:Hrun.
  cbn [fst snd].
  pose proof (ApplyStructureTemplate_frame_aux _ _ _ _ _ _ Hrun) as Hframe.
  destruct Hframe as (?&?&?&Hother). do 4 (split; [done|]).
  intros summary name -> Hname.
  destruct (ApplyStructureTemplate_Ok _ _ _ _ _ _ _ _ Hrun)
    as (sds & ids & w1 & w2 & s0 & _ & Hprep & _ & _ & Hframe2 & Hsync & ->).
  assert (Forall2 preparedAs sds ids) as Hpa
    by (eapply (prepareDocuments_preparedAs _ _ [] []); [constructor|done]).
  apply (syncClients_spec _ _ _ Hpa) in Hsync as (Hn & _ & _ & _ & Hsame & _).
  simpl in Hn, Hname. rewrite Hsame.
  - destruct Hframe2 as (_&_&_&Hd2). rewrite Hd2 by discriminate.
    destruct (prepareDocuments_frame _ _ _ _ _ _ _ Hprep) as (_&_&_&Hst).
    unfold documentsOf. by rewrite Hst.
  - rewrite <-Hn. intros Hin. apply Hname. unfold sortStrings.
    by rewrite merge_sort_Permutation.
Qed.

End FanOutMore.

(** ** The fan-out: counts and re-application *)

Section FanOutCounts.

Variable filterMatches : string → string → document → bool.
Variable decodeClientName : document → option string.

Lemma upsertDocuments_counts clientName docs :
  ∀ summary w summary' w',
    upsertDocuments clientName docs summary w = (Ok summary', w') →
    UpdatedDocuments summary' = (UpdatedDocuments summary + List.length docs)%nat ∧
    DeletedDocuments summary' = DeletedDocuments summary.
Proof.
  induction docs as [|templateDoc docs IH]; intros summary w summary' w'.
  - simpl. intros [= <- <-]. split; [lia|done].
  - cbn [upsertDocuments]. unfold bind at 1, updateCollection.
    intros [Hu Hd]%IH. simpl in *. split; [lia|done].
Qed.

Lemma deleteOutdated_count clientName ids w n w' :
  deleteOutdated clientName ids w = (Ok n, w') →
  n = (DeleteMany ids (documentsOf w clientName "structure_websites")).2.
Proof.
  unfold deleteOutdated.
  destruct (DeleteMany ids (documentsOf w clientName "structure_websites")).
  by intros [= <- <-].
Qed.

Lemma syncClients_counts docs ids cursor :
  ∀ summary w summary' w',
    syncClients decodeClientName cursor docs ids summary w = (Ok summary', w') →
    UpdatedDocuments summary'
    = (UpdatedDocuments summary
       + List.length (tenantNames decodeClientName cursor) * List.length docs)%nat.
Proof.
  induction cursor as [|clientDoc rest IH]; intros summary w summary' w'.
  - simpl. intros [= <- <-]. lia.
  - cbn [syncClients]. rewrite tenantNames_cons. unfold tenantName.
    destruct (decodeClientName clientDoc) as [name0|]; [|done].
    case_bool_decide; [apply IH|].
    unfold bind at 1.
    destruct (upsertDocuments (TrimSpace name0) docs summary w)
      as [[s1|e] w1] eqn:Hup; [|done].
    apply upsertDocuments_counts in Hup as [Hu _].
    unfold bind at 1.
    destruct (deleteOutdated (TrimSpace name0) ids w1) as [[n|e] w2]; [|done].
    intros Hrest%IH. simpl in *. lia.
Qed.

Lemma prepareDocuments_usable documents :
  ∀ idx sanitizedDocs templateIDs w sds ids w',
    prepareDocuments idx documents sanitizedDocs templateIDs w
      = (Ok (sds, ids), w') →
    List.length sds
    = (List.length sanitizedDocs + List.length (usableDocuments documents))%nat.
Proof.
  induction documents as [|[rawDoc|] rest IH];
    intros idx sanitizedDocs templateIDs w sds ids w'; simpl.
  - intros [= <- <- <-]. lia.
  - destruct (prepareTemplateDocument rawDoc w) as [[[sd id]|e] w1]; [|done].
    intros Hrest%IH. rewrite length_app in Hrest. simpl in *. lia.
  - apply IH.
Qed.

Lemma ApplyStructureTemplate_updated_count
    templateKey documents targetField w summary w' :
  ApplyStructureTemplate filterMatches decodeClientName
    templateKey documents targetField w = (Ok summary, w') →
  UpdatedDocuments summary
  = (List.length (ClientNames summary)
     * List.length (usableDocuments documents))%nat.
Proof.
  intros (sds & ids & w1 & w2 & s0 & _ & Hprep & _ & _ & _ & Hsync & ->)
    %ApplyStructureTemplate_Ok.
  pose proof (prepareDocuments_usable _ _ _ _ _ _ _ _ Hprep) as Hlen.
  assert (Forall2 preparedAs sds ids) as Hpa
    by (eapply (prepareDocuments_preparedAs _ _ [] []); [constructor|done]).
  pose proof (syncClients_counts _ _ _ _ _ _ _ Hsync) as Hu.
  apply (syncClients_spec _ _ _ Hpa) in Hsync as (Hn & _).
  simpl in *. unfold sortStrings.
  rewrite (Permutation_length (merge_sort_Permutation _ _)), Hn, Hu, Hlen.
  done.
Qed.

(** X9.  The update count of a successful fan-out is the number of
    reported tenants times the number of non-nil template documents: every
    template document is upserted once into every reported tenant. *)
Theorem updated_count_is_tenants_times_documents
    templateKey documents targetField w summary w' :
  ApplyStructureTemplate filterMatches decodeClientName
    templateKey documents targetField w = (Ok summary, w') →
  UpdatedDocuments summary
  = (List.length (ClientNames summary)
     * List.length (usableDocuments documents))%nat.
Proof. apply ApplyStructureTemplate_updated_count. Qed.

Lemma ReplaceOne_same id sd (c : collection) :
  NoDup (identities c) → sd ∈ c → oidOf sd = Some id →
  ReplaceOne (VObjectID id) sd c = c.
Proof.
  intros Hnd Hin Hsd. induction c as [|d c IH]; cbn [ReplaceOne];
    [by apply elem_of_nil in Hin|].
  rewrite matchesId_oid. rewrite identities_cons in Hnd.
  case_bool_decide as Hd.
  - rewrite Hd in Hnd. apply NoDup_cons in Hnd as [Hnotin _].
    apply elem_of_cons in Hin as [->|Hin]; [done|].
    destruct Hnotin. apply elem_of_identities. eauto.
  - apply elem_of_cons in Hin as [->|Hin]; [done|].
    rewrite IH; [done| |done].
    destruct (oidOf d); [by apply NoDup_cons in Hnd as [_ ?]|done].
Qed.

Lemma upsertAll_fixed docs ids :
  Forall2 preparedAs docs ids →
  ∀ c : collection,
    NoDup (identities c) → (∀ sd, sd ∈ docs → sd ∈ c) → upsertAll docs c = c.
Proof.
  induction 1 as [|sd id docs ids Hp _ IH]; intros c Hnd Hin; [done|].
  rewrite (upsertAll_cons _ _ _ id) by done.
  rewrite ReplaceOne_same; [|done|apply Hin; by left|by apply preparedAs_oidOf].
  apply IH; [done|]. intros sd' Hsd'. apply Hin. by right.
Qed.

Lemma DeleteMany_fixed ids (c : collection) :
  (∀ d, d ∈ c → ∃ id, id ∈ ids ∧ d !! "_id" = Some (VObjectID id)) →
  DeleteMany ids c = (c, 0%nat).
Proof.
  intros Hall. unfold DeleteMany.
  assert (∀ d, d ∈ c → idAmong ids d = true) as Hkeep.
  { intros d (id & Hid & Hd)%Hall. unfold idAmong. rewrite Hd.
    by apply bool_decide_eq_true. }
  clear Hall. induction c as [|d c IH]; [done|].
  cbn [List.filter]. rewrite (Hkeep d) by (by left). cbn [negb].
  assert (∀ d', d' ∈ c → idAmong ids d' = true) as Hrest
    by (intros d' Hd'; apply Hkeep; by right).
  specialize (IH Hrest). injection IH as Hk Hn.
  by rewrite Hk, Hn.
Qed.

(** On a tenant whose collection has converged, the two phases change
    nothing. *)
Lemma syncTenant_fixed docs ids (c : collection) :
  Forall2 preparedAs docs ids → NoDup ids → converged docs ids c →
  upsertAll docs c = c ∧ DeleteMany ids c = (c, 0%nat).
Proof.
  intros Hpa Hnd Hc. split.
  - apply (upsertAll_fixed _ _ Hpa); [by destruct Hc as (_&_&_&_&?)|].
    by apply (converged_distinct _ _ _ Hpa Hnd).
  - apply DeleteMany_fixed. by destruct Hc as (?&_).
Qed.

Lemma syncClients_stable docs ids :
  Forall2 preparedAs docs ids → NoDup ids →
  ∀ cursor summary w summary' w',
    (∀ name, name ∈ tenantNames decodeClientName cursor →
       converged docs ids (documentsOf w name "structure_websites")) →
    syncClients decodeClientName cursor docs ids summary w = (Ok summary', w') →
    DeletedDocuments summary' = DeletedDocuments summary ∧
    ∀ db, documentsOf w' db "structure_websites"
          = documentsOf w db "structure_websites".
Proof.
  intros Hpa Hnd.
  induction cursor as [|clientDoc rest IH]; intros summary w summary' w' Hconv.
  - simpl. by intros [= <- <-].
  - cbn [syncClients]. rewrite tenantNames_cons in Hconv.
    unfold tenantName in Hconv.
    destruct (decodeClientName clientDoc) as [name0|]; [|done].
    case_bool_decide as Hblank; [by apply IH|].
    assert (converged docs ids
              (documentsOf w (TrimSpace name0) "structure_websites")) as Hc
      by (apply Hconv; by left).
    destruct (syncTenant_fixed _ _ _ Hpa Hnd Hc) as [Hup Hdel].
    unfold bind at 1.
    destruct (upsertDocuments_spec (TrimSpace name0) docs summary w)
      as (s1 & w1 & Hrun1 & _ & _ & _ & _ & Hdocs1).
    rewrite Hrun1.
    apply upsertDocuments_counts in Hrun1 as [_ Hd1].
    assert (∀ db, documentsOf w1 db "structure_websites"
                  = documentsOf w db "structure_websites") as Hw1.
    { intros db. rewrite Hdocs1. case_decide as Heq; [|done].
      subst db. by rewrite Hup. }
    unfold bind at 1.
    destruct (deleteOutdated_spec (TrimSpace name0) ids w1)
      as (deleted & w2 & Hrun2 & _ & Hdocs2).
    rewrite Hrun2.
    apply deleteOutdated_count in Hrun2. rewrite Hw1, Hdel in Hrun2.
    simpl in Hrun2. subst deleted.
    assert (∀ db, documentsOf w2 db "structure_websites"
                  = documentsOf w db "structure_websites") as Hw2.
    { intros db. rewrite Hdocs2. case_decide as Heq; [|apply Hw1].
      subst db. by rewrite Hw1, Hdel. }
    intros Hrest. apply IH in Hrest as [Hd Hdocs].
    + simpl in Hd. split; [lia|]. intros db. by rewrite Hdocs, Hw2.
    + intros name Hname. rewrite Hw2. apply Hconv. by right.
Qed.

Lemma ApplyStructureTemplate_stable_aux
    templateKey documents targetField w summary w' sds ids w1 :
  ApplyStructureTemplate filterMatches decodeClientName
    templateKey documents targetField w = (Ok summary, w') →
  prepareDocuments 0 documents [] [] w = (Ok (sds, ids), w1) →
  NoDup ids →
  (∀ tenant, tenant ∈ ClientNames summary →
     converged sds ids (documentsOf w tenant "structure_websites")) →
  DeletedDocuments summary = 0%nat ∧
  ∀ db, documentsOf w' db "structure_websites"
        = documentsOf w db "structure_websites".
Proof.
  intros Hrun Hprep Hnd Hconv.
  destruct (ApplyStructureTemplate_Ok _ _ _ _ _ _ _ _ Hrun)
    as (sds' & ids' & w1' & w2 & s0 & _ & Hprep' & _ & _ & Hframe & Hsync & ->).
  rewrite Hprep in Hprep'. injection Hprep' as <- <- <-.
  assert (Forall2 preparedAs sds ids) as Hpa
    by (eapply (prepareDocuments_preparedAs _ _ [] []); [constructor|done]).
  assert (∀ db, documentsOf w2 db "structure_websites"
                = documentsOf w db "structure_websites") as Hw2.
  { intros db. destruct Hframe as (_&_&_&Hd2). rewrite Hd2 by discriminate.
    destruct (prepareDocuments_frame _ _ _ _ _ _ _ Hprep) as (_&_&_&Hst).
    unfold documentsOf. by rewrite Hst. }
  pose proof (syncClients_spec _ _ _ Hpa _ _ _ _ _ Hsync) as (Hn & _).
  apply (syncClients_stable _ _ Hpa Hnd) in Hsync as [Hd Hdocs].
  - simpl in *. split; [done|]. intros db. by rewrite Hdocs, Hw2.
  - intros name Hname. rewrite Hw2. apply Hconv. simpl in *.
    unfold sortStrings. by rewrite merge_sort_Permutation, Hn.
Qed.

(** X10.  A fan-out over tenants that have already converged to the
    template (whose identities are pairwise distinct) deletes nothing and
    leaves every [structure_websites] collection as it was. *)
Theorem fan_out_on_converged_tenants
    templateKey documents targetField w summary w' sds ids w1 :
  ApplyStructureTemplate filterMatches decodeClientName
    templateKey documents targetField w = (Ok summary, w') →
  prepareDocuments 0 documents [] [] w = (Ok (sds, ids), w1) →
  NoDup ids →
  (∀ tenant, tenant ∈ ClientNames summary →
     converged sds ids (documentsOf w tenant "structure_websites")) →
  DeletedDocuments summary = 0%nat ∧
  ∀ db, documentsOf w' db "structure_websites"
        = documentsOf w db "structure_websites".
Proof. apply ApplyStructureTemplate_stable_aux. Qed.

End FanOutCounts.

(** ** The fan-out applied twice, and what it stores *)

Section FanOutTwice.

Variable filterMatches : string → string → document → bool.
Variable decodeClientName : document → option string.

(** A document that brings its identity is prepared the same way in every
    world, and leaves the world alone. *)
Lemma prepareTemplateDocument_explicit d :
  hasExplicitId d = true → ∃ r, ∀ w, prepareTemplateDocument d w = (r, w).
Proof.
  unfold hasExplicitId, prepareTemplateDocument, bind, ret, fail.
  destruct (d !! "_id") as [[| s | | | |oid| | | | |]|]; try discriminate.
  - case_bool_decide; [discriminate|]. intros _.
    destruct (ObjectIDFromHex (TrimSpace s)); eexists; intros w; reflexivity.
  - intros _. eexists. intros w. reflexivity.
Qed.

Lemma prepareDocuments_explicit documents :
  (∀ d, Some d ∈ documents → hasExplicitId d = true) →
  ∀ idx sanitizedDocs templateIDs,
    ∃ r, ∀ w, prepareDocuments idx documents sanitizedDocs templateIDs w = (r, w).
Proof.
  induction documents as [|[rawDoc|] rest IH]; intros Hex idx sds ids; simpl.
  - eexists. intros w. reflexivity.
  - destruct (prepareTemplateDocument_explicit rawDoc) as [[[sd id]|e] Hr];
      [apply Hex; by left|..].
    + destruct (IH (fun d Hd => Hex d (list_elem_of_further _ _ _ Hd))
                  (S idx) (sds ++ [sd])%list (ids ++ [id])%list) as [r Hrest].
      exists r. intros w. by rewrite Hr.
    + eexists. intros w. by rewrite Hr.
  - apply IH. intros d Hd. apply Hex. by right.
Qed.

Lemma ApplyStructureTemplate_converged_aux
    templateKey documents targetField w summary w' sds ids w1 :
  ApplyStructureTemplate filterMatches decodeClientName
    templateKey documents targetField w = (Ok summary, w') →
  prepareDocuments 0 documents [] [] w = (Ok (sds, ids), w1) →
  (∀ tenant, tenant ∈ ClientNames summary →
     NoDup (identities (documentsOf w tenant "structure_websites"))) →
  ∀ tenant, tenant ∈ ClientNames summary →
    converged sds ids (documentsOf w' tenant "structure_websites").
Proof.
  intros Hrun Hprep Hnd.
  destruct (ApplyStructureTemplate_Ok _ _ _ _ _ _ _ _ Hrun)
    as (sds' & ids' & w1' & w2 & s0 & _ & Hprep' & _ & _ & Hframe & Hsync & ->).
  rewrite Hprep in Hprep'. injection Hprep' as <- <- <-.
  assert (Forall2 preparedAs sds ids) as Hpa
    by (eapply (prepareDocuments_preparedAs _ _ [] []); [constructor|done]).
  assert (∀ db, documentsOf w2 db "structure_websites"
                = documentsOf w db "structure_websites") as Hw2.
  { intros db. destruct Hframe as (_&_&_&Hd2). rewrite Hd2 by discriminate.
    destruct (prepareDocuments_frame _ _ _ _ _ _ _ Hprep) as (_&_&_&Hst).
    unfold documentsOf. by rewrite Hst. }
  apply (syncClients_spec _ _ _ Hpa) in Hsync as (Hn & _ & _ & _ & _ & Hconv).
  simpl in *.
  assert (∀ tenant, tenant ∈ sortStrings (ClientNames s0) → tenant ∈ ClientNames s0)
    as Hsorted.
  { intros tenant. unfold sortStrings. by rewrite merge_sort_Permutation. }
  intros tenant Hin%Hsorted. rewrite Hn in Hin. apply Hconv; [|done].
  intros name Hname. rewrite Hw2. apply Hnd. unfold sortStrings.
  by rewrite merge_sort_Permutation, Hn.
Qed.

(** X11.  Re-application.  When every document brings its identity and the
    identities are pairwise distinct, applying the same template a second
    time right after a successful application reports the same field, the
    same tenants and the same update count, deletes nothing, and leaves
    every tenant collection as the first application left it. *)
Theorem reapplication_is_stable
    templateKey documents targetField w s1 w1 s2 w2 :
  (∀ d, Some d ∈ documents → hasExplicitId d = true) →
  NoDup (preparedOf (prepareDocuments 0 documents [] [] w)).2 →
  (∀ tenant, tenant ∈ ClientNames s1 →
     NoDup (identities (documentsOf w tenant "structure_websites"))) →
  ApplyStructureTemplate filterMatches decodeClientName
    templateKey documents targetField w = (Ok s1, w1) →
  ApplyStructureTemplate filterMatches decodeClientName
    templateKey documents targetField w1 = (Ok s2, w2) →
  TargetField s2 = TargetField s1 ∧
  ClientNames s2 = ClientNames s1 ∧
  UpdatedDocuments s2 = UpdatedDocuments s1 ∧
  DeletedDocuments s2 = 0%nat ∧
  ∀ db, documentsOf w2 db "structure_websites"
        = documentsOf w1 db "structure_websites".
Proof.
  intros Hex Hnd Huniq Hrun1 Hrun2.
  destruct (ApplyStructureTemplate_Ok _ _ _ _ _ _ _ _ Hrun1)
    as (sds & ids & wp & _ & _ & _ & Hprep & _).
  unfold preparedOf in Hnd. rewrite Hprep in Hnd. simpl in Hnd.
  destruct (prepareDocuments_explicit documents Hex 0%nat [] []) as [r Hr].
  rewrite Hr in Hprep. injection Hprep as -> <-.
  pose proof (ApplyStructureTemplate_frame_aux
                filterMatches decodeClientName _ _ _ _ _ _ Hrun1)
    as (_ & Henv & _ & Hother).
  assert (coreDBName w1 = coreDBName w) as Hcore
    by (unfold coreDBName; by rewrite Henv).
  assert (documentsOf w1 (coreDBName w1) "db_clients"
          = documentsOf w (coreDBName w) "db_clients") as Hreg.
  { rewrite Hcore. apply Hother; [discriminate|congruence]. }
  pose proof (ApplyStructureTemplate_summary _ _ _ _ _ _ _ _ Hrun1) as [Hf1 Hn1].
  pose proof (ApplyStructureTemplate_summary _ _ _ _ _ _ _ _ Hrun2) as [Hf2 Hn2].
  assert (TargetField s2 = TargetField s1) as Hf by (by rewrite Hf2, Hreg, Hf1).
  assert (ClientNames s2 = ClientNames s1) as Hn.
  { rewrite Hn2, Hn1, Hf. unfold registrations. by rewrite Hreg. }
  split; [done|]. split; [done|]. split.
  { rewrite (ApplyStructureTemplate_updated_count
               filterMatches decodeClientName _ _ _ _ _ _ Hrun1),
            (ApplyStructureTemplate_updated_count
               filterMatches decodeClientName _ _ _ _ _ _ Hrun2).
    by rewrite Hn. }
  apply (ApplyStructureTemplate_stable_aux
           filterMatches decodeClientName _ _ _ _ _ _ sds ids w1 Hrun2);
    [apply Hr|done|].
  intros tenant Htenant. rewrite Hn in Htenant.
  by apply (ApplyStructureTemplate_converged_aux
              _ _ _ _ _ _ sds ids w Hrun1 (Hr w) Huniq).
Qed.

Lemma updateFirst_Some matches fields (c c' : collection) :
  updateFirst matches fields c = Some c' → ∃ d0, (fields ∪ d0) ∈ c'.
Proof.
  revert c'. induction c as [|d c IH]; intros c'; simpl; [done|].
  destruct (matches d).
  - intros [= <-]. exists d. by left.
  - destruct (updateFirst matches fields c) as [c1|]; [|done].
    intros [= <-]. destruct (IH c1 eq_refl) as [d0 Hd0].
    exists d0. by right.
Qed.

Lemma upsertTemplateDefinition_stores coreDB templateKey docsForStorage w r w' :
  upsertTemplateDefinition filterMatches coreDB templateKey docsForStorage w
    = (r, w') →
  ∃ d, d ∈ documentsOf w' coreDB "structure_templates" ∧
       d !! "template_key" = Some (VString templateKey) ∧
       d !! "documents" = Some (VSlice (VMap <$> docsForStorage)).
Proof.
  unfold upsertTemplateDefinition, bind, gets, updateCollection, NewObjectID.
  destruct (updateFirst _ _ _) as [c'|] eqn:Hup; intros [= <- <-].
  - apply updateFirst_Some in Hup as [d0 Hd0].
    exists (({[ "template_key" := VString templateKey;
                "documents" := VSlice (VMap <$> docsForStorage);
                "updated_at" := VOther "time.Time" ]} : document) ∪ d0).
    rewrite documentsOf_insert, decide_True by done.
    split; [done|]. split; apply lookup_union_Some_l.
    + apply lookup_insert_eq.
    + rewrite lookup_insert_ne by discriminate. apply lookup_insert_eq.
  - eexists. unfold documentsOf at 1. simpl. rewrite lookup_insert_eq. simpl.
    split; [apply elem_of_app; right; by left|].
    split.
    + rewrite lookup_insert_ne by discriminate. apply lookup_insert_eq.
    + do 2 rewrite lookup_insert_ne by discriminate. apply lookup_insert_eq.
Qed.

Lemma preparedAs_cloneMap sds ids :
  Forall2 preparedAs sds ids → cloneMap <$> sds = sds.
Proof.
  induction 1 as [|sd id sds ids [_ Hc] _ IH]; csimpl; [done|].
  by rewrite Hc, IH.
Qed.

(** X12.  A successful [ApplyStructureTemplate] leaves the template in the
    shared database's [structure_templates] collection: a document whose
    [template_key] is the template key and whose [documents] are the
    prepared (sanitized, identified) template documents, in order. *)
Theorem template_definition_is_stored
    templateKey documents targetField w summary w' :
  ApplyStructureTemplate filterMatches decodeClientName
    templateKey documents targetField w = (Ok summary, w') →
  ∃ d, d ∈ documentsOf w' (coreDBName w) "structure_templates" ∧
       d !! "template_key" = Some (VString templateKey) ∧
       d !! "documents"
       = Some (VSlice (VMap <$> (preparedOf
                                   (prepareDocuments 0 documents [] [] w)).1)).
Proof.
  intros Hrun. revert Hrun. unfold ApplyStructureTemplate.
  case_bool_decide; [done|]. case_bool_decide; [done|].
  unfold bind at 1.
  destruct (prepareDocuments 0 documents [] [] w) as [[[sds ids]|e] w1] eqn:Hprep;
    [|done].
  assert (Forall2 preparedAs sds ids) as Hpa
    by (eapply (prepareDocuments_preparedAs _ _ [] []); [constructor|done]).
  destruct (prepareDocuments_frame _ _ _ _ _ _ _ Hprep) as (_&He&_&_).
  cbn [fst snd]. case_bool_decide; [done|].
  unfold bind at 1, gets at 1.
  destruct (mongoClientReady w1); [|done]. cbn [negb].
  unfold bind at 1, gets at 1. unfold bind at 1, gets at 1.
  unfold bind at 1.
  destruct (upsertTemplateDefinition filterMatches _ templateKey _ w1)
    as [[[]|e] w2] eqn:Htpl;
    [|destruct (upsertTemplateDefinition_spec filterMatches
                 (if bool_decide (envMongoDBName w1 = "") then "core"
                  else envMongoDBName w1)
                 templateKey (cloneMap <$> sds) w1) as (? & Htpl' & _);
      by rewrite Htpl in Htpl'].
  apply upsertTemplateDefinition_stores in Htpl as (d & Hd & Hk & Hdocs).
  unfold bind at 1, gets at 1. unfold bind at 1.
  match goal with |- context [syncClients _ ?c _ _ ?s ?w] =>
    destruct (syncClients decodeClientName c sds ids s w)
      as [[s0|e] w3] eqn:Hsync end; [|done].
  apply syncClients_frame in Hsync as (_&_&_&Hdocs3).
  intros [= _ <-]. exists d. unfold preparedOf. simpl.
  rewrite (preparedAs_cloneMap _ _ Hpa) in Hdocs.
  split; [|done]. rewrite Hdocs3 by discriminate.
  unfold coreDBName. by rewrite <-He.
Qed.

End FanOutTwice.

(** ** Deep copies and the sanitizer *)

Section GenericCopies.

Lemma deepCopyValueGeneric_deepCopyValue v :
  deepCopyValueGeneric v = deepCopyValue v.
Proof.
  induction v as [| | | | | | |m IH|m IH|l IH|l IH] using value_tree_ind;
    simpl; try reflexivity; f_equal;
    try (apply map_fmap_ext; intros k v Hk; by eapply IH);
    by apply Forall_fmap_ext.
Qed.

Lemma deepCopyValue_generic v : generic (deepCopyValue v).
Proof.
  induction v as [| | | | | | |m IH|m IH|l IH|l IH] using value_tree_ind;
    simpl; try (by apply generic_leaf).
  1-2: apply generic_map; intros k v; rewrite lookup_fmap;
       destruct (m !! k) eqn:Hk; simpl; [|done]; intros [= <-]; eauto.
  all: apply generic_slice; intros v (x & -> & Hx)%list_elem_of_fmap;
       rewrite Forall_forall in IH; eauto.
Qed.

Lemma generic_deepCopyValue v : generic v → deepCopyValue v = v.
Proof.
  induction 1 as [v Hv|m Hm IH|l Hl IH].
  - by destruct v.
  - simpl. f_equal. apply map_eq. intros k. rewrite lookup_fmap.
    destruct (m !! k) eqn:Hk; simpl; [|done]. f_equal. eauto.
  - simpl. f_equal. rewrite <-(list_fmap_id l) at 2.
    apply Forall_fmap_ext, Forall_forall. intros x Hx. simpl. eauto.
Qed.

Lemma fold_elements_deepCopyValue (l : list value) :
  Forall (fun v => buildTemplateValue (deepCopyValue v) = buildTemplateValue v) l →
  ∀ element,
    fold_left (fun element item =>
                 mergeTemplateValues element (buildTemplateValue item))
              (deepCopyValue <$> l) element
    = fold_left (fun element item =>
                   mergeTemplateValues element (buildTemplateValue item))
                l element.
Proof.
  induction 1 as [|x l Hx Hl IH]; intros element; csimpl; [done|].
  by rewrite Hx, IH.
Qed.

Lemma buildTemplateValue_deepCopyValue v :
  buildTemplateValue (deepCopyValue v) = buildTemplateValue v.
Proof.
  induction v as [| | | | | | |m IH|m IH|l IH|l IH] using value_tree_ind;
    try reflexivity.
  1-2: rewrite ?buildTemplateValue_primM; cbn [deepCopyValue];
       rewrite !buildTemplateValue_map, <-map_fmap_compose; f_equal;
       apply map_fmap_ext; intros k v Hk; simpl; by eapply IH.
  all: rewrite ?buildTemplateValue_primA; cbn [deepCopyValue buildTemplateValue];
       by rewrite (fold_elements_deepCopyValue l IH).
Qed.

(** X13.  [deepCopyValue] normalises a tree: its result holds generic maps
    and slices only ([primitive.M] and [primitive.A] are converted at every
    depth), copying a copy or a generic tree changes nothing, and the SEO
    plugin's [deepCopyValueGeneric] and [cloneGenericMap] compute the same
    copies as [deepCopyValue] and [cloneMap]. *)
Theorem deepCopyValue_normalises :
  (∀ v, generic (deepCopyValue v)) ∧
  (∀ v, deepCopyValue (deepCopyValue v) = deepCopyValue v) ∧
  (∀ v, generic v → deepCopyValue v = v) ∧
  (∀ v, deepCopyValueGeneric v = deepCopyValue v) ∧
  (∀ src, cloneGenericMap src = cloneMap <$> src).
Proof.
  split; [apply deepCopyValue_generic|].
  split; [intros v; apply generic_deepCopyValue, deepCopyValue_generic|].
  split; [apply generic_deepCopyValue|].
  split; [apply deepCopyValueGeneric_deepCopyValue|].
  intros [src|]; [|done]. unfold cloneGenericMap, cloneMap. simpl. f_equal.
Qed.

(** X14.  The sanitizer does not see the difference between the driver's
    [primitive.M] / [primitive.A] and generic maps and slices: a tree and
    its deep copy have the same skeleton. *)
Theorem sanitizer_ignores_wrappers v :
  buildTemplateValue (deepCopyValue v) = buildTemplateValue v ∧
  buildTemplateValue (deepCopyValueGeneric v) = buildTemplateValue v.
Proof.
  split; [apply buildTemplateValue_deepCopyValue|].
  replace (deepCopyValueGeneric v) with (deepCopyValue v)
    by (symmetry; apply deepCopyValueGeneric_deepCopyValue).
  apply buildTemplateValue_deepCopyValue.
Qed.

Lemma mergeTemplateValues_same s :
  skeleton s → mergeTemplateValues s s = s.
Proof.
  induction 1 as [| | |m Hm IH| |e He IH]; try reflexivity.
  - destruct (mergeTemplateValues_map_lookup m (VMap m)) as (r & -> & Hr);
      [done|].
    f_equal. apply map_eq. intros k. rewrite Hr. simpl.
    unfold readKey. destruct (m !! k) eqn:Hk; simpl; [|done].
    f_equal. eauto.
  - rewrite mergeTemplateValues_slice by done. simpl. rewrite IH.
    pose proof (skeleton_not_nil _ He). by destruct e.
Qed.

Lemma buildTemplateValue_singleton x :
  buildTemplateValue (VSlice [x]) = VSlice [buildTemplateValue x].
Proof.
  rewrite buildTemplateValue_slice_cons. cbn [fold_left].
  by rewrite mergeTemplateValues_nil_l.
Qed.

Lemma buildTemplateValue_repeated x l :
  buildTemplateValue (VSlice (x :: x :: l)) = buildTemplateValue (VSlice (x :: l)).
Proof.
  rewrite !buildTemplateValue_slice_cons. cbn [fold_left].
  rewrite mergeTemplateValues_nil_l.
  by rewrite (mergeTemplateValues_same _ (buildTemplateValue_skeleton x)).
Qed.

(** X15.  Merging a skeleton into itself changes nothing; so an array of
    one or more copies of the same value sanitizes to the one-element array
    holding that value's skeleton, whatever the number of copies. *)
Theorem repeated_elements_collapse v n :
  mergeTemplateValues (buildTemplateValue v) (buildTemplateValue v)
  = buildTemplateValue v ∧
  buildTemplateValue (VSlice (replicate (S n) v))
  = VSlice [buildTemplateValue v] ∧
  buildTemplateValue (VPrimA (replicate (S n) v))
  = VSlice [buildTemplateValue v].
Proof.
  split; [apply mergeTemplateValues_same, buildTemplateValue_skeleton|].
  rewrite buildTemplateValue_primA.
  assert (buildTemplateValue (VSlice (replicate (S n) v))
          = VSlice [buildTemplateValue v]) as Hrep; [|by rewrite Hrep].
  induction n as [|n IH]; [apply buildTemplateValue_singleton|].
  cbn [replicate] in *. by rewrite buildTemplateValue_repeated.
Qed.

End GenericCopies.

(** ** Client directory names *)

Section ClientDirectories.

Lemma directoryChar_cases (c : ascii) :
  directoryChar c = true →
  let n := N_of_ascii c in
  ((97 ≤ n ∧ n ≤ 122) ∨ (48 ≤ n ∧ n ≤ 57) ∨ n = 45 ∨ n = 95)%N.
Proof.
  unfold directoryChar. cbv zeta. intros H.
  repeat (apply orb_true_iff in H as [H|H]);
    rewrite ?andb_true_iff, ?N.leb_le, ?N.eqb_eq in H; lia.
Qed.

Lemma writeRunes_chars name : allChars directoryChar (writeRunes name) = true.
Proof.
  induction name as [|r rest IH]; [done|]. cbn [writeRunes]. cbv zeta.
  destruct ((97 <=? N_of_ascii r) && (N_of_ascii r <=? 122)
            || (48 <=? N_of_ascii r) && (N_of_ascii r <=? 57))%N eqn:Hkeep.
  { cbn [allChars]. unfold directoryChar at 1. cbv zeta. by rewrite Hkeep, IH. }
  destruct ((N_of_ascii r =? 45) || (N_of_ascii r =? 95))%N eqn:Hdash.
  { cbn [allChars]. unfold directoryChar at 1. cbv zeta.
    rewrite Hkeep, IH. cbn [orb]. by rewrite Hdash. }
  destruct (N_of_ascii r =? 32)%N; [|done].
  cbn [allChars]. by rewrite IH.
Qed.

Lemma writeRunes_fixes name :
  allChars directoryChar name = true → writeRunes name = name.
Proof.
  induction name as [|r rest IH]; [done|]. cbn [allChars writeRunes]. cbv zeta.
  intros [Hr Hrest]%andb_true_iff. rewrite (IH Hrest).
  unfold directoryChar in Hr. cbv zeta in Hr.
  destruct ((97 <=? N_of_ascii r) && (N_of_ascii r <=? 122)
            || (48 <=? N_of_ascii r) && (N_of_ascii r <=? 57))%N; [done|].
  simpl in Hr. by rewrite Hr.
Qed.

Lemma ToLower_fixes name :
  allChars directoryChar name = true → ToLower name = name.
Proof.
  induction name as [|r rest IH]; [done|]. cbn [allChars ToLower].
  intros [Hr%directoryChar_cases Hrest]%andb_true_iff. rewrite (IH Hrest).
  f_equal. unfold lowerByte. cbv zeta in *.
  destruct ((65 <=? N_of_ascii r) && (N_of_ascii r <=? 90))%N eqn:Hup; [|done].
  apply andb_true_iff in Hup as [?%N.leb_le ?%N.leb_le]. lia.
Qed.

Lemma directoryChar_no_leading r rest :
  directoryChar r = true → leadingSpace (String r rest) = false.
Proof.
  intros Hr%directoryChar_cases. cbv zeta in Hr.
  cbn [leadingSpace]. unfold isSpace, isSpace2, isSpace3. cbv zeta.
  assert ((N_of_ascii r =? 9) = false ∧ (N_of_ascii r =? 10) = false ∧
          (N_of_ascii r =? 11) = false ∧ (N_of_ascii r =? 12) = false ∧
          (N_of_ascii r =? 13) = false ∧ (N_of_ascii r =? 32) = false ∧
          (N_of_ascii r =? 194) = false ∧ (N_of_ascii r =? 225) = false ∧
          (N_of_ascii r =? 226) = false ∧ (N_of_ascii r =? 227) = false)%N
    as (->&->&->&->&->&->&->&->&->&->)
    by (repeat split; apply N.eqb_neq; lia).
  by destruct rest as [|c2 [|c3 rest3]].
Qed.

Lemma trimRight_fixes name :
  allChars directoryChar name = true → trimRight name = name.
Proof.
  induction name as [|r rest IH]; [done|]. cbn [allChars trimRight]. cbv zeta.
  intros [Hr Hrest]%andb_true_iff. rewrite (IH Hrest).
  destruct (isSpaceRune (String r rest)) eqn:Hrune; [|done].
  assert (leadingSpace (String r rest) = true) as Hlead.
  { apply leadingSpace_true. exists (String r rest), "".
    by rewrite append_empty_r. }
  by rewrite (directoryChar_no_leading _ _ Hr) in Hlead.
Qed.

Lemma TrimSpace_fixes name :
  allChars directoryChar name = true → TrimSpace name = name.
Proof.
  intros Hname. unfold TrimSpace.
  assert (trimLeft name = name) as ->; [|by apply trimRight_fixes].
  apply trimLeft_fixed.
  destruct name as [|r rest]; [done|]. cbn [allChars] in Hname.
  apply andb_true_iff in Hname as [Hr _].
  by apply directoryChar_no_leading.
Qed.

Lemma sanitizeClientDirectoryName_chars name :
  sanitizeClientDirectoryName name ≠ "" ∧
  allChars directoryChar (sanitizeClientDirectoryName name) = true.
Proof.
  unfold sanitizeClientDirectoryName. cbv zeta.
  case_bool_decide; [done|]. case_bool_decide as Hlen; [done|].
  split; [|apply writeRunes_chars].
  intros Hempty. apply Hlen. by rewrite Hempty.
Qed.

Lemma sanitizeClientDirectoryName_fixes name :
  name ≠ "" → allChars directoryChar name = true →
  sanitizeClientDirectoryName name = name.
Proof.
  intros Hne Hchars. unfold sanitizeClientDirectoryName. cbv zeta.
  rewrite (ToLower_fixes _ Hchars), (TrimSpace_fixes _ Hchars),
    (writeRunes_fixes _ Hchars).
  rewrite bool_decide_false by done.
  rewrite bool_decide_false; [done|]. by destruct name.
Qed.

(** X16.  Client directory names.  On ASCII names
    [sanitizeClientDirectoryName] always returns a non-empty name made of
    the characters [a-z], [0-9], [-] and [_] only (so no path separator and
    no dot), it returns such a name unchanged (hence sanitizing twice is
    sanitizing once), and [resolveClientName] only returns such names,
    whatever the request context holds. *)
Theorem client_directory_names_are_safe :
  (∀ name,
     sanitizeClientDirectoryName name ≠ "" ∧
     allChars directoryChar (sanitizeClientDirectoryName name) = true ∧
     sanitizeClientDirectoryName (sanitizeClientDirectoryName name)
     = sanitizeClientDirectoryName name) ∧
  (∀ name,
     name ≠ "" → allChars directoryChar name = true →
     sanitizeClientDirectoryName name = name) ∧
  (∀ clientDataAny,
     resolveClientName clientDataAny ≠ "" ∧
     allChars directoryChar (resolveClientName clientDataAny) = true).
Proof.
  split; [|split].
  - intros name.
    destruct (sanitizeClientDirectoryName_chars name) as [Hne Hchars].
    split; [done|]. split; [done|].
    by apply sanitizeClientDirectoryName_fixes.
  - apply sanitizeClientDirectoryName_fixes.
  - intros [|name|]; try done. apply sanitizeClientDirectoryName_chars.
Qed.

End ClientDirectories.

(** ** Favicon assets and the public list *)

Section Favicons.

Lemma findAssetCDN_cons asset rest name :
  findAssetCDN (asset :: rest) name
  = if usableAsset name asset then getString asset "cdnPath"
    else findAssetCDN rest name.
Proof.
  cbn [findAssetCDN]. cbv zeta. unfold usableAsset, getString.
  destruct (bool_decide (_ = name)); [|done]. cbn [andb].
  destruct (decide (match asset !! "cdnPath" with
                    | Some (VString s) => s
                    | _ => ""
                    end = "")) as [Hcdn|Hcdn].
  - rewrite (bool_decide_true _ Hcdn). cbn [negb].
    rewrite bool_decide_false; [done|]. intros Hneq. by apply Hneq.
  - rewrite (bool_decide_false _ Hcdn). cbn [negb].
    by rewrite bool_decide_true.
Qed.

Lemma findAssetCDN_none assets name :
  (∀ asset, asset ∈ assets → usableAsset name asset = false) →
  findAssetCDN assets name = "".
Proof.
  induction assets as [|asset rest IH]; intros Hnone; [done|].
  rewrite findAssetCDN_cons, (Hnone asset) by (by left).
  apply IH. intros a Ha. apply Hnone. by right.
Qed.

Lemma findAssetCDN_first pre asset post name :
  (∀ a, a ∈ pre → usableAsset name a = false) →
  usableAsset name asset = true →
  findAssetCDN (pre ++ asset :: post) name = getString asset "cdnPath".
Proof.
  intros Hpre Hasset.
  induction pre as [|a pre IH]; cbn [app]; rewrite findAssetCDN_cons.
  - by rewrite Hasset.
  - rewrite (Hpre a) by (by left). apply IH. intros x Hx. apply Hpre. by right.
Qed.

(** X17.  [findAssetCDN] answers with the [cdnPath] of the first asset
    whose [name] is the wanted one and whose [cdnPath] is a non-empty
    string; assets of that name without such a path are passed over, and
    the answer is empty exactly when no asset qualifies. *)
Theorem findAssetCDN_first_usable assets name :
  (∀ pre asset post,
     assets = (pre ++ asset :: post)%list →
     (∀ a, a ∈ pre → usableAsset name a = false) →
     usableAsset name asset = true →
     findAssetCDN assets name = getString asset "cdnPath") ∧
  (findAssetCDN assets name = ""
   ↔ ∀ asset, asset ∈ assets → usableAsset name asset = false).
Proof.
  split.
  - intros pre asset post -> Hpre Hasset. by apply findAssetCDN_first.
  - split; [|apply findAssetCDN_none].
    intros Hempty asset Hin.
    destruct (usableAsset name asset) eqn:Hasset; [|done]. exfalso.
    assert (∃ pre a post, assets = (pre ++ a :: post)%list ∧
                          (∀ x, x ∈ pre → usableAsset name x = false) ∧
                          usableAsset name a = true)
      as (pre & a & post & -> & Hpre & Ha).
    { clear Hempty. induction assets as [|x rest IH]; [by inversion Hin|].
      destruct (usableAsset name x) eqn:Hx.
      - exists [], x, rest. split; [done|]. split; [|done].
        intros y Hy. by inversion Hy.
      - destruct IH as (pre & a & post & -> & Hpre & Ha).
        { inversion Hin; subst; [congruence|done]. }
        exists (x :: pre), a, post. split; [done|]. split; [|done].
        intros y [->|Hy]%elem_of_cons; auto. }
    rewrite (findAssetCDN_first _ _ _ _ Hpre Ha) in Hempty.
    unfold usableAsset in Ha.
    apply andb_true_iff in Ha as [_ Hcdn].
    apply negb_true_iff, bool_decide_eq_false in Hcdn. done.
Qed.

End Favicons.

(** ** The public list of the SEO plugin *)

Section PublicList.

Lemma filtered_filter publicSlice :
  filtered publicSlice
  = List.filter (fun item => negb (isFaviconsEntry item)) publicSlice.
Proof.
  induction publicSlice as [|item rest IH]; [done|].
  cbn [filtered List.filter]. rewrite <-IH. unfold isFaviconsEntry.
  destruct (toGenericMap item) as [m|]; [|done]. cbv zeta.
  destruct (m !! "key") as [[]|]; try by rewrite bool_decide_false.
  by case_bool_decide.
Qed.

Lemma filtered_cons item rest :
  filtered (item :: rest)
  = if isFaviconsEntry item then filtered rest else item :: filtered rest.
Proof. rewrite !filtered_filter. simpl. by destruct (isFaviconsEntry item). Qed.

Lemma isFaviconsEntry_deepCopyValueGeneric item :
  isFaviconsEntry (deepCopyValueGeneric item) = isFaviconsEntry item.
Proof.
  unfold isFaviconsEntry.
  destruct item as [| | | | | | |m|m|l|l]; try reflexivity;
    cbn [deepCopyValueGeneric toGenericMap]; rewrite lookup_fmap;
    by destruct (m !! "key") as [[]|].
Qed.

Lemma filtered_fmap publicSlice :
  filtered (deepCopyValueGeneric <$> publicSlice)
  = deepCopyValueGeneric <$> filtered publicSlice.
Proof.
  rewrite !filtered_filter.
  induction publicSlice as [|item rest IH]; [done|]. csimpl.
  rewrite isFaviconsEntry_deepCopyValueGeneric, IH.
  by destruct (isFaviconsEntry item).
Qed.

Lemma filtered_idem publicSlice :
  filtered (filtered publicSlice) = filtered publicSlice.
Proof.
  rewrite !filtered_filter.
  induction publicSlice as [|item rest IH]; [done|]. simpl.
  destruct (isFaviconsEntry item) eqn:Hitem; simpl; [done|].
  by rewrite Hitem, IH.
Qed.

Lemma readKey_fmap_deepCopyValueGeneric (m : document) k :
  readKey (deepCopyValueGeneric <$> m) k = deepCopyValueGeneric (readKey m k).
Proof. unfold readKey. rewrite lookup_fmap. by destruct (m !! k). Qed.

Lemma toInterfaceSlice_deepCopyValueGeneric v :
  default [] (toInterfaceSlice (deepCopyValueGeneric v))
  = deepCopyValueGeneric <$> default [] (toInterfaceSlice v).
Proof. by destruct v. Qed.

Lemma deepCopyValueGeneric_idem v :
  deepCopyValueGeneric (deepCopyValueGeneric v) = deepCopyValueGeneric v.
Proof.
  rewrite !deepCopyValueGeneric_deepCopyValue.
  apply generic_deepCopyValue, deepCopyValue_generic.
Qed.

(** The entries [updatePluginFavicons] keeps, for a plugin document. *)
Lemma publicWithFavicons_unfold doc faviconsEntry :
  publicWithFavicons doc faviconsEntry
  = VMap faviconsEntry
    :: (deepCopyValueGeneric
          <$> filtered (default []
                (toInterfaceSlice
                   (readKey (default ∅ (getMap doc "config")) "public")))).
Proof.
  unfold publicWithFavicons. cbv zeta. f_equal.
  destruct (getMap doc "config") as [config|]; simpl; [|done].
  by rewrite readKey_fmap_deepCopyValueGeneric,
    toInterfaceSlice_deepCopyValueGeneric, filtered_fmap.
Qed.

(** X18.  The public list that [updatePluginFavicons] stores holds exactly
    one favicons entry, the new one, at its head; every other entry of the
    old list is kept, in order, as a deep copy.  Generating again from the
    stored list (however the driver wraps it on the way back) replaces the
    head and keeps the rest: favicons entries never pile up. *)
Theorem public_list_holds_one_favicons_entry doc faviconsEntry :
  faviconsEntry !! "key" = Some (VString "favicons") →
  let public := publicWithFavicons doc faviconsEntry in
  let oldPublic :=
    default [] (toInterfaceSlice
                  (readKey (default ∅ (getMap doc "config")) "public")) in
  List.filter isFaviconsEntry public = [VMap faviconsEntry] ∧
  tl public
  = deepCopyValueGeneric
      <$> List.filter (fun item => negb (isFaviconsEntry item)) oldPublic ∧
  ∀ doc' config' faviconsEntry',
    getMap doc' "config" = Some config' →
    deepCopyValueGeneric (readKey config' "public")
    = deepCopyValueGeneric (VSlice public) →
    publicWithFavicons doc' faviconsEntry' = VMap faviconsEntry' :: tl public.
Proof.
  intros Hkey public oldPublic. subst public oldPublic.
  rewrite publicWithFavicons_unfold.
  set (old := default [] (toInterfaceSlice _)).
  assert (isFaviconsEntry (VMap faviconsEntry) = true) as Hentry.
  { unfold isFaviconsEntry. simpl. rewrite Hkey. by apply bool_decide_eq_true. }
  split; [|split].
  - cbn [List.filter]. rewrite Hentry. f_equal.
    rewrite <-filtered_fmap, filtered_filter.
    induction (deepCopyValueGeneric <$> old) as [|item rest IH]; [done|].
    simpl. destruct (isFaviconsEntry item) eqn:Hitem; simpl; [done|].
    by rewrite Hitem.
  - cbn [tl]. by rewrite filtered_filter.
  - intros doc' config' faviconsEntry' Hconfig Hstored.
    cbn [tl]. unfold publicWithFavicons. cbv zeta. f_equal.
    rewrite Hconfig. simpl.
    rewrite readKey_fmap_deepCopyValueGeneric, Hstored.
    rewrite toInterfaceSlice_deepCopyValueGeneric.
    cbn [toInterfaceSlice default id from_option].
    rewrite filtered_fmap, filtered_cons, Hentry, filtered_fmap, filtered_idem.
    rewrite <-list_fmap_compose. apply list_fmap_ext. intros i item _. simpl.
    apply deepCopyValueGeneric_idem.
Qed.

End PublicList.

(** ** What the tenants hold after the fan-out *)

Section FanOutContents.

Variable filterMatches : string → string → document → bool.
Variable decodeClientName : document → option string.




Lemma prepareDocuments_skips_nil documents :
  ∀ idx idx' sanitizedDocs templateIDs w,
    match prepareDocuments idx documents sanitizedDocs templateIDs w with
    | (Ok prepared, w1) =>
        prepareDocuments idx' (Some <$> usableDocuments documents)
          sanitizedDocs templateIDs w = (Ok prepared, w1)
    | (Err _, w1) =>
        ∃ e, prepareDocuments idx' (Some <$> usableDocuments documents)
               sanitizedDocs templateIDs w = (Err e, w1)
    end.
Proof.
  induction documents as [|[rawDoc|] rest IH];
    intros idx idx' sanitizedDocs templateIDs w.
  - done.
  - change (usableDocuments (Some rawDoc :: rest))
      with (rawDoc :: usableDocuments rest).
    rewrite fmap_cons. cbn [prepareDocuments].
    destruct (prepareTemplateDocument rawDoc w) as [[[sd id0]|e] w1]; [|eauto].
    apply IH.
  - change (usableDocuments (None :: rest)) with (usableDocuments rest).
    cbn [prepareDocuments]. apply IH.
Qed.

Lemma ApplyStructureTemplate_prepared
    templateKey documents documents' targetField w :
  documents ≠ [] → documents' ≠ [] →
  prepareDocuments 0 documents [] [] w = prepareDocuments 0 documents' [] [] w →
  ApplyStructureTemplate filterMatches decodeClientName
    templateKey documents targetField w
  = ApplyStructureTemplate filterMatches decodeClientName
      templateKey documents' targetField w.
Proof.
  intros Hne Hne' Hprep. unfold ApplyStructureTemplate.
  case_bool_decide; [done|].
  rewrite (bool_decide_false (List.length documents = 0%nat))
    by (by destruct documents).
  rewrite (bool_decide_false (List.length documents' = 0%nat))
    by (by destruct documents').
  unfold bind at 1. rewrite Hprep. reflexivity.
Qed.

(** X20.  Nil entries of the document list are skipped without a trace: a
    fan-out succeeds on a list exactly when it succeeds on the list with
    the nil entries removed, with the same summary and the same final
    state. *)
Theorem nil_documents_are_skipped
    templateKey documents targetField w summary w' :
  ApplyStructureTemplate filterMatches decodeClientName
    templateKey documents targetField w = (Ok summary, w')
  ↔ ApplyStructureTemplate filterMatches decodeClientName
      templateKey (Some <$> usableDocuments documents) targetField w
    = (Ok summary, w').
Proof.
  assert (∀ docs sds ids w1,
            prepareDocuments 0 docs [] [] w = (Ok (sds, ids), w1) →
            sds ≠ [] → docs ≠ []) as Hnonempty.
  { intros docs sds ids w1 Hprep Hsds ->. simpl in Hprep.
    by injection Hprep as <- _ _. }
  pose proof (prepareDocuments_skips_nil documents 0 0 [] [] w) as Hskip.
  split; intros Hrun;
    destruct (ApplyStructureTemplate_Ok _ _ _ _ _ _ _ _ Hrun)
      as (sds & ids & w1 & _ & _ & _ & Hprep & Hsds & _).
  - rewrite Hprep in Hskip. rewrite <-Hrun. symmetry.
    apply ApplyStructureTemplate_prepared; [by eapply Hnonempty..|].
    by rewrite Hprep, Hskip.
  - rewrite Hprep in Hskip.
    destruct (prepareDocuments 0 documents [] [] w) as [[prepared|e] w0] eqn:Hp;
      [|by destruct Hskip].
    injection Hskip as <- <-. rewrite <-Hrun.
    apply ApplyStructureTemplate_prepared; [|by eapply Hnonempty|by rewrite Hp, Hprep].
    pose proof (Hnonempty _ _ _ _ Hprep Hsds) as Husable.
    intros ->. by apply Husable.
Qed.

End FanOutContents.

(** ** The further properties on the samples *)

Section OnSampleRuns.

Lemma updated_count_is_tenants_times_documents_witness :
  Samples.applyOn Samples.templateDocs Samples.twoTenants
  = (Ok (Samples.summaryOf
           (Samples.applyOn Samples.templateDocs Samples.twoTenants)),
     RunSamples.afterFirstRun) ∧
  UpdatedDocuments
    (Samples.summaryOf (Samples.applyOn Samples.templateDocs Samples.twoTenants))
  = (List.length
       (ClientNames
          (Samples.summaryOf
             (Samples.applyOn Samples.templateDocs Samples.twoTenants)))
     * List.length (usableDocuments Samples.templateDocs))%nat.
Proof.
  split; [vm_compute; reflexivity|].
  apply (updated_count_is_tenants_times_documents
           Samples.stringFieldEquals Samples.clientNameField
           "template-1" Samples.templateDocs "" Samples.twoTenants
           (Samples.summaryOf
              (Samples.applyOn Samples.templateDocs Samples.twoTenants))
           RunSamples.afterFirstRun).
  vm_compute. reflexivity.
Defined.

Lemma sample_tenants :
  ∀ tenant,
    tenant ∈ ClientNames
               (Samples.summaryOf
                  (Samples.applyOn Samples.templateDocs Samples.twoTenants)) →
    tenant = "acme" ∨ tenant = "zenith".
Proof.
  intros tenant Hin. vm_compute in Hin.
  apply elem_of_cons in Hin as [?|Hin]; [by left|].
  apply list_elem_of_singleton in Hin. by right.
Defined.

Lemma sample_tenants_distinct_identities :
  ∀ tenant,
    tenant ∈ ClientNames
               (Samples.summaryOf
                  (Samples.applyOn Samples.templateDocs Samples.twoTenants)) →
    NoDup (identities
             (documentsOf Samples.twoTenants tenant "structure_websites")).
Proof.
  intros tenant [-> | ->]%sample_tenants;
    apply (bool_decide_unpack _); vm_compute; exact I.
Defined.

Lemma sample_tenants_converged :
  ∀ tenant,
    tenant ∈ ClientNames
               (Samples.summaryOf
                  (Samples.applyOn Samples.templateDocs Samples.twoTenants)) →
    converged
      (preparedOf (prepareDocuments 0 Samples.templateDocs [] []
                     RunSamples.afterFirstRun)).1
      (preparedOf (prepareDocuments 0 Samples.templateDocs [] []
                     RunSamples.afterFirstRun)).2
      (documentsOf RunSamples.afterFirstRun tenant "structure_websites").
Proof.
  intros tenant Hin.
  apply (ApplyStructureTemplate_converged_aux
           Samples.stringFieldEquals Samples.clientNameField
           "template-1" Samples.templateDocs "" Samples.twoTenants
           (Samples.summaryOf
              (Samples.applyOn Samples.templateDocs Samples.twoTenants))
           RunSamples.afterFirstRun _ _
           (prepareDocuments 0 Samples.templateDocs [] [] Samples.twoTenants).2).
  - vm_compute. reflexivity.
  - vm_compute. reflexivity.
  - apply sample_tenants_distinct_identities.
  - exact Hin.
Defined.

Lemma fan_out_on_converged_tenants_witness :
  DeletedDocuments
    (Samples.summaryOf
       (Samples.applyOn Samples.templateDocs RunSamples.afterFirstRun))
  = 0%nat ∧
  ∀ db,
    documentsOf (Samples.applyOn Samples.templateDocs RunSamples.afterFirstRun).2
      db "structure_websites"
    = documentsOf RunSamples.afterFirstRun db "structure_websites".
Proof.
  apply (fan_out_on_converged_tenants
           Samples.stringFieldEquals Samples.clientNameField
           "template-1" Samples.templateDocs "" RunSamples.afterFirstRun
           (Samples.summaryOf
              (Samples.applyOn Samples.templateDocs RunSamples.afterFirstRun))
           (Samples.applyOn Samples.templateDocs RunSamples.afterFirstRun).2
           (preparedOf (prepareDocuments 0 Samples.templateDocs [] []
                          RunSamples.afterFirstRun)).1
           (preparedOf (prepareDocuments 0 Samples.templateDocs [] []
                          RunSamples.afterFirstRun)).2
           (prepareDocuments 0 Samples.templateDocs [] []
              RunSamples.afterFirstRun).2).
  - vm_compute. reflexivity.
  - vm_compute. reflexivity.
  - apply (bool_decide_unpack _). vm_compute. exact I.
  - intros tenant Hin. apply sample_tenants_converged.
    vm_compute in Hin. vm_compute. exact Hin.
Defined.

Lemma reapplication_is_stable_witness :
  TargetField
    (Samples.summaryOf
       (Samples.applyOn Samples.templateDocs RunSamples.afterFirstRun))
  = TargetField
      (Samples.summaryOf
         (Samples.applyOn Samples.templateDocs Samples.twoTenants)) ∧
  ClientNames
    (Samples.summaryOf
       (Samples.applyOn Samples.templateDocs RunSamples.afterFirstRun))
  = ClientNames
      (Samples.summaryOf
         (Samples.applyOn Samples.templateDocs Samples.twoTenants)) ∧
  UpdatedDocuments
    (Samples.summaryOf
       (Samples.applyOn Samples.templateDocs RunSamples.afterFirstRun))
  = UpdatedDocuments
      (Samples.summaryOf
         (Samples.applyOn Samples.templateDocs Samples.twoTenants)) ∧
  DeletedDocuments
    (Samples.summaryOf
       (Samples.applyOn Samples.templateDocs RunSamples.afterFirstRun))
  = 0%nat ∧
  ∀ db,
    documentsOf (Samples.applyOn Samples.templateDocs RunSamples.afterFirstRun).2
      db "structure_websites"
    = documentsOf RunSamples.afterFirstRun db "structure_websites".
Proof.
  apply (reapplication_is_stable
           Samples.stringFieldEquals Samples.clientNameField
           "template-1" Samples.templateDocs "" Samples.twoTenants
           (Samples.summaryOf
              (Samples.applyOn Samples.templateDocs Samples.twoTenants))
           RunSamples.afterFirstRun
           (Samples.summaryOf
              (Samples.applyOn Samples.templateDocs RunSamples.afterFirstRun))
           (Samples.applyOn Samples.templateDocs RunSamples.afterFirstRun).2).
  - intros d Hd.
    repeat (apply elem_of_cons in Hd as [Hd|Hd];
            [injection Hd as ->; reflexivity|]).
    by apply elem_of_nil in Hd.
  - apply (bool_decide_unpack _). vm_compute. exact I.
  - apply sample_tenants_distinct_identities.
  - vm_compute. reflexivity.
  - vm_compute. reflexivity.
Defined.

Lemma template_definition_is_stored_witness :
  ∃ d,
    d ∈ documentsOf RunSamples.afterFirstRun
          (coreDBName Samples.twoTenants) "structure_templates" ∧
    d !! "template_key" = Some (VString "template-1") ∧
    d !! "documents"
    = Some (VSlice (VMap <$> (preparedOf
                                (prepareDocuments 0 Samples.templateDocs [] []
                                   Samples.twoTenants)).1)).
Proof.
  apply (template_definition_is_stored
           Samples.stringFieldEquals Samples.clientNameField
           "template-1" Samples.templateDocs "" Samples.twoTenants
           (Samples.summaryOf
              (Samples.applyOn Samples.templateDocs Samples.twoTenants))
           RunSamples.afterFirstRun).
  vm_compute. reflexivity.
Defined.


Lemma public_list_holds_one_favicons_entry_witness :
  RunSamples.newFavicons !! "key" = Some (VString "favicons") ∧
  List.filter isFaviconsEntry
    (publicWithFavicons RunSamples.pluginDocument RunSamples.newFavicons)
  = [VMap RunSamples.newFavicons] ∧
  tl (publicWithFavicons RunSamples.pluginDocument RunSamples.newFavicons)
  = deepCopyValueGeneric
      <$> List.filter (fun item => negb (isFaviconsEntry item))
            (default []
               (toInterfaceSlice
                  (readKey (default ∅ (getMap RunSamples.pluginDocument "config"))
                     "public"))) ∧
  ∀ doc' config' faviconsEntry',
    getMap doc' "config" = Some config' →
    deepCopyValueGeneric (readKey config' "public")
    = deepCopyValueGeneric
        (VSlice (publicWithFavicons RunSamples.pluginDocument
                   RunSamples.newFavicons)) →
    publicWithFavicons doc' faviconsEntry'
    = VMap faviconsEntry'
      :: tl (publicWithFavicons RunSamples.pluginDocument RunSamples.newFavicons).
Proof.
  split; [reflexivity|].
  apply (public_list_holds_one_favicons_entry
           RunSamples.pluginDocument RunSamples.newFavicons).
  reflexivity.
Defined.

(** On the sample: the favicons entry of the stored list is replaced, the
    analytics entry stays behind it. *)
Example sample_public_list :
  publicWithFavicons RunSamples.pluginDocument RunSamples.newFavicons
  = [ VMap RunSamples.newFavicons; VMap {[ "key" := VString "analytics" ]} ].
Proof. vm_compute. reflexivity. Qed.

Example sample_directory_names :
  sanitizeClientDirectoryName "  Acme Corp. / Berlin_2 " = "acme-corp--berlin_2" ∧
  sanitizeClientDirectoryName "../.." = "default" ∧
  resolveClientName NoClientData = "default".
Proof. repeat split; vm_compute; reflexivity. Qed.

Example sample_nil_entries_skipped :
  Samples.applyOn RunSamples.templateDocsWithNils Samples.twoTenants
  = Samples.applyOn Samples.templateDocs Samples.twoTenants.
Proof. vm_compute. reflexivity. Qed.

End OnSampleRuns.

(** ** A fan-out that fails midway *)

Section FanOutFailure.

Variable filterMatches : string → string → document → bool.
Variable decodeClientName : document → option string.

(** The tenant loop fails only when a registration does not decode, and
    then it has processed the registrations before that one. *)
Lemma syncClients_Err docs ids cursor :
  ∀ summary w e w',
    syncClients decodeClientName cursor docs ids summary w = (Err e, w') →
    e = ErrDecodeClient ∧
    ∃ pre bad post summary1,
      cursor = (pre ++ bad :: post)%list ∧
      decodeClientName bad = None ∧
      syncClients decodeClientName pre docs ids summary w = (Ok summary1, w').
Proof.
  induction cursor as [|clientDoc rest IH]; intros summary w e w'; [done|].
  cbn [syncClients].
  destruct (decodeClientName clientDoc) as [name0|] eqn:Hdec.
  2:{ intros [= <- <-]. split; [done|]. by exists [], clientDoc, rest, summary. }
  case_bool_decide as Hblank.
  - intros (-> & pre & bad & post & s1 & -> & Hbad & Hpre)%IH.
    split; [done|]. exists (clientDoc :: pre), bad, post, s1.
    split; [done|]. split; [done|].
    cbn [syncClients]. by rewrite Hdec, bool_decide_true.
  - unfold bind at 1.
    destruct (upsertDocuments_spec (TrimSpace name0) docs summary w)
      as (s1 & w1 & Hup & _).
    rewrite Hup. unfold bind at 1.
    destruct (deleteOutdated_spec (TrimSpace name0) ids w1)
      as (deleted & w2 & Hdel & _).
    rewrite Hdel.
    intros (-> & pre & bad & post & s2 & -> & Hbad & Hpre)%IH.
    split; [done|]. exists (clientDoc :: pre), bad, post, s2.
    split; [done|]. split; [done|].
    cbn [syncClients]. rewrite Hdec, bool_decide_false by done.
    unfold bind at 1. rewrite Hup. unfold bind at 1. by rewrite Hdel.
Qed.

(** What a fan-out that fails on decoding went through. *)
Lemma ApplyStructureTemplate_Err_decode
    templateKey documents targetField w w' :
  ApplyStructureTemplate filterMatches decodeClientName
    templateKey documents targetField w = (Err ErrDecodeClient, w') →
  ∃ sds ids w1 w2,
    prepareDocuments 0 documents [] [] w = (Ok (sds, ids), w1) ∧
    upsertTemplateDefinition filterMatches (coreDBName w1) templateKey
      (cloneMap <$> sds) w1 = (Ok tt, w2) ∧
    syncClients decodeClientName
      (registrations filterMatches w2
         (effectiveTargetField filterMatches templateKey
            (defaultedField targetField)
            (documentsOf w1 (coreDBName w1) "db_clients"))
         templateKey)
      sds ids
      (initialSummary templateKey
         (effectiveTargetField filterMatches templateKey
            (defaultedField targetField)
            (documentsOf w1 (coreDBName w1) "db_clients")))
      w2 = (Err ErrDecodeClient, w').
Proof.
  unfold ApplyStructureTemplate.
  case_bool_decide as Hkey; [done|]. case_bool_decide as Hlen; [done|].
  unfold bind at 1.
  destruct (prepareDocuments 0 documents [] [] w) as [[[sds ids]|e] w1] eqn:Hprep.
  2:{ apply prepareDocuments_error in Hprep as (i & cause & ->). done. }
  cbn [fst snd]. case_bool_decide as Hsds; [done|].
  unfold bind at 1, gets at 1.
  destruct (mongoClientReady w1) eqn:Hready; [|done]. cbn [negb].
  unfold bind at 1, gets at 1. unfold bind at 1, gets at 1.
  unfold bind at 1.
  destruct (upsertTemplateDefinition_spec filterMatches
              (if bool_decide (envMongoDBName w1 = "") then "core"
               else envMongoDBName w1)
              templateKey (cloneMap <$> sds) w1) as (w2 & Htpl & Hframe).
  rewrite Htpl.
  unfold bind at 1, gets at 1. unfold bind, ret.
  match goal with |- context [syncClients _ ?c _ _ ?s ?w] =>
    destruct (syncClients decodeClientName c sds ids s w)
      as [[summary0|e] w3] eqn:Hsync end; [done|].
  intros [= -> <-].
  exists sds, ids, w1, w2.
  split; [done|]. split; [exact Htpl|].
  rewrite <-Hsync. unfold registrations, initialSummary, defaultedField.
  rewrite (changesOnly_coreDBName _ _ _ Hframe). reflexivity.
Qed.

(** X21.  No rollback.  When [ApplyStructureTemplate] fails because a
    matching registration does not decode, the writes made until then stay:
    the template is stored in the shared [structure_templates] collection,
    and every tenant registered before the failing registration has
    converged to the template. *)
Theorem failed_fan_out_is_not_rolled_back
    templateKey documents targetField w w' :
  ApplyStructureTemplate filterMatches decodeClientName
    templateKey documents targetField w = (Err ErrDecodeClient, w') →
  ∃ pre bad post,
    registrations filterMatches w
      (effectiveTargetField filterMatches templateKey
         (defaultedField targetField)
         (documentsOf w (coreDBName w) "db_clients"))
      templateKey
    = (pre ++ bad :: post)%list ∧
    decodeClientName bad = None ∧
    (∃ d, d ∈ documentsOf w' (coreDBName w) "structure_templates" ∧
          d !! "template_key" = Some (VString templateKey)) ∧
    ((∀ tenant, tenant ∈ tenantNames decodeClientName pre →
        NoDup (identities (documentsOf w tenant "structure_websites"))) →
     ∀ tenant, tenant ∈ tenantNames decodeClientName pre →
       converged (preparedOf (prepareDocuments 0 documents [] [] w)).1
                 (preparedOf (prepareDocuments 0 documents [] [] w)).2
                 (documentsOf w' tenant "structure_websites")).
Proof.
  intros (sds & ids & w1 & w2 & Hprep & Htpl & Hsync)
    %ApplyStructureTemplate_Err_decode.
  unfold preparedOf. rewrite Hprep. cbn [fst snd].
  assert (Forall2 preparedAs sds ids) as Hpa
    by (eapply (prepareDocuments_preparedAs _ _ [] []); [constructor|done]).
  pose proof (prepareDocuments_frame _ _ _ _ _ _ _ Hprep) as Hw1.
  pose proof Hw1 as (_ & He1 & _ & Hst1).
  assert (coreDBName w1 = coreDBName w) as Hcore
    by (unfold coreDBName; by rewrite He1).
  assert (∀ db coll, documentsOf w1 db coll = documentsOf w db coll) as Hdocs1
    by (intros db coll; unfold documentsOf; by rewrite Hst1).
  rewrite Hcore, Hdocs1 in Hsync. rewrite Hcore in Htpl.
  destruct (upsertTemplateDefinition_spec filterMatches (coreDBName w)
              templateKey (cloneMap <$> sds) w1) as (w2' & Htpl' & Hframe).
  rewrite Htpl in Htpl'. injection Htpl' as <-.
  rewrite (registrations_frame filterMatches "structure_templates" w1 w2)
    in Hsync by done.
  assert (∀ field, registrations filterMatches w1 field templateKey
                   = registrations filterMatches w field templateKey) as Hreg.
  { intros field. unfold registrations. by rewrite Hcore, Hdocs1. }
  rewrite Hreg in Hsync.
  apply syncClients_Err in Hsync
    as (_ & pre & bad & post & summary1 & Hcursor & Hbad & Hpre).
  exists pre, bad, post. split; [done|]. split; [done|].
  pose proof (syncClients_frame decodeClientName _ _ _ _ _ _ _ Hpre)
    as (_ & _ & _ & Hkeep).
  split.
  - apply upsertTemplateDefinition_stores in Htpl as (d & Hd & Hk & _).
    exists d. split; [|done]. by rewrite Hkeep.
  - intros Huniq.
    apply (syncClients_spec decodeClientName _ _ Hpa) in Hpre
      as (_ & _ & _ & _ & _ & Hconv).
    apply Hconv. intros name Hname.
    destruct Hframe as (_ & _ & _ & Hdocs2).
    rewrite Hdocs2, Hdocs1 by done. by apply Huniq.
Qed.

End FanOutFailure.

Section OnFailureSamples.

Lemma failed_fan_out_is_not_rolled_back_witness :
  ∃ pre bad post,
    registrations Samples.stringFieldEquals FailureSamples.brokenRegistry
      (effectiveTargetField Samples.stringFieldEquals "template-1"
         (defaultedField "")
         (documentsOf FailureSamples.brokenRegistry
            (coreDBName FailureSamples.brokenRegistry) "db_clients"))
      "template-1"
    = (pre ++ bad :: post)%list ∧
    Samples.clientNameField bad = None ∧
    (∃ d, d ∈ documentsOf
                (Samples.applyOn Samples.templateDocs
                   FailureSamples.brokenRegistry).2
                (coreDBName FailureSamples.brokenRegistry)
                "structure_templates" ∧
          d !! "template_key" = Some (VString "template-1")) ∧
    ((∀ tenant, tenant ∈ tenantNames Samples.clientNameField pre →
        NoDup (identities
                 (documentsOf FailureSamples.brokenRegistry tenant
                    "structure_websites"))) →
     ∀ tenant, tenant ∈ tenantNames Samples.clientNameField pre →
       converged
         (preparedOf (prepareDocuments 0 Samples.templateDocs [] []
                        FailureSamples.brokenRegistry)).1
         (preparedOf (prepareDocuments 0 Samples.templateDocs [] []
                        FailureSamples.brokenRegistry)).2
         (documentsOf
            (Samples.applyOn Samples.templateDocs
               FailureSamples.brokenRegistry).2
            tenant "structure_websites")).
Proof.
  apply (failed_fan_out_is_not_rolled_back
           Samples.stringFieldEquals Samples.clientNameField
           "template-1" Samples.templateDocs "" FailureSamples.brokenRegistry
           (Samples.applyOn Samples.templateDocs
              FailureSamples.brokenRegistry).2).
  vm_compute. reflexivity.
Defined.

(** On the sample: the call fails, acme has received both documents,
    zenith (registered after the broken entry) has received nothing. *)
Example sample_failed_fan_out :
  (Samples.applyOn Samples.templateDocs FailureSamples.brokenRegistry).1
  = Err ErrDecodeClient ∧
  List.length
    (documentsOf
       (Samples.applyOn Samples.templateDocs FailureSamples.brokenRegistry).2
       "acme" "structure_websites") = 2%nat ∧
  documentsOf
    (Samples.applyOn Samples.templateDocs FailureSamples.brokenRegistry).2
    "zenith" "structure_websites" = [].
Proof. repeat split; vm_compute; reflexivity. Qed.

End OnFailureSamples.

(** ** White space that is not ASCII, on samples *)

Section OnUnicodeSamples.

Example trim_unicode_white_space :
  TrimSpace UnicodeSamples.noBreakSpace = "" ∧
  TrimSpace (UnicodeSamples.noBreakSpace ++ " acme"
             ++ UnicodeSamples.ideographicSpace ++ " ") = "acme" ∧
  TrimSpace (UnicodeSamples.noBreakSpace ++ Samples.homepageId)
  = Samples.homepageId ∧
  TrimSpace (" a " ++ UnicodeSamples.strayByte)
  = "a " ++ UnicodeSamples.strayByte.
Proof. repeat split; vm_compute; reflexivity. Qed.

(** An [_id] of white space only gets a generated identity, and an [_id]
    padded with white space is parsed without the padding. *)
Example prepare_trims_unicode_white_space :
  (prepareTemplateDocument
     {[ "_id" := VString UnicodeSamples.noBreakSpace ]} Samples.twoTenants).1
  = Ok ({[ "_id" := VObjectID (oidSource Samples.twoTenants 0) ]},
        oidSource Samples.twoTenants 0) ∧
  (prepareTemplateDocument
     {[ "_id" := VString (UnicodeSamples.noBreakSpace ++ Samples.homepageId) ]}
     Samples.twoTenants).1
  = Ok ({[ "_id" := VObjectID Samples.homepageOid ]}, Samples.homepageOid).
Proof. split; vm_compute; reflexivity. Qed.

(** A registration named by white space only names no tenant. *)
Example tenant_names_trim_unicode_white_space :
  tenantNames Samples.clientNameField
    [ Samples.registration UnicodeSamples.noBreakSpace "template" "t";
      Samples.registration
        (UnicodeSamples.ideographicSpace ++ "acme" ++ UnicodeSamples.noBreakSpace)
        "template" "t" ]
  = ["acme"].
Proof. vm_compute. reflexivity. Qed.

End OnUnicodeSamples.
